(** * d_analog: the Device Connection Manager and the ADC scan scheduler

    A shallow embedding of [d_analog/Linuxmod_AM335x/d_analog.c]:
    the per-port detection state machines run by [Device3TimerInterrupt1]
    with its start-up sequencer, the ADC scan scheduler
    [Device1TimerInterrupt1] and the SPI transfer [SpiUpdate] it uses, the
    control channel [Device1Write], the pin commands of [Device3Write],
    the test mode commands of [Device2Ioctl] and the start/stop interface
    of the NXT colour sensor engine.

    Conventions.
    - [UBYTE] and [UWORD] variables are integers in [Z]; every store that can
      leave the range of the C type is written with its wrap-around.
    - The module's parallel per-port arrays ([InputPort[Port]],
      [pAnalog->InDcm[Port]], [NxtColorState[Port]], ...) are grouped per
      port: one record holds all the cells that the loop body touches for
      one value of [Port].
    - Values that other interrupt handlers or the hardware write (ADC readings,
      pin levels) are inputs of a tick.
    - The code is modelled as compiled with [DEBUG], [DISABLE_OLD_COLOR] and
      [DISABLE_FAST_DATALOG_BUFFER] undefined. *)

From Stdlib Require Import ZArith Lia Bool List.
From stdpp Require Import base tactics list list_numbers.
Import ListNotations.
Local Open Scope Z_scope.

(** ** Machine integers *)

Definition UBYTE (x : Z) : Z := x mod 256.
Definition UWORD (x : Z) : Z := x mod 65536.

(** A value stored in an [int] of 32 bits. *)
Definition INT (x : Z) : Z := (x + 2147483648) mod 4294967296 - 2147483648.

(** The C test [if (x & (0x01 << n))]. *)
Definition bit_set (x n : Z) : bool := negb (Z.land x (Z.shiftl 1 n) =? 0).

(** The C statement [x |= (0x01 << n)]. *)
Definition set_bit (x n : Z) : Z := Z.lor x (Z.shiftl 1 n).

(** ** Enumerations *)

(** [enum InputPortPins] *)
Definition INPUT_PORT_PIN1 : Z := 0.
Definition INPUT_PORT_PIN2 : Z := 1.
Definition INPUT_PORT_PIN5 : Z := 2.
Definition INPUT_PORT_PIN6 : Z := 3.
Definition INPUT_PORT_BUF : Z := 4.
Definition INPUT_PORT_PINS : Z := 5.
Definition INPUT_PORT_VALUE : Z := 6.

(** [enum OutputPortPins] *)
Definition OUTPUT_PORT_PIN1 : Z := 0.
Definition OUTPUT_PORT_PIN2 : Z := 1.
Definition OUTPUT_PORT_PIN5W : Z := 2.
Definition OUTPUT_PORT_PIN5R : Z := 3.
Definition OUTPUT_PORT_PIN6 : Z := 4.
Definition OUTPUT_PORT_PINS : Z := 5.
Definition OUTPUT_PORT_VALUE : Z := 6.

(** [enum DCM_STATE] *)
Inductive DCM_STATE : Set :=
  | DCM_INIT
  | DCM_FLOATING_DELAY
  | DCM_FLOATING
  | DCM_WAITING_FOR_PIN5_LOW
  | DCM_WAITING_FOR_PIN6_LOW
  | DCM_CONNECTION
  | DCM_PIN2_LOW
  | DCM_NXT_TOUCH_CHECK
  | DCM_NXT_COLOR_INIT
  | DCM_NXT_COLOR_WAIT
  | DCM_NXT_COLOR_START
  | DCM_NXT_COLOR_BUSY
  | DCM_CONNECTED_WAITING_FOR_PIN2_HIGH
  | DCM_PIN1_LOADED
  | DCM_CONNECTED_WAITING_FOR_PIN1_TO_FLOAT
  | DCM_PIN6_HIGH
  | DCM_CONNECTED_WAITING_FOR_PIN6_LOW
  | DCM_PIN5_LOW
  | DCM_CONNECTED_WAITING_FOR_PIN5_HIGH
  | DCM_CONNECTED_WAITING_FOR_PORT_OPEN
  | DCM_DISABLED.

(** The device types and connection types that d_analog.c names.  Their
    declarations are in lms2012.h. *)
Inductive TYPE : Set :=
  | TYPE_NXT_TOUCH
  | TYPE_NXT_LIGHT
  | TYPE_NXT_SOUND
  | TYPE_NXT_COLOR
  | TYPE_TACHO
  | TYPE_MINITACHO
  | TYPE_NEWTACHO
  | TYPE_TOUCH
  | TYPE_NXT_TEST
  | TYPE_NXT_IIC
  | TYPE_UNKNOWN
  | TYPE_NONE
  | TYPE_ERROR.

Inductive CONN : Set :=
  | CONN_NXT_COLOR
  | CONN_NXT_DUMB
  | CONN_NXT_IIC
  | CONN_INPUT_DUMB
  | CONN_INPUT_UART
  | CONN_OUTPUT_DUMB
  | CONN_OUTPUT_INTELLIGENT
  | CONN_OUTPUT_TACHO
  | CONN_NONE
  | CONN_ERROR.

(** How a GPIO line of a port is driven: [PINFloat] makes it an input,
    [PINHigh] and [PINLow] make it an output at that level. *)
Inductive PinDrive : Set := PinFloating | PinHigh | PinLow.

(** ** Thresholds and timing constants of d_analog.c *)

Definition IN_CONNECT_STEADY_TIME : Z := 350.
Definition IN_DISCONNECT_STEADY_TIME : Z := 100.

Definition IN1_NEAR_5V : Z := 4800.
Definition IN1_NEAR_PIN2 : Z := 3100.
Definition IN1_TOUCH_HIGH : Z := 950.
Definition IN1_TOUCH_LOW : Z := 850.
Definition IN1_NEAR_GND : Z := 100.
Definition IN6_NEAR_GND : Z := 150.

Definition OUT5_IIC_HIGH : Z := 3700.
Definition OUT5_IIC_LOW : Z := 2800.
Definition OUT5_BALANCE_HIGH : Z := 2600.
Definition OUT5_BALANCE_LOW : Z := 2400.
Definition OUT5_LIGHT_HIGH : Z := 850.
Definition OUT5_LIGHT_LOW : Z := 650.
Definition OUT5_NEAR_GND : Z := 100.
Definition OUT5_DUMP_HIGH : Z := 2350.
Definition OUT5_DUMP_LOW : Z := 1150.
Definition OUT5_MINITACHO_HIGH1 : Z := 2000.
Definition OUT5_MINITACHO_LOW1 : Z := 1600.
Definition OUT5_NEWTACHO_HIGH1 : Z := 1600.
Definition OUT5_NEWTACHO_LOW1 : Z := 1200.
Definition OUT5_INTELLIGENT_HIGH1 : Z := 1150.
Definition OUT5_INTELLIGENT_LOW1 : Z := 850.
Definition OUT5_INTELLIGENT_HIGH2 : Z := 1150.
Definition OUT5_INTELLIGENT_LOW2 : Z := 850.
Definition OUT5_NEWTACHO_HIGH2 : Z := 650.
Definition OUT5_NEWTACHO_LOW2 : Z := 450.
Definition OUT5_MINITACHO_HIGH2 : Z := 450.
Definition OUT5_MINITACHO_LOW2 : Z := 250.

Definition INPUTADCPORTS : Z := 12.
Definition INPUTADCPOWERS : Z := 4.
Definition INPUTADC : Z := INPUTADCPORTS + INPUTADCPOWERS.

Definition DCM_TIMER_RESOLUTION : Z := 10.
Definition DCM_DEVICE_RESET_TIME : Z := 2000.
Definition DCM_FLOAT_DELAY : Z := 20.
Definition DCM_LOW_DELAY : Z := 20.
Definition DCM_TOUCH_DELAY : Z := 20.
Definition DCM_CONNECT_STABLE_DELAY : Z := IN_CONNECT_STEADY_TIME.
Definition DCM_EVENT_STABLE_DELAY : Z := IN_DISCONNECT_STEADY_TIME.
Definition DCM_NXT_COLOR_TIMEOUT : Z := 500.
Definition DCM_NXT_COLOR_INIT_DELAY : Z := 100.
Definition DCM_NXT_COLOR_HIGH_TIME : Z := 20.

Definition NXTCOLOR_BYTES : Z := 12 * 4 + 3 * 2.
Definition NXTCOLOR_BITS : Z := NXTCOLOR_BYTES * 8.

(** ** The platform header

    d_analog.c takes the following from lms2012.h, which is not among the
    sources: the ADC reference voltage, the conversions between millivolts
    and ADC counts, the number of ports, the character codes of the
    connection types and whether the [FINALB] hardware revision is
    selected.  The development is parametric in them. *)
Class Platform : Type := {
  ADC_REF : Z;
  VtoC : Z -> Z;
  CtoV : Z -> Z;
  INPUTS : nat;
  OUTPUTS : nat;
  CONN_code : CONN -> Z;
  FINALB : bool
}.

(** The values of the LEGO EV3 header, used to run the model on concrete
    inputs.  The conversions divide as C does, truncating towards zero
    ([Z.quot]), before the cast to [UWORD].  With them [VtoC IN1_NEAR_5V]
    is 3931, the figure the source quotes in its comment on the pin 1 test
    of [DCM_FLOATING]. *)
Definition ADC_RES_lms2012 : Z := 4095.

Definition CONN_code_lms2012 (c : CONN) : Z :=
  match c with
  | CONN_NXT_COLOR => 118
  | CONN_NXT_DUMB => 119
  | CONN_NXT_IIC => 120
  | CONN_INPUT_DUMB => 121
  | CONN_INPUT_UART => 122
  | CONN_OUTPUT_DUMB => 123
  | CONN_OUTPUT_INTELLIGENT => 124
  | CONN_OUTPUT_TACHO => 125
  | CONN_NONE => 126
  | CONN_ERROR => 127
  end.

Definition lms2012 : Platform := {|
  ADC_REF := 5000;
  VtoC := fun V => UWORD (Z.quot (V * ADC_RES_lms2012) 5000);
  CtoV := fun C => UWORD (Z.quot (C * 5000) ADC_RES_lms2012);
  INPUTS := 4;
  OUTPUTS := 4;
  CONN_code := CONN_code_lms2012;
  FINALB := false
|}.

(** ** The NXT colour sensor engine: start, ready and stop

    [NxtColorInitInUse] and the engine's timer are shared by all input
    ports; the other variables are per port. *)
Module NxtColor.

Record COMM : Type := mkCOMM {
  NxtColorState : Z;
  NxtColorInitCnt : Z;
  NxtColorBytePnt : Z;
  NxtColorByteCnt : Z;
  NxtColorBitCnt : Z;
  NxtColorCmd : Z;
  NxtColorBuffer : list Z
}.

Record SHARED : Type := mkSHARED {
  NxtColorInitInUse : Z;
  NxtColorTimerRunning : bool
}.

Definition set_NxtColorState (v : Z) (c : COMM) : COMM :=
  mkCOMM v (NxtColorInitCnt c) (NxtColorBytePnt c) (NxtColorByteCnt c)
         (NxtColorBitCnt c) (NxtColorCmd c) (NxtColorBuffer c).

(** [void NxtColorCommStart(UBYTE Port,UBYTE Cmd)] *)
Definition NxtColorCommStart (Port Cmd : Z) (cs : COMM * SHARED) : COMM * SHARED :=
  let '(c, sh) := cs in
  let c := mkCOMM 1 0 0 0 0 Cmd (NxtColorBuffer c) in
  let running :=
    if NxtColorInitInUse sh =? 0 then true else NxtColorTimerRunning sh in
  (c, mkSHARED (UBYTE (Z.lor (NxtColorInitInUse sh) (Z.shiftl 1 Port))) running).

(** [UBYTE NxtColorCommReady(UBYTE Port)] *)
Definition NxtColorCommReady (c : COMM) : Z :=
  if NxtColorState c =? 0 then 1 else 0.

(** [void NxtColorCommStop(UBYTE Port)] *)
Definition NxtColorCommStop (Port : Z) (cs : COMM * SHARED) : COMM * SHARED :=
  let '(c, sh) := cs in
  let inuse := UBYTE (Z.land (NxtColorInitInUse sh) (Z.lnot (Z.shiftl 1 Port))) in
  let running := if inuse =? 0 then false else NxtColorTimerRunning sh in
  (set_NxtColorState 0 c, mkSHARED inuse running).

End NxtColor.

(** ** The input port DCM *)
Module InputDcm.
Import NxtColor.

(** [INPORT], the type of [InputPort[Port]]. *)
Record INPORT : Type := mkINPORT {
  Value : Z;
  Connected : Z;
  Cmd : Z;
  State : DCM_STATE;
  OldState : Z;
  Event : Z;
  Timer : Z;
  FSMEnabled : Z
}.

(** [InputPortDefault] *)
Definition InputPortDefault : INPORT :=
  mkINPORT 0 0 0 DCM_INIT (UBYTE (-1)) 0 0 1.

Definition set_Value (v : Z) (r : INPORT) : INPORT :=
  mkINPORT v (Connected r) (Cmd r) (State r) (OldState r) (Event r) (Timer r) (FSMEnabled r).

Definition set_Connected (v : Z) (r : INPORT) : INPORT :=
  mkINPORT (Value r) v (Cmd r) (State r) (OldState r) (Event r) (Timer r) (FSMEnabled r).

Definition set_Cmd (v : Z) (r : INPORT) : INPORT :=
  mkINPORT (Value r) (Connected r) v (State r) (OldState r) (Event r) (Timer r) (FSMEnabled r).

Definition set_State (v : DCM_STATE) (r : INPORT) : INPORT :=
  mkINPORT (Value r) (Connected r) (Cmd r) v (OldState r) (Event r) (Timer r) (FSMEnabled r).

Definition set_OldState (v : Z) (r : INPORT) : INPORT :=
  mkINPORT (Value r) (Connected r) (Cmd r) (State r) v (Event r) (Timer r) (FSMEnabled r).

Definition set_Event (v : Z) (r : INPORT) : INPORT :=
  mkINPORT (Value r) (Connected r) (Cmd r) (State r) (OldState r) v (Timer r) (FSMEnabled r).

Definition set_Timer (v : Z) (r : INPORT) : INPORT :=
  mkINPORT (Value r) (Connected r) (Cmd r) (State r) (OldState r) (Event r) v (FSMEnabled r).

Definition set_FSMEnabled (v : Z) (r : INPORT) : INPORT :=
  mkINPORT (Value r) (Connected r) (Cmd r) (State r) (OldState r) (Event r) (Timer r) v.

(** Everything the body of the input port loop reads and writes for one
    [Port]: [InputPort[Port]], the port's entries of the results table
    [pAnalog] ([InDcm], [InConn], the bytes of [NxtCol], [Actual], [LogIn],
    [LogOut]), [NxtColorActive[Port]], [NxtcolorCmd[Port]], the port's
    colour engine variables and the drive of its pins 5, 6 and buffer. *)
Record CELLS : Type := mkCELLS {
  InputPort : INPORT;
  InDcm : TYPE;
  InConn : CONN;
  NxtCol : list Z;
  Actual : Z;
  LogIn : Z;
  LogOut : Z;
  NxtColorActive : Z;
  NxtcolorCmd : Z;
  Comm : COMM;
  Pin5 : PinDrive;
  Pin6 : PinDrive;
  Buf : PinDrive
}.

Definition set_InputPort (v : INPORT) (r : CELLS) : CELLS :=
  mkCELLS v (InDcm r) (InConn r) (NxtCol r) (Actual r) (LogIn r) (LogOut r) (NxtColorActive r) (NxtcolorCmd r) (Comm r) (Pin5 r) (Pin6 r) (Buf r).

Definition set_InDcm (v : TYPE) (r : CELLS) : CELLS :=
  mkCELLS (InputPort r) v (InConn r) (NxtCol r) (Actual r) (LogIn r) (LogOut r) (NxtColorActive r) (NxtcolorCmd r) (Comm r) (Pin5 r) (Pin6 r) (Buf r).

Definition set_InConn (v : CONN) (r : CELLS) : CELLS :=
  mkCELLS (InputPort r) (InDcm r) v (NxtCol r) (Actual r) (LogIn r) (LogOut r) (NxtColorActive r) (NxtcolorCmd r) (Comm r) (Pin5 r) (Pin6 r) (Buf r).

Definition set_NxtCol (v : list Z) (r : CELLS) : CELLS :=
  mkCELLS (InputPort r) (InDcm r) (InConn r) v (Actual r) (LogIn r) (LogOut r) (NxtColorActive r) (NxtcolorCmd r) (Comm r) (Pin5 r) (Pin6 r) (Buf r).

Definition set_Actual (v : Z) (r : CELLS) : CELLS :=
  mkCELLS (InputPort r) (InDcm r) (InConn r) (NxtCol r) v (LogIn r) (LogOut r) (NxtColorActive r) (NxtcolorCmd r) (Comm r) (Pin5 r) (Pin6 r) (Buf r).

Definition set_LogIn (v : Z) (r : CELLS) : CELLS :=
  mkCELLS (InputPort r) (InDcm r) (InConn r) (NxtCol r) (Actual r) v (LogOut r) (NxtColorActive r) (NxtcolorCmd r) (Comm r) (Pin5 r) (Pin6 r) (Buf r).

Definition set_LogOut (v : Z) (r : CELLS) : CELLS :=
  mkCELLS (InputPort r) (InDcm r) (InConn r) (NxtCol r) (Actual r) (LogIn r) v (NxtColorActive r) (NxtcolorCmd r) (Comm r) (Pin5 r) (Pin6 r) (Buf r).

Definition set_NxtColorActive (v : Z) (r : CELLS) : CELLS :=
  mkCELLS (InputPort r) (InDcm r) (InConn r) (NxtCol r) (Actual r) (LogIn r) (LogOut r) v (NxtcolorCmd r) (Comm r) (Pin5 r) (Pin6 r) (Buf r).

Definition set_NxtcolorCmd (v : Z) (r : CELLS) : CELLS :=
  mkCELLS (InputPort r) (InDcm r) (InConn r) (NxtCol r) (Actual r) (LogIn r) (LogOut r) (NxtColorActive r) v (Comm r) (Pin5 r) (Pin6 r) (Buf r).

Definition set_Comm (v : COMM) (r : CELLS) : CELLS :=
  mkCELLS (InputPort r) (InDcm r) (InConn r) (NxtCol r) (Actual r) (LogIn r) (LogOut r) (NxtColorActive r) (NxtcolorCmd r) v (Pin5 r) (Pin6 r) (Buf r).

Definition set_Pin5 (v : PinDrive) (r : CELLS) : CELLS :=
  mkCELLS (InputPort r) (InDcm r) (InConn r) (NxtCol r) (Actual r) (LogIn r) (LogOut r) (NxtColorActive r) (NxtcolorCmd r) (Comm r) v (Pin6 r) (Buf r).

Definition set_Pin6 (v : PinDrive) (r : CELLS) : CELLS :=
  mkCELLS (InputPort r) (InDcm r) (InConn r) (NxtCol r) (Actual r) (LogIn r) (LogOut r) (NxtColorActive r) (NxtcolorCmd r) (Comm r) (Pin5 r) v (Buf r).

Definition set_Buf (v : PinDrive) (r : CELLS) : CELLS :=
  mkCELLS (InputPort r) (InDcm r) (InConn r) (NxtCol r) (Actual r) (LogIn r) (LogOut r) (NxtColorActive r) (NxtcolorCmd r) (Comm r) (Pin5 r) (Pin6 r) v.

Definition port_set (f : INPORT -> INPORT) (c : CELLS) : CELLS :=
  set_InputPort (f (InputPort c)) c.

(** What a tick reads but does not own: the ADC reading of pin 1
    ([pAnalog->InPin1[Port]]), the levels [PINRead] returns for pins 5 and 6
    (true for non-zero) and [NxtcolorLatchedCmd[Port]], which the ADC
    scheduler writes. *)
Record INPUT : Type := mkINPUT {
  InPin1 : Z;
  PINRead5 : bool;
  PINRead6 : bool;
  NxtcolorLatchedCmd : Z
}.

(** [static void InputPortFloat(int Port)] *)
Definition InputPortFloat (c : CELLS) : CELLS :=
  let c := set_Pin5 PinFloating c in
  let c := set_Pin6 PinFloating c in
  set_Buf PinHigh c.

(** The colour engine calls, lifted to the cells of the port. *)
Definition CommStop (Port : Z) (x : CELLS * SHARED) : CELLS * SHARED :=
  let '(c, sh) := x in
  let '(m, sh) := NxtColorCommStop Port (Comm c, sh) in
  (set_Comm m c, sh).

Definition CommStart (Port Cmd : Z) (x : CELLS * SHARED) : CELLS * SHARED :=
  let '(c, sh) := x in
  let '(m, sh) := NxtColorCommStart Port Cmd (Comm c, sh) in
  (set_Comm m c, sh).

(** The loop [for (Tmp = 0;Tmp < NXTCOLOR_BYTES;Tmp++)] of [DCM_NXT_COLOR_BUSY],
    entered with [n] iterations left: [*pData = NxtColorBuffer[Port][Tmp]]. *)
Fixpoint copy_payload (n Tmp : nat) (Buffer pData : list Z) : list Z :=
  match n with
  | O => pData
  | S n' => copy_payload n' (S Tmp) Buffer (<[Tmp := default 0 (Buffer !! Tmp)]> pData)
  end.

Section Tick.
Context {hw : Platform}.

(** The event mask that [DCM_FLOATING] computes into its local [Event]. *)
Definition FloatingEvent (i : INPUT) : Z :=
  let Event := 0 in
  let Event := if negb true then set_bit Event INPUT_PORT_PIN2 else Event in
  let Event := if InPin1 i <? VtoC IN1_NEAR_5V then set_bit Event INPUT_PORT_VALUE else Event in
  let Event := if negb (PINRead5 i) then set_bit Event INPUT_PORT_PIN5 else Event in
  let Event := if PINRead6 i then set_bit Event INPUT_PORT_PIN6 else Event in
  Event.

(** [DCM_FLOATING], first half: "pins has changed - reset timer". *)
Definition FloatingChange (Event' : Z) (c : CELLS) : CELLS :=
  if negb (Event (InputPort c) =? Event') then
    let c := port_set (set_Event Event') c in
    port_set (set_Timer 0) c
  else c.

(** [DCM_FLOATING], second half: "some event" counts towards a stable one. *)
Definition FloatingCount (c : CELLS) : CELLS :=
  if negb (Event (InputPort c) =? 0) then
    let c := port_set (set_Timer (UBYTE (Timer (InputPort c) + 1))) c in
    if Timer (InputPort c) >=? DCM_CONNECT_STABLE_DELAY / DCM_TIMER_RESOLUTION
    then port_set (set_State DCM_CONNECTION) c
    else c
  else c.

(** The ladder of [DCM_CONNECTION]. *)
Definition ConnectionLadder (Event : Z) : DCM_STATE :=
  if bit_set Event INPUT_PORT_PIN2 then DCM_PIN2_LOW
  else if bit_set Event INPUT_PORT_VALUE then DCM_PIN1_LOADED
  else if bit_set Event INPUT_PORT_PIN6 then DCM_PIN6_HIGH
  else if bit_set Event INPUT_PORT_PIN5 then DCM_PIN5_LOW
  else DCM_INIT.

Definition set_class (t : TYPE) (k : CONN) (c : CELLS) : CELLS :=
  set_InConn k (set_InDcm t c).

(** The wait-for-release states: [++Timer >= DCM_EVENT_STABLE_DELAY /
    DCM_TIMER_RESOLUTION] while the release condition holds, else
    [Timer = 0]. *)
Definition WaitRelease (released : bool) (c : CELLS) : CELLS :=
  if released then
    let c := port_set (set_Timer (UBYTE (Timer (InputPort c) + 1))) c in
    if Timer (InputPort c) >=? DCM_EVENT_STABLE_DELAY / DCM_TIMER_RESOLUTION then
      let c := port_set (set_Connected 0) c in
      port_set (set_State DCM_INIT) c
    else c
  else port_set (set_Timer 0) c.

(** The classification of [DCM_PIN2_LOW], entered after [State] has been
    set to [DCM_CONNECTED_WAITING_FOR_PIN2_HIGH]. *)
Definition Pin2LowLadder (i : INPUT) (c : CELLS) : CELLS :=
  let Ev := Event (InputPort c) in
  if negb (bit_set Ev INPUT_PORT_PIN5) && bit_set Ev INPUT_PORT_PIN6 then
    if InPin1 i <? VtoC IN1_NEAR_GND then
      let c := set_InDcm TYPE_NXT_COLOR c in
      let c := set_InConn CONN_NXT_COLOR c in
      port_set (set_State DCM_NXT_COLOR_INIT) c
    else
      set_class TYPE_NXT_IIC CONN_NXT_IIC c
  else
    if bit_set Ev INPUT_PORT_PIN5 then
      if bit_set Ev INPUT_PORT_PIN6 then
        set_class TYPE_NXT_TEST CONN_NXT_DUMB c
      else
        set_class TYPE_NXT_LIGHT CONN_NXT_DUMB c
    else
      if InPin1 i <? VtoC IN1_NEAR_GND then
        let c := set_InDcm TYPE_NXT_COLOR c in
        let c := set_InConn CONN_NXT_COLOR c in
        port_set (set_State DCM_NXT_COLOR_INIT) c
      else
        if InPin1 i >? VtoC IN1_NEAR_5V then
          set_class TYPE_NXT_TOUCH CONN_NXT_DUMB c
        else
          if (InPin1 i >? VtoC IN1_TOUCH_LOW) && (InPin1 i <? VtoC IN1_TOUCH_HIGH) then
            let c := port_set (set_Timer 0) c in
            let c := port_set (set_Value (UWORD (InPin1 i))) c in
            port_set (set_State DCM_NXT_TOUCH_CHECK) c
          else
            set_class TYPE_NXT_SOUND CONN_NXT_DUMB c.

(** One pass of the body of the input port loop of
    [Device3TimerInterrupt1] for port number [Port]. *)
Definition InputPortTick (Port : Z) (i : INPUT) (x : CELLS * SHARED) : CELLS * SHARED :=
  let '(c, sh) := x in
  let c := if FSMEnabled (InputPort c) =? 0
           then port_set (set_State DCM_DISABLED) c else c in
  match State (InputPort c) with
  | DCM_INIT =>
      let c := set_NxtColorActive 0 c in
      let '(c, sh) := CommStop Port (c, sh) in
      let c := InputPortFloat c in
      let c := set_InDcm TYPE_NONE c in
      let c := set_InConn CONN_NONE c in
      let c := port_set (set_Timer 0) c in
      let c := port_set (set_Event 0) c in
      (port_set (set_State DCM_FLOATING_DELAY) c, sh)
  | DCM_FLOATING_DELAY =>
      let c := port_set (set_Timer (UBYTE (Timer (InputPort c) + 1))) c in
      if Timer (InputPort c) >=? DCM_FLOAT_DELAY / DCM_TIMER_RESOLUTION then
        let c := port_set (set_Timer 0) c in
        (port_set (set_State DCM_FLOATING) c, sh)
      else (c, sh)
  | DCM_FLOATING =>
      (FloatingCount (FloatingChange (FloatingEvent i) c), sh)
  | DCM_CONNECTION =>
      let c := port_set (set_State (ConnectionLadder (Event (InputPort c)))) c in
      let c := set_Actual 0 c in
      let c := set_LogIn 0 c in
      (set_LogOut 0 c, sh)
  | DCM_PIN2_LOW =>
      let c := port_set (set_Connected 1) c in
      let c := InputPortFloat c in
      let c := port_set (set_Timer 0) c in
      let c := port_set (set_State DCM_CONNECTED_WAITING_FOR_PIN2_HIGH) c in
      (Pin2LowLadder i c, sh)
  | DCM_NXT_TOUCH_CHECK =>
      let c := port_set (set_Timer (UBYTE (Timer (InputPort c) + 1))) c in
      if Timer (InputPort c) >=? DCM_TOUCH_DELAY / DCM_TIMER_RESOLUTION then
        let c := port_set (set_State DCM_CONNECTED_WAITING_FOR_PIN2_HIGH) c in
        if (InPin1 i >? Value (InputPort c) - 10) && (InPin1 i <? Value (InputPort c) + 10)
        then (set_class TYPE_NXT_TOUCH CONN_NXT_DUMB c, sh)
        else (set_class TYPE_NXT_SOUND CONN_NXT_DUMB c, sh)
      else (c, sh)
  | DCM_NXT_COLOR_INIT =>
      let c := set_NxtcolorCmd 0 c in
      let '(c, sh) := CommStop Port (c, sh) in
      let c := port_set (set_Timer 0) c in
      (port_set (set_State DCM_NXT_COLOR_WAIT) c, sh)
  | DCM_NXT_COLOR_WAIT =>
      if NxtcolorCmd c =? NxtcolorLatchedCmd i then
        let '(c, sh) := CommStart Port (Cmd (InputPort c)) (c, sh) in
        (port_set (set_State DCM_NXT_COLOR_BUSY) c, sh)
      else (c, sh)
  | DCM_NXT_COLOR_BUSY =>
      let '(c, sh) :=
        if negb (NxtColorCommReady (Comm c) =? 0) then
          let c := set_NxtcolorCmd (Cmd (InputPort c)) c in
          let c := port_set (set_Timer 0) c in
          let c := port_set (set_State DCM_CONNECTED_WAITING_FOR_PIN2_HIGH) c in
          let c := set_NxtCol (copy_payload (Z.to_nat NXTCOLOR_BYTES) 0
                                 (NxtColorBuffer (Comm c)) (NxtCol c)) c in
          let '(c, sh) := CommStop Port (c, sh) in
          (set_NxtColorActive 1 c, sh)
        else (c, sh) in
      let c := port_set (set_Timer (UBYTE (Timer (InputPort c) + 1))) c in
      if Timer (InputPort c) >? DCM_NXT_COLOR_TIMEOUT / DCM_TIMER_RESOLUTION then
        let c := port_set (set_Timer 0) c in
        let c := port_set (set_State DCM_CONNECTED_WAITING_FOR_PIN2_HIGH) c in
        CommStop Port (c, sh)
      else (c, sh)
  | DCM_CONNECTED_WAITING_FOR_PIN2_HIGH =>
      (WaitRelease true c, sh)
  | DCM_PIN1_LOADED =>
      let c :=
        if InPin1 i >? VtoC IN1_NEAR_PIN2 then
          set_class TYPE_ERROR CONN_ERROR c
        else if InPin1 i <? VtoC IN1_NEAR_GND then
          set_class TYPE_UNKNOWN CONN_INPUT_UART c
        else
          set_class TYPE_UNKNOWN CONN_INPUT_DUMB c in
      let c := port_set (set_Connected 1) c in
      let c := port_set (set_Timer 0) c in
      (port_set (set_State DCM_CONNECTED_WAITING_FOR_PIN1_TO_FLOAT) c, sh)
  | DCM_CONNECTED_WAITING_FOR_PIN1_TO_FLOAT =>
      (WaitRelease (InPin1 i >? VtoC IN1_NEAR_5V) c, sh)
  | DCM_PIN6_HIGH =>
      let c := set_class TYPE_NXT_IIC CONN_NXT_IIC c in
      let c := port_set (set_Connected 1) c in
      let c := port_set (set_Timer 0) c in
      (port_set (set_State DCM_CONNECTED_WAITING_FOR_PIN6_LOW) c, sh)
  | DCM_CONNECTED_WAITING_FOR_PIN6_LOW =>
      (WaitRelease (negb (PINRead6 i)) c, sh)
  | DCM_PIN5_LOW =>
      let c := set_class TYPE_ERROR CONN_ERROR c in
      let c := port_set (set_Connected 1) c in
      let c := port_set (set_Timer 0) c in
      (port_set (set_State DCM_CONNECTED_WAITING_FOR_PIN5_HIGH) c, sh)
  | DCM_CONNECTED_WAITING_FOR_PIN5_HIGH =>
      (WaitRelease (PINRead5 i) c, sh)
  | DCM_DISABLED =>
      if FSMEnabled (InputPort c) =? 0 then
        let c := port_set (set_Timer 0) c in
        (port_set (set_Connected 1) c, sh)
      else
        (port_set (set_State DCM_INIT) c, sh)
  | _ =>
      (port_set (set_State DCM_INIT) c, sh)
  end.

(** The port over a sequence of DCM ticks. *)
Fixpoint InputPortRun (Port : Z) (ticks : list INPUT) (x : CELLS * SHARED) : CELLS * SHARED :=
  match ticks with
  | [] => x
  | i :: ticks' => InputPortRun Port ticks' (InputPortTick Port i x)
  end.

End Tick.

End InputDcm.

(** ** The output port DCM *)
Module OutputDcm.

(** [OUTPORT], the type of [OutputPort[Port]]; its field [Type] is [Type_]
    here. *)
Record OUTPORT : Type := mkOUTPORT {
  Value5Float : Z;
  Value5Low : Z;
  Connected : Z;
  Code : Z;
  Type_ : Z;
  State : DCM_STATE;
  OldState : Z;
  Event : Z;
  Timer : Z
}.

(** [OutputPortDefault] *)
Definition OutputPortDefault : OUTPORT :=
  mkOUTPORT 0 0 0 0 0 DCM_INIT (UBYTE (-1)) 0 0.

Definition set_Value5Float (v : Z) (r : OUTPORT) : OUTPORT :=
  mkOUTPORT v (Value5Low r) (Connected r) (Code r) (Type_ r) (State r) (OldState r) (Event r) (Timer r).

Definition set_Value5Low (v : Z) (r : OUTPORT) : OUTPORT :=
  mkOUTPORT (Value5Float r) v (Connected r) (Code r) (Type_ r) (State r) (OldState r) (Event r) (Timer r).

Definition set_Connected (v : Z) (r : OUTPORT) : OUTPORT :=
  mkOUTPORT (Value5Float r) (Value5Low r) v (Code r) (Type_ r) (State r) (OldState r) (Event r) (Timer r).

Definition set_Code (v : Z) (r : OUTPORT) : OUTPORT :=
  mkOUTPORT (Value5Float r) (Value5Low r) (Connected r) v (Type_ r) (State r) (OldState r) (Event r) (Timer r).

Definition set_Type_ (v : Z) (r : OUTPORT) : OUTPORT :=
  mkOUTPORT (Value5Float r) (Value5Low r) (Connected r) (Code r) v (State r) (OldState r) (Event r) (Timer r).

Definition set_State (v : DCM_STATE) (r : OUTPORT) : OUTPORT :=
  mkOUTPORT (Value5Float r) (Value5Low r) (Connected r) (Code r) (Type_ r) v (OldState r) (Event r) (Timer r).

Definition set_OldState (v : Z) (r : OUTPORT) : OUTPORT :=
  mkOUTPORT (Value5Float r) (Value5Low r) (Connected r) (Code r) (Type_ r) (State r) v (Event r) (Timer r).

Definition set_Event (v : Z) (r : OUTPORT) : OUTPORT :=
  mkOUTPORT (Value5Float r) (Value5Low r) (Connected r) (Code r) (Type_ r) (State r) (OldState r) v (Timer r).

Definition set_Timer (v : Z) (r : OUTPORT) : OUTPORT :=
  mkOUTPORT (Value5Float r) (Value5Low r) (Connected r) (Code r) (Type_ r) (State r) (OldState r) (Event r) v.

(** The cells of one output port: [OutputPort[Port]], its entries of the
    results table ([OutDcm], [OutConn], [OutPin5Low]) and the drive of its
    pins. *)
Record CELLS : Type := mkCELLS {
  OutputPort : OUTPORT;
  OutDcm : TYPE;
  OutConn : CONN;
  OutPin5Low : Z;
  Pin1 : PinDrive;
  Pin2 : PinDrive;
  Pin5W : PinDrive;
  Pin6 : PinDrive
}.

Definition set_OutputPort (v : OUTPORT) (r : CELLS) : CELLS :=
  mkCELLS v (OutDcm r) (OutConn r) (OutPin5Low r) (Pin1 r) (Pin2 r) (Pin5W r) (Pin6 r).

Definition set_OutDcm (v : TYPE) (r : CELLS) : CELLS :=
  mkCELLS (OutputPort r) v (OutConn r) (OutPin5Low r) (Pin1 r) (Pin2 r) (Pin5W r) (Pin6 r).

Definition set_OutConn (v : CONN) (r : CELLS) : CELLS :=
  mkCELLS (OutputPort r) (OutDcm r) v (OutPin5Low r) (Pin1 r) (Pin2 r) (Pin5W r) (Pin6 r).

Definition set_OutPin5Low (v : Z) (r : CELLS) : CELLS :=
  mkCELLS (OutputPort r) (OutDcm r) (OutConn r) v (Pin1 r) (Pin2 r) (Pin5W r) (Pin6 r).

Definition set_Pin1 (v : PinDrive) (r : CELLS) : CELLS :=
  mkCELLS (OutputPort r) (OutDcm r) (OutConn r) (OutPin5Low r) v (Pin2 r) (Pin5W r) (Pin6 r).

Definition set_Pin2 (v : PinDrive) (r : CELLS) : CELLS :=
  mkCELLS (OutputPort r) (OutDcm r) (OutConn r) (OutPin5Low r) (Pin1 r) v (Pin5W r) (Pin6 r).

Definition set_Pin5W (v : PinDrive) (r : CELLS) : CELLS :=
  mkCELLS (OutputPort r) (OutDcm r) (OutConn r) (OutPin5Low r) (Pin1 r) (Pin2 r) v (Pin6 r).

Definition set_Pin6 (v : PinDrive) (r : CELLS) : CELLS :=
  mkCELLS (OutputPort r) (OutDcm r) (OutConn r) (OutPin5Low r) (Pin1 r) (Pin2 r) (Pin5W r) v.

Definition port_set (f : OUTPORT -> OUTPORT) (c : CELLS) : CELLS :=
  set_OutputPort (f (OutputPort c)) c.

(** What a tick reads: the ADC reading of pin 5 ([pAnalog->OutPin5[Port]])
    and the level [POUTRead] returns for pin 6. *)
Record INPUT : Type := mkINPUT {
  OutPin5 : Z;
  POUTRead6 : bool
}.

(** [static void OutputPortFloat(int Port)] *)
Definition OutputPortFloat (c : CELLS) : CELLS :=
  let c := set_Pin1 PinLow c in
  let c := set_Pin2 PinLow c in
  let c := set_Pin5W PinLow c in
  set_Pin6 PinFloating c.

Definition set_class (t : TYPE) (k : CONN) (c : CELLS) : CELLS :=
  set_OutConn k (set_OutDcm t c).

Section Tick.
Context {hw : Platform}.

(** The pin 6 test, which [FINALB] inverts. *)
Definition Pin6Event (i : INPUT) : bool :=
  if FINALB then POUTRead6 i else negb (POUTRead6 i).

(** "pin 5 out of balance" *)
Definition OutOfBalance (i : INPUT) : bool :=
  (OutPin5 i <? VtoC OUT5_BALANCE_LOW) || (OutPin5 i >? VtoC OUT5_BALANCE_HIGH).

(** The event mask that [DCM_FLOATING] computes into its local [Event]. *)
Definition FloatingEvent (i : INPUT) : Z :=
  let Event := 0 in
  let Event := if Pin6Event i then set_bit Event OUTPUT_PORT_PIN6 else Event in
  let Event := if OutOfBalance i then set_bit Event OUTPUT_PORT_VALUE else Event in
  Event.

(** [Tmp] of [DCM_CONNECTION]: [Tmp = ADC_REF; Tmp += Value5Float;
    Tmp -= Value5Low;] in [UWORD] arithmetic. *)
Definition ConnectionTmp (p : OUTPORT) : Z :=
  let Tmp := UWORD ADC_REF in
  let Tmp := UWORD (Tmp + Value5Float p) in
  UWORD (Tmp - Value5Low p).

(** [DCM_CONNECTION], the branch "Value5Float is equal to Value5Low". *)
Definition ConnectionEqual (c : CELLS) : CELLS :=
  let F := Value5Float (OutputPort c) in
  if (F >=? OUT5_BALANCE_LOW) && (F <=? OUT5_BALANCE_HIGH)
     && bit_set (Event (OutputPort c)) OUTPUT_PORT_PIN6 then
    let c := set_class TYPE_ERROR CONN_ERROR c in
    port_set (set_Connected 1) c
  else if F <? OUT5_NEAR_GND then
    let c := set_class TYPE_ERROR CONN_ERROR c in
    port_set (set_Connected 1) c
  else if (F >=? OUT5_LIGHT_LOW) && (F <=? OUT5_LIGHT_HIGH) then
    let c := set_class TYPE_ERROR CONN_ERROR c in
    port_set (set_Connected 1) c
  else if (F >=? OUT5_IIC_LOW) && (F <=? OUT5_IIC_HIGH) then
    let c := set_class TYPE_ERROR CONN_ERROR c in
    port_set (set_Connected 1) c
  else if F <? OUT5_BALANCE_LOW then
    let c :=
      if (F >=? OUT5_DUMP_LOW) && (F <? OUT5_DUMP_HIGH) then
        let c := set_OutPin5Low F c in
        set_class TYPE_UNKNOWN CONN_OUTPUT_DUMB c
      else if (F >=? OUT5_INTELLIGENT_LOW2) && (F <? OUT5_INTELLIGENT_HIGH2) then
        set_class TYPE_UNKNOWN CONN_OUTPUT_INTELLIGENT c
      else if (F >=? OUT5_NEWTACHO_LOW2) && (F <? OUT5_NEWTACHO_HIGH2) then
        set_class TYPE_NEWTACHO CONN_OUTPUT_TACHO c
      else if (F >=? OUT5_MINITACHO_LOW2) && (F <? OUT5_MINITACHO_HIGH2) then
        set_class TYPE_MINITACHO CONN_OUTPUT_TACHO c
      else
        set_class TYPE_TACHO CONN_OUTPUT_TACHO c in
    port_set (set_Connected 1) c
  else
    let c := set_Pin5W PinHigh c in
    port_set (set_State DCM_WAITING_FOR_PIN5_LOW) c.

(** [DCM_CONNECTION], the branch "Value5Float is NOT equal to Value5Low". *)
Definition ConnectionNotEqual (c : CELLS) : CELLS :=
  let L := Value5Low (OutputPort c) in
  if (L >? OUT5_NEAR_GND) && (L <? OUT5_BALANCE_LOW) then
    let c := set_OutPin5Low L c in
    let c := set_class TYPE_UNKNOWN CONN_OUTPUT_DUMB c in
    port_set (set_Connected 1) c
  else
    let c := set_class TYPE_ERROR CONN_ERROR c in
    port_set (set_Connected 1) c.

(** The classification of [DCM_WAITING_FOR_PIN5_LOW] from the new
    [Value5Low]. *)
Definition Pin5LowLadder (c : CELLS) : CELLS :=
  let L := Value5Low (OutputPort c) in
  if (L >=? OUT5_NEWTACHO_LOW1) && (L <? OUT5_NEWTACHO_HIGH1) then
    set_class TYPE_NEWTACHO CONN_OUTPUT_TACHO c
  else if (L >=? OUT5_MINITACHO_LOW1) && (L <? OUT5_MINITACHO_HIGH1) then
    set_class TYPE_MINITACHO CONN_OUTPUT_TACHO c
  else
    set_class TYPE_TACHO CONN_OUTPUT_TACHO c.

(** One pass of the body of the output port loop of
    [Device3TimerInterrupt1]. *)
Definition OutputPortTick (i : INPUT) (c : CELLS) : CELLS :=
  match State (OutputPort c) with
  | DCM_INIT =>
      let c := OutputPortFloat c in
      let c := set_OutDcm TYPE_NONE c in
      let c := set_OutConn CONN_NONE c in
      let c := port_set (set_Timer 0) c in
      let c := port_set (set_Event 0) c in
      port_set (set_State DCM_FLOATING_DELAY) c
  | DCM_FLOATING_DELAY =>
      let c := port_set (set_Timer (UBYTE (Timer (OutputPort c) + 1))) c in
      if Timer (OutputPort c) >=? DCM_FLOAT_DELAY / DCM_TIMER_RESOLUTION then
        let c := port_set (set_Timer 0) c in
        port_set (set_State DCM_FLOATING) c
      else c
  | DCM_FLOATING =>
      let Event' := FloatingEvent i in
      let c :=
        if negb (Event (OutputPort c) =? Event') then
          let c := port_set (set_Event Event') c in
          port_set (set_Timer 0) c
        else c in
      if negb (Event (OutputPort c) =? 0) then
        let c := port_set (set_Timer (UBYTE (Timer (OutputPort c) + 1))) c in
        if Timer (OutputPort c) >=? DCM_CONNECT_STABLE_DELAY / DCM_TIMER_RESOLUTION then
          let c := port_set (set_Value5Float (UWORD (CtoV (OutPin5 i)))) c in
          let c := port_set (set_Timer 0) c in
          let c := port_set (set_State DCM_WAITING_FOR_PIN6_LOW) c in
          set_Pin6 PinFloating c
        else c
      else c
  | DCM_WAITING_FOR_PIN6_LOW =>
      let c := port_set (set_Timer (UBYTE (Timer (OutputPort c) + 1))) c in
      if Timer (OutputPort c) >=? DCM_LOW_DELAY / DCM_TIMER_RESOLUTION then
        let c := port_set (set_Value5Low (UWORD (CtoV (OutPin5 i)))) c in
        let c := port_set (set_State DCM_CONNECTION) c in
        set_Pin6 PinFloating c
      else c
  | DCM_CONNECTION =>
      let c := port_set (set_State DCM_CONNECTED_WAITING_FOR_PORT_OPEN) c in
      let Tmp := ConnectionTmp (OutputPort c) in
      let c :=
        if (Tmp >? ADC_REF - 50) && (Tmp <? ADC_REF + 50)
        then ConnectionEqual c
        else ConnectionNotEqual c in
      port_set (set_Timer 0) c
  | DCM_WAITING_FOR_PIN5_LOW =>
      let c := port_set (set_Timer (UBYTE (Timer (OutputPort c) + 1))) c in
      if Timer (OutputPort c) >=? DCM_LOW_DELAY / DCM_TIMER_RESOLUTION then
        let c := port_set (set_Value5Low (UWORD (CtoV (OutPin5 i)))) c in
        let c := port_set (set_State DCM_CONNECTION) c in
        let c := set_Pin5W PinLow c in
        let c := Pin5LowLadder c in
        let c := port_set (set_Connected 1) c in
        port_set (set_State DCM_CONNECTED_WAITING_FOR_PORT_OPEN) c
      else c
  | DCM_CONNECTED_WAITING_FOR_PORT_OPEN =>
      let c := if OutOfBalance i then port_set (set_Timer 0) c else c in
      let c := if Pin6Event i then port_set (set_Timer 0) c else c in
      let c := port_set (set_Timer (UBYTE (Timer (OutputPort c) + 1))) c in
      if Timer (OutputPort c) >=? DCM_EVENT_STABLE_DELAY / DCM_TIMER_RESOLUTION then
        let c := port_set (set_Connected 0) c in
        port_set (set_State DCM_INIT) c
      else c
  | _ =>
      port_set (set_State DCM_INIT) c
  end.


End Tick.

End OutputDcm.

(** ** The ADC scan scheduler *)
Module AdcScan.

Definition SCHEMESIZE1 : Z := 10.
Definition MuxSetup1 : list Z := [0x00;0x01;0x02;0x03;0x04;0x05;0x06;0x07;0x20;0x20].
Definition Reading1 : list Z := [0x80;0x20;0x00;0x01;0x02;0x03;0x04;0x05;0x06;0x07].
Definition NextTime1 : list Z := [0x00;0x00;0x00;0x01;0x00;0x00;0x00;0x02;0x00;0x01].

Definition SCHEMESIZE2 : Z := 15.
Definition MuxSetup2 : list Z :=
  [0x13;0x00;0x01;0x02;0x10;0x03;0x04;0x05;0x11;0x06;0x07;0x20;0x12;0x20;0x20].
Definition Reading2 : list Z :=
  [0x80;0x20;0x13;0x00;0x01;0x02;0x10;0x03;0x04;0x05;0x11;0x06;0x07;0x80;0x12].
Definition ClockHigh2 : list Z :=
  [0x00;0x01;0x00;0x00;0x00;0x00;0x00;0x00;0x00;0x02;0x00;0x00;0x00;0x00;0x00].
Definition ClockLow2 : list Z :=
  [0x00;0x00;0x00;0x00;0x00;0x01;0x00;0x00;0x00;0x00;0x00;0x00;0x00;0x01;0x00].
Definition NextTime2 : list Z :=
  [0x00;0x00;0x00;0x01;0x00;0x00;0x00;0x01;0x00;0x00;0x00;0x02;0x00;0x00;0x01].

(** [Time1] and [Time2] as [Device1Init] sets them, in nanoseconds. *)
Definition Time1 : list Z := [200000; 600000].
Definition Time2 : list Z := [200000; 400000].

Definition InputReadMap : list Z := [14;12;11;9;15;13;10;8;0;1;2;3;5;4;6;7].

(** Where [pData] points when the word read from the ADC is stored. *)
Inductive DEST : Set :=
  | ToData
  | ToInputs (index : Z)
  | ToADRaw (port index : Z).

(** One run of the loop body: the scheme and the table entry used, the
    multiplexer channel sent to the ADC, the destination of the word read
    and the drives applied to pin 5 of port [InputPoint2].  The words
    themselves come from the hardware and are not modelled. *)
Record ACCESS : Type := mkACCESS {
  scheme : Z;
  entry : Z;
  Input : Z;
  pData : DEST;
  edges : list PinDrive
}.

(** The scheduler's variables and [pAnalog->Updated]; [Trace] lists the loop
    bodies run so far, oldest first.  The millisecond counter
    [PreemptMilliSeconds] of the results table is left out. *)
Record ADC : Type := mkADC {
  Color : Z;
  NxtPointer : Z;
  InputPoint1 : Z;
  InputPoint2 : Z;
  Nxtcolor : list Z;
  NxtcolorLatchedCmd : list Z;
  Updated : list Z;
  NextTime : Z;
  Trace : list ACCESS
}.

Definition set_Color (v : Z) (r : ADC) : ADC :=
  mkADC v (NxtPointer r) (InputPoint1 r) (InputPoint2 r) (Nxtcolor r) (NxtcolorLatchedCmd r) (Updated r) (NextTime r) (Trace r).

Definition set_NxtPointer (v : Z) (r : ADC) : ADC :=
  mkADC (Color r) v (InputPoint1 r) (InputPoint2 r) (Nxtcolor r) (NxtcolorLatchedCmd r) (Updated r) (NextTime r) (Trace r).

Definition set_InputPoint1 (v : Z) (r : ADC) : ADC :=
  mkADC (Color r) (NxtPointer r) v (InputPoint2 r) (Nxtcolor r) (NxtcolorLatchedCmd r) (Updated r) (NextTime r) (Trace r).

Definition set_InputPoint2 (v : Z) (r : ADC) : ADC :=
  mkADC (Color r) (NxtPointer r) (InputPoint1 r) v (Nxtcolor r) (NxtcolorLatchedCmd r) (Updated r) (NextTime r) (Trace r).

Definition set_Nxtcolor (v : list Z) (r : ADC) : ADC :=
  mkADC (Color r) (NxtPointer r) (InputPoint1 r) (InputPoint2 r) v (NxtcolorLatchedCmd r) (Updated r) (NextTime r) (Trace r).

Definition set_NxtcolorLatchedCmd (v : list Z) (r : ADC) : ADC :=
  mkADC (Color r) (NxtPointer r) (InputPoint1 r) (InputPoint2 r) (Nxtcolor r) v (Updated r) (NextTime r) (Trace r).

Definition set_Updated (v : list Z) (r : ADC) : ADC :=
  mkADC (Color r) (NxtPointer r) (InputPoint1 r) (InputPoint2 r) (Nxtcolor r) (NxtcolorLatchedCmd r) v (NextTime r) (Trace r).

Definition set_NextTime (v : Z) (r : ADC) : ADC :=
  mkADC (Color r) (NxtPointer r) (InputPoint1 r) (InputPoint2 r) (Nxtcolor r) (NxtcolorLatchedCmd r) (Updated r) v (Trace r).

Definition set_Trace (v : list ACCESS) (r : ADC) : ADC :=
  mkADC (Color r) (NxtPointer r) (InputPoint1 r) (InputPoint2 r) (Nxtcolor r) (NxtcolorLatchedCmd r) (Updated r) (NextTime r) v.

(** What the DCM owns and the scheduler reads. *)
Record INPUT : Type := mkINPUT {
  NxtColorActive : list Z;
  NxtcolorCmd : list Z
}.

(** An array read; [None] is a read outside the array. *)
Definition rd (l : list Z) (i : Z) : option Z :=
  if i <? 0 then None else l !! Z.to_nat i.

(** An array write at a [Z] index. *)
Definition wr (l : list Z) (i v : Z) : list Z :=
  if i <? 0 then l else <[Z.to_nat i := v]> l.

(** [if (++InputPoint1 >= INPUTADC) InputPoint1 = 8;] *)
Definition NextInputPoint1 (a : ADC) : ADC :=
  let a := set_InputPoint1 (UBYTE (InputPoint1 a + 1)) a in
  if InputPoint1 a >=? INPUTADC then set_InputPoint1 8 a else a.

Section Tick.
Context {hw : Platform}.

(** The body of the [do ... while] of scheme 1, up to [NxtPointer++]. *)
Definition Scheme1Body (a : ADC) : option ADC :=
  let p := NxtPointer a in
  m ← rd MuxSetup1 p;
  r ← rd Reading1 p;
  In ← (if negb (Z.land m 0x20 =? 0) then rd InputReadMap (InputPoint1 a)
        else rd InputReadMap (Z.land m 0x0F));
  let '(dest, a) :=
    if negb (Z.land r 0x20 =? 0) then (ToInputs (InputPoint1 a), NextInputPoint1 a)
    else if Z.land r 0xF0 =? 0 then (ToInputs r, a)
    else (ToData, a) in
  let a := set_Trace (Trace a ++ [mkACCESS 1 p (UWORD In) dest []]) a in
  Some (set_NxtPointer (UBYTE (NxtPointer a + 1)) a).

(** The drives of pin 5 of port [InputPoint2] in the body of scheme 2. *)
Definition Scheme2Edges (a : ADC) (ch cl : Z) : option (list PinDrive) :=
  latched ← rd (NxtcolorLatchedCmd a) (InputPoint2 a);
  if latched =? 0x0D then
    high ← (if negb (ch =? 0) then
              active ← rd (Nxtcolor a) (InputPoint2 a);
              Some (if negb (active =? 0)
                    then if ch =? 0x01 then [PinHigh] else [PinFloating]
                    else [])
            else Some []);
    low ← (if negb (cl =? 0) then
             active ← rd (Nxtcolor a) (InputPoint2 a);
             Some (if negb (active =? 0) then [PinLow] else [])
           else Some []);
    Some (high ++ low)
  else Some [].

(** The body of the [do ... while] of scheme 2, up to [NxtPointer++]. *)
Definition Scheme2Body (a : ADC) : option ADC :=
  let p := NxtPointer a in
  m ← rd MuxSetup2 p;
  r ← rd Reading2 p;
  ch ← rd ClockHigh2 p;
  cl ← rd ClockLow2 p;
  In ← (if negb (Z.land m 0x20 =? 0) then rd InputReadMap (InputPoint1 a)
        else if negb (Z.land m 0x10 =? 0) then rd InputReadMap (InputPoint2 a + Z.of_nat INPUTS)
        else rd InputReadMap (Z.land m 0x0F));
  let '(dest, a') :=
    if negb (Z.land r 0x20 =? 0) then (ToInputs (InputPoint1 a), NextInputPoint1 a)
    else if negb (Z.land r 0x10 =? 0) then (ToADRaw (InputPoint2 a) (Z.land r 0x03), a)
    else if Z.land r 0xF0 =? 0 then (ToInputs r, a)
    else (ToData, a) in
  e ← Scheme2Edges a' ch cl;
  let a' := set_Trace (Trace a' ++ [mkACCESS 2 p (UWORD In) dest e]) a' in
  Some (set_NxtPointer (UBYTE (NxtPointer a' + 1)) a').

(** [do { body } while (NextTime[NxtPointer - 1] == 0);] followed by the
    choice of the next wake-up time.  [fuel] bounds the iterations; a read
    outside a table gives [None]. *)
Fixpoint SchemeLoop (body : ADC -> option ADC) (NextTimeN TimeN : list Z)
    (fuel : nat) (a : ADC) : option ADC :=
  match fuel with
  | O => None
  | S fuel' =>
      a ← body a;
      t ← rd NextTimeN (NxtPointer a - 1);
      if t =? 0 then SchemeLoop body NextTimeN TimeN fuel' a
      else
        ns ← rd TimeN (t - 1);
        Some (set_NextTime ns a)
  end.

(** The loop [for (Port = 0;Port < INPUTS;Port++)] of the end-of-pass
    housekeeping, run for the ports below [n].  The fast data log of a port
    without a colour session is part of the results table and left out. *)
Fixpoint EndOfPassPorts (i : INPUT) (n : nat) (a : ADC) : option ADC :=
  match n with
  | O => Some a
  | S Port =>
      a ← EndOfPassPorts i Port a;
      act ← NxtColorActive i !! Port;
      let a := if negb (act =? 0) then set_Color 1 a else a in
      let a := set_Nxtcolor (<[Port := act]> (Nxtcolor a)) a in
      Some (set_Updated (<[Port := 1]> (Updated a)) a)
  end.

(** [static enum hrtimer_restart Device1TimerInterrupt1(struct hrtimer *pTimer)] *)
Definition Device1TimerInterrupt1 (i : INPUT) (a : ADC) : option ADC :=
  let a :=
    if NxtPointer a =? 0 then
      let a := set_InputPoint2 (UBYTE (InputPoint2 a + 1)) a in
      if InputPoint2 a >=? Z.of_nat INPUTS then set_InputPoint2 0 a else a
    else a in
  a ← (if Color a =? 0 then
         a ← SchemeLoop Scheme1Body NextTime1 Time1 (Z.to_nat SCHEMESIZE1) a;
         Some (if NxtPointer a >=? SCHEMESIZE1 then set_NxtPointer 0 a else a)
       else
         a ← SchemeLoop Scheme2Body NextTime2 Time2 (Z.to_nat SCHEMESIZE2) a;
         Some (if NxtPointer a >=? SCHEMESIZE2 then set_NxtPointer 0 a else a));
  if NxtPointer a =? 0 then
    let a := set_Color 0 a in
    a ← EndOfPassPorts i INPUTS a;
    cmd ← rd (NxtcolorCmd i) (InputPoint2 a);
    Some (set_NxtcolorLatchedCmd (wr (NxtcolorLatchedCmd a) (InputPoint2 a) cmd) a)
  else Some a.

(** The scheduler over a sequence of ticks. *)
Fixpoint Device1Run (ticks : list INPUT) (a : ADC) : option ADC :=
  match ticks with
  | [] => Some a
  | i :: ticks' => a ← Device1TimerInterrupt1 i a; Device1Run ticks' a
  end.

(** The variables as the module's initialisers and [memset] leave them. *)
Definition Device1Reset : ADC :=
  mkADC 0 0 8 0 (replicate INPUTS 0) (replicate INPUTS 0) (replicate INPUTS 0)
        200000 [].

End Tick.

End AdcScan.

(** ** The control channel and the DCM tick over all ports *)
Module Dcm.
Import NxtColor.

(** The module's DCM variables: the start-up sequencer, the test-mode
    flag, the cells of every input and output port and the colour engine's
    shared variables. *)
Record DCM : Type := mkDCM {
  Device3State : Z;
  Device3StateTimer : Z;
  TestMode : Z;
  In : list InputDcm.CELLS;
  Out : list OutputDcm.CELLS;
  Shared : SHARED
}.

(** A loop [for (Port = 0;Port < n;Port++)] whose body rewrites the cells
    of port [Port] only. *)
Fixpoint for_ports {A : Type} (body : nat -> A -> A) (n : nat) (ports : list A) : list A :=
  match n with
  | O => ports
  | S Port => alter (body Port) Port (for_ports body Port ports)
  end.

(** [Char = Buf[Port + 1]] *)
Definition BufChar (Buf : list Z) (Port : nat) : Z :=
  UBYTE (default 0 (Buf !! S Port)).

(** The [switch (Char)] of the 'e' command. *)
Definition EnableSwitch (Char : Z) (c : InputDcm.CELLS) : InputDcm.CELLS :=
  if Char =? 45 then c
  else if Char =? 48 then InputDcm.port_set (InputDcm.set_FSMEnabled 0) c
  else if Char =? 49 then InputDcm.port_set (InputDcm.set_FSMEnabled 1) c
  else c.

Section Write.
Context {hw : Platform}.

(** The body of the port loop of the 't' command: the two [continue]
    guards and the [switch (Char)]. *)
Definition TypeSwitch (Char : Z) (c : InputDcm.CELLS) : InputDcm.CELLS :=
  if InputDcm.Connected (InputDcm.InputPort c) =? 0 then c
  else if InputDcm.FSMEnabled (InputDcm.InputPort c) =? 1 then c
  else if Char =? 45 then c
  else if Char =? CONN_code CONN_NXT_IIC then
    InputDcm.set_InConn CONN_NXT_IIC (InputDcm.set_InDcm TYPE_NXT_IIC c)
  else if Char =? CONN_code CONN_NXT_DUMB then
    InputDcm.set_InConn CONN_NXT_DUMB (InputDcm.set_InDcm TYPE_NXT_LIGHT c)
  else if Char =? CONN_code CONN_INPUT_DUMB then
    InputDcm.set_InConn CONN_INPUT_DUMB (InputDcm.set_InDcm TYPE_TOUCH c)
  else if Char =? CONN_code CONN_NONE then
    InputDcm.set_InConn CONN_NONE (InputDcm.set_InDcm TYPE_NONE c)
  else c.

(** The pair that the 't' command forces for a character, if any. *)
Definition ForcedPair (Char : Z) : option (TYPE * CONN) :=
  if Char =? CONN_code CONN_NXT_IIC then Some (TYPE_NXT_IIC, CONN_NXT_IIC)
  else if Char =? CONN_code CONN_NXT_DUMB then Some (TYPE_NXT_LIGHT, CONN_NXT_DUMB)
  else if Char =? CONN_code CONN_INPUT_DUMB then Some (TYPE_TOUCH, CONN_INPUT_DUMB)
  else if Char =? CONN_code CONN_NONE then Some (TYPE_NONE, CONN_NONE)
  else None.

(** The labels of the [switch] of the 't' command are pairwise different,
    as C requires of [case] labels. *)
Definition TypeLabelsDistinct : bool :=
  let l := [45; CONN_code CONN_NXT_IIC; CONN_code CONN_NXT_DUMB;
            CONN_code CONN_INPUT_DUMB; CONN_code CONN_NONE] in
  bool_decide (NoDup l).

(** [static ssize_t Device1Write(struct file *File,const char *Buffer,
    size_t Count,loff_t *Data)]: [Buf] holds the bytes that
    [copy_from_user] stored; the result pairs the new port cells with the
    value returned, which passes through [int Lng]. *)
Definition Device1Write (Count : Z) (Buf : list Z) (ports : list InputDcm.CELLS)
    : list InputDcm.CELLS * Z :=
  if Count >=? Z.of_nat INPUTS then
    let Lng := INT Count in
    let Buf0 := default 0 (Buf !! O) in
    if Buf0 =? 101 then
      (for_ports (fun Port => EnableSwitch (BufChar Buf Port)) INPUTS ports, Lng)
    else if Buf0 =? 116 then
      (for_ports (fun Port => TypeSwitch (BufChar Buf Port)) INPUTS ports, Lng)
    else (ports, Lng)
  else (ports, 0).

(** The input port loop of [Device3TimerInterrupt1] for the ports below
    [n]; [NxtColorInitInUse] and the engine's timer pass from one port to
    the next. *)
Fixpoint InputLoop (ins : list InputDcm.INPUT) (n : nat)
    (x : list InputDcm.CELLS * SHARED) : list InputDcm.CELLS * SHARED :=
  match n with
  | O => x
  | S Port =>
      let '(ports, sh) := InputLoop ins Port x in
      match ports !! Port, ins !! Port with
      | Some c, Some i =>
          let '(c, sh) := InputDcm.InputPortTick (Z.of_nat Port) i (c, sh) in
          (<[Port := c]> ports, sh)
      | _, _ => (ports, sh)
      end
  end.

(** The output port loop of [Device3TimerInterrupt1]. *)
Definition OutputLoop (outs : list OutputDcm.INPUT) (n : nat)
    (ports : list OutputDcm.CELLS) : list OutputDcm.CELLS :=
  for_ports (fun Port c =>
               match outs !! Port with
               | Some i => OutputDcm.OutputPortTick i c
               | None => c
               end) n ports.

(** [static enum hrtimer_restart Device3TimerInterrupt1(struct hrtimer *pTimer)] *)
Definition Device3TimerInterrupt1 (ins : list InputDcm.INPUT)
    (outs : list OutputDcm.INPUT) (d : DCM) : DCM :=
  if Device3State d =? 0 then
    if TestMode d =? 0
    then mkDCM 1 (Device3StateTimer d) (TestMode d) (In d) (Out d) (Shared d)
    else d
  else if Device3State d =? 1 then
    mkDCM (UBYTE (Device3State d + 1)) 0 (TestMode d) (In d) (Out d) (Shared d)
  else if Device3State d =? 2 then
    let t := UWORD (Device3StateTimer d + 1) in
    if t >=? DCM_DEVICE_RESET_TIME / DCM_TIMER_RESOLUTION
    then mkDCM (UBYTE (Device3State d + 1)) t (TestMode d) (In d) (Out d) (Shared d)
    else mkDCM (Device3State d) t (TestMode d) (In d) (Out d) (Shared d)
  else
    let '(ports, sh) := InputLoop ins INPUTS (In d, Shared d) in
    mkDCM (Device3State d) (Device3StateTimer d) (TestMode d)
          ports (OutputLoop outs OUTPUTS (Out d)) sh.

End Write.

End Dcm.

(** ** Concrete ports, used to run the model *)
Module Examples.
Import NxtColor.

(** An idle colour engine with a 54 byte buffer holding 1, 2, ..., 54. *)
Definition comm0 : COMM :=
  mkCOMM 0 0 0 0 0 0 (map Z.of_nat (seq 1 (Z.to_nat NXTCOLOR_BYTES))).

Definition shared0 : SHARED := mkSHARED 0 false.

(** An input port in state [st] with event mask [ev] and timer [tm],
    automatic detection enabled, nothing classified, a 70 byte [NxtCol]
    of zeros. *)
Definition in_cells (st : DCM_STATE) (ev tm : Z) : InputDcm.CELLS :=
  InputDcm.mkCELLS
    (InputDcm.mkINPORT 0 0 0 st 255 ev tm 1)
    TYPE_NONE CONN_NONE (replicate 70 0) 0 0 0 0 0 comm0
    PinFloating PinFloating PinHigh.

(** An input port in [DCM_NXT_COLOR_BUSY] with timer [tm] whose colour
    engine is in state [st]. *)
Definition busy_cells (tm st : Z) : InputDcm.CELLS :=
  InputDcm.set_Comm (set_NxtColorState st comm0)
    (in_cells DCM_NXT_COLOR_BUSY 0x02 tm).

(** A tick input: pin 1 reading [v], levels of pins 5 and 6. *)
Definition in_input (v : Z) (p5 p6 : bool) : InputDcm.INPUT :=
  InputDcm.mkINPUT v p5 p6 0.

(** The four input ports after [Device3Init], and the buffers of the
    commands "e0000" and "txxxx" ('x' is [CONN_NXT_IIC] on the LEGO
    platform values) as [copy_from_user] stores them. *)
Definition ports_default : list InputDcm.CELLS := replicate 4 (in_cells DCM_INIT 0 0).
Definition buf_e0000 : list Z := [101; 48; 48; 48; 48; 0].
Definition buf_txxxx : list Z := [116; 120; 120; 120; 120; 0].

(** An input port held in [DCM_DISABLED]: detection off, marked
    connected. *)
Definition disabled_cells : InputDcm.CELLS :=
  InputDcm.port_set (InputDcm.set_FSMEnabled 0)
    (InputDcm.port_set (InputDcm.set_Connected 1) (in_cells DCM_DISABLED 0 0)).

(** An output port in state [st] with the two snapshots [f] and [l]. *)
Definition out_cells (st : DCM_STATE) (f l ev tm : Z) : OutputDcm.CELLS :=
  OutputDcm.mkCELLS
    (OutputDcm.mkOUTPORT f l 0 0 0 st 255 ev tm)
    TYPE_NONE CONN_NONE 0 PinLow PinLow PinLow PinFloating.

End Examples.

(** ** Vocabulary of the input port properties *)
Module InputDcmSpec.
Import InputDcm.

Section Spec.
Context {hw : Platform}.

(** The steady-time window of a connection, in DCM ticks. *)
Definition CONNECT_TICKS : nat :=
  Z.to_nat (DCM_CONNECT_STABLE_DELAY / DCM_TIMER_RESOLUTION).

(** The steady-time window of a disconnection, in DCM ticks. *)
Definition EVENT_TICKS : nat :=
  Z.to_nat (DCM_EVENT_STABLE_DELAY / DCM_TIMER_RESOLUTION).

(** The colour session timeout, in DCM ticks. *)
Definition NXT_COLOR_TIMEOUT_TICKS : Z :=
  DCM_NXT_COLOR_TIMEOUT / DCM_TIMER_RESOLUTION.

(** The [n] newest entries of the history [h] (newest first) exist and
    all show the event mask [m], which is not zero. *)
Definition stable_hist (n : nat) (m : Z) (h : list INPUT) : Prop :=
  m <> 0 /\ (n <= length h)%nat /\
  Forall (fun i => FloatingEvent i = m) (take n h).

(** The last [n] ticks of [ticks] (oldest first) all computed the event
    mask [m], which is not zero. *)
Definition stable_for (n : nat) (m : Z) (ticks : list INPUT) : Prop :=
  stable_hist n m (rev ticks).

(** What [DCM_FLOATING] and [DCM_CONNECTION] know about the ticks seen so
    far, [h], newest first: in [DCM_FLOATING] the timer counts the newest
    ticks, which all computed the stored mask; [DCM_CONNECTION] is entered
    on a full window of one non-zero mask. *)
Definition FloatingInv (h : list INPUT) (c : CELLS) : Prop :=
  match State (InputPort c) with
  | DCM_FLOATING =>
      0 <= Timer (InputPort c) < 35 /\
      (Z.to_nat (Timer (InputPort c)) <= length h)%nat /\
      Forall (fun i => FloatingEvent i = Event (InputPort c))
             (take (Z.to_nat (Timer (InputPort c))) h) /\
      (0 < Timer (InputPort c) -> Event (InputPort c) <> 0)
  | DCM_CONNECTION =>
      stable_hist CONNECT_TICKS (Event (InputPort c)) h
  | _ => True
  end.

End Spec.

End InputDcmSpec.

(** ** Vocabulary of the release of pin 1 *)
Module Pin1Spec.
Import InputDcm.

Section Spec.
Context {hw : Platform}.

(** Pin 1 reads as floating: above the near-5V threshold. *)
Definition Pin1Floats (i : INPUT) : Prop := InPin1 i > VtoC IN1_NEAR_5V.

(** The [n] newest entries of the history [h] (newest first) exist and
    all read pin 1 as floating. *)
Definition floated_hist (n : nat) (h : list INPUT) : Prop :=
  (n <= length h)%nat /\ Forall Pin1Floats (take n h).

(** The last [n] ticks of [ticks] (oldest first) all read pin 1 as
    floating. *)
Definition floated_for (n : nat) (ticks : list INPUT) : Prop :=
  floated_hist n (rev ticks).

(** What [DCM_CONNECTED_WAITING_FOR_PIN1_TO_FLOAT] knows about the ticks
    seen so far, [h], newest first. *)
Definition Pin1WaitInv (h : list INPUT) (c : CELLS) : Prop :=
  State (InputPort c) = DCM_CONNECTED_WAITING_FOR_PIN1_TO_FLOAT /\
  FSMEnabled (InputPort c) <> 0 /\
  0 <= Timer (InputPort c) < 10 /\
  (Z.to_nat (Timer (InputPort c)) <= length h)%nat /\
  Forall Pin1Floats (take (Z.to_nat (Timer (InputPort c))) h).

End Spec.

End Pin1Spec.

(** ** Vocabulary of the scheduler properties *)
Module AdcScanSpec.
Import AdcScan.

Section Spec.
Context {hw : Platform}.

(** The scheme in effect: 1 without, 2 with a colour sensor. *)
Definition CurrentScheme (a : ADC) : Z := if Color a =? 0 then 1 else 2.

Definition SchemeSize (s : Z) : Z := if s =? 1 then SCHEMESIZE1 else SCHEMESIZE2.

(** Where a tick that starts at entry [p] of scheme [s] stops: behind the
    next entry whose [NextTime] is not zero. *)
Definition TickStop (s p : Z) : Z :=
  if s =? 1 then (if p <? 4 then 4 else if p <? 8 then 8 else 10)
  else (if p <? 4 then 4 else if p <? 8 then 8 else if p <? 12 then 12 else 15).

(** The entries at which a tick of scheme [s] can start. *)
Definition TickStart (s p : Z) : Prop :=
  p = 0 \/ p = 4 \/ p = 8 \/ (s = 2 /\ p = 12).

(** The scheme and table entry of every loop body run, oldest first. *)
Definition Keys (a : ADC) : list (Z * Z) :=
  map (fun e => (scheme e, entry e)) (Trace a).

(** The entries [p], ..., [p + n - 1] of scheme [s]. *)
Definition Entries (s p n : Z) : list (Z * Z) := map (pair s) (seqZ p n).

(** One full pass of scheme [s]. *)
Definition FullPass (s : Z) : list (Z * Z) := Entries s 0 (SchemeSize s).

(** The variables stay within their arrays. *)
Definition WellFormed (a : ADC) : Prop :=
  8 <= InputPoint1 a < 16 /\
  0 <= InputPoint2 a < Z.of_nat INPUTS /\
  length (Nxtcolor a) = INPUTS /\
  length (NxtcolorLatchedCmd a) = INPUTS /\
  (Color a = 0 \/ Color a = 1).

(** What a loop body keeps and what it adds to the trace. *)
Definition BodyStep (s : Z) (a a1 : ADC) : Prop :=
  WellFormed a1 /\
  NxtPointer a1 = NxtPointer a + 1 /\
  Color a1 = Color a /\
  InputPoint2 a1 = InputPoint2 a /\
  Nxtcolor a1 = Nxtcolor a /\
  NxtcolorLatchedCmd a1 = NxtcolorLatchedCmd a /\
  Updated a1 = Updated a /\
  Keys a1 = Keys a ++ [(s, NxtPointer a)].

(** The DCM's arrays have one cell per input port. *)
Definition InputWellFormed (i : INPUT) : Prop :=
  length (NxtColorActive i) = INPUTS /\ length (NxtcolorCmd i) = INPUTS.

(** Some port has an active colour session. *)
Definition AnyActive (i : INPUT) : bool :=
  existsb (fun x => negb (x =? 0)) (take INPUTS (NxtColorActive i)).

(** The trace is a sequence of full passes, each of one scheme, followed
    by the entries of the pass under way, which are those of the scheme
    in effect up to [NxtPointer]. *)
Definition PassInv (a : ADC) : Prop :=
  TickStart (CurrentScheme a) (NxtPointer a) /\
  exists passes : list Z,
    Forall (fun s => s = 1 \/ s = 2) passes /\
    Keys a = flat_map FullPass passes ++ Entries (CurrentScheme a) 0 (NxtPointer a).

End Spec.

End AdcScanSpec.

(** ** Reachability of the input port states *)
Module InputReach.
Import NxtColor InputDcm.

(** What can happen to an input port between two looks at it: a DCM tick,
    or an 'e' command carrying the character [Char] for this port. *)
Inductive STEP : Type :=
  | StepTick (i : INPUT)
  | StepEnable (Char : Z).

(** The states of the branch entered through [DCM_PIN2_LOW]. *)
Definition Pin2Chain (s : DCM_STATE) : bool :=
  match s with
  | DCM_PIN2_LOW | DCM_NXT_TOUCH_CHECK
  | DCM_NXT_COLOR_INIT | DCM_NXT_COLOR_WAIT | DCM_NXT_COLOR_START | DCM_NXT_COLOR_BUSY
  | DCM_CONNECTED_WAITING_FOR_PIN2_HIGH => true
  | _ => false
  end.

(** The states on the paths through [DCM_PIN1_LOADED], [DCM_PIN6_HIGH] and
    [DCM_PIN5_LOW], and [DCM_DISABLED]. *)
Definition PathState (s : DCM_STATE) : bool :=
  match s with
  | DCM_INIT | DCM_FLOATING_DELAY | DCM_FLOATING | DCM_CONNECTION
  | DCM_PIN1_LOADED | DCM_CONNECTED_WAITING_FOR_PIN1_TO_FLOAT
  | DCM_PIN6_HIGH | DCM_CONNECTED_WAITING_FOR_PIN6_LOW
  | DCM_PIN5_LOW | DCM_CONNECTED_WAITING_FOR_PIN5_HIGH
  | DCM_DISABLED => true
  | _ => false
  end.

(** The classifications that [DCM_INIT], [DCM_PIN1_LOADED], [DCM_PIN6_HIGH]
    and [DCM_PIN5_LOW] write. *)
Definition PathClass (t : TYPE) (k : CONN) : bool :=
  match t, k with
  | TYPE_NONE, CONN_NONE
  | TYPE_ERROR, CONN_ERROR
  | TYPE_UNKNOWN, CONN_INPUT_UART
  | TYPE_UNKNOWN, CONN_INPUT_DUMB
  | TYPE_NXT_IIC, CONN_NXT_IIC => true
  | _, _ => false
  end.

Section Steps.
Context {hw : Platform}.

Definition PortStep (Port : Z) (st : STEP) (x : CELLS * SHARED) : CELLS * SHARED :=
  match st with
  | StepTick i => InputPortTick Port i x
  | StepEnable Char => (Dcm.EnableSwitch Char (fst x), snd x)
  end.

Fixpoint PortSteps (Port : Z) (steps : list STEP) (x : CELLS * SHARED) : CELLS * SHARED :=
  match steps with
  | [] => x
  | st :: steps' => PortSteps Port steps' (PortStep Port st x)
  end.

(** What holds of a port that started in [DCM_INIT] with the cells [c0]. *)
Definition PathInv (c0 c : CELLS) : Prop :=
  Z.testbit (Event (InputPort c)) INPUT_PORT_PIN2 = false /\
  PathState (State (InputPort c)) = true /\
  ((InDcm c = InDcm c0 /\ InConn c = InConn c0) \/ PathClass (InDcm c) (InConn c) = true).

End Steps.

End InputReach.

(** ** Runs of the DCM tick, and vocabulary of the port release *)
Module DcmRun.
Import Dcm.

Section Run.
Context {hw : Platform}.



End Run.

End DcmRun.

Module OutputDcmSpec.
Import OutputDcm.

Section Spec.
Context {hw : Platform}.


End Spec.

End OutputDcmSpec.

(** ** The test-pin device: entering and leaving test mode *)
Module TestPin.
Import Dcm.

Section Ioctl.
Context {hw : Platform}.



End Ioctl.

End TestPin.

(** ** Vocabulary of the latency of the input port detection *)
Module InputSteadySpec.
Import NxtColor InputDcm.

(** The cells of a port that has run [DCM_INIT] and since then has only
    counted: initialised as [DCM_INIT] leaves them, then in state [st] with
    event mask [ev] and timer [tm]. *)
Definition steady_cells (Port : Z) (c : CELLS) (sh : SHARED)
    (st : DCM_STATE) (ev tm : Z) : CELLS * SHARED :=
  let '(c1, sh1) := CommStop Port (set_NxtColorActive 0 c, sh) in
  (set_InConn CONN_NONE
     (set_InDcm TYPE_NONE
        (port_set (set_State st)
           (port_set (set_Timer tm) (port_set (set_Event ev) (InputPortFloat c1))))), sh1).

End InputSteadySpec.

(** ** The SPI transfer to the ADC *)
Module Spi.

(** A write to one of the lines that [SpiUpdate] drives: [SCSLow] is
    [SCS false], [SIMOHigh] is [SIMO true], [CLKHigh] is [CLK true]. *)
Inductive WIRE : Set :=
  | SCS (level : bool)
  | SIMO (level : bool)
  | CLK (level : bool).

(** The body of [while (Bit--)], entered with [Bit] runs left.  [k]
    numbers the clock pulses of the transfer; [SOMI k] is what [SOMIRead]
    returns during pulse [k] (true for non-zero); [w] lists the writes so
    far, oldest first. *)
Fixpoint SpiClock (Bit k : nat) (SOMI : nat -> bool) (DataOut DataIn : Z)
    (w : list WIRE) : Z * list WIRE :=
  match Bit with
  | O => (DataIn, w)
  | S Bit' =>
      let w := w ++ [SIMO (negb (Z.land DataOut 0x8000 =? 0))] in
      let w := w ++ [CLK true] in
      let DataOut := UWORD (Z.shiftl DataOut 1) in
      let DataIn := UWORD (Z.shiftl DataIn 1) in
      let DataIn := if SOMI k then UWORD (Z.lor DataIn 1) else DataIn in
      let w := w ++ [CLK false] in
      SpiClock Bit' (S k) SOMI DataOut DataIn w
  end.

(** [UWORD SpiUpdate(UWORD DataOut)]: the word read and the writes to
    the lines. *)
Definition SpiUpdate (SOMI : nat -> bool) (DataOut : Z) : Z * list WIRE :=
  let '(DataIn, w) := SpiClock 16 0 SOMI DataOut 0 [SCS false] in
  (DataIn, w ++ [SCS true]).

(** The word that [Device1TimerInterrupt1] sends to convert the physical
    channel [Input]: [0x1840 | ((Input & 0x000F) << 7)]. *)
Definition AdcCommand (Input : Z) : Z :=
  Z.lor 0x1840 (Z.shiftl (Z.land Input 0x000F) 7).

(** What [Device1TimerInterrupt1] stores: [SpiUpdate(...) & 0x0FFF]. *)
Definition AdcSample (SOMI : nat -> bool) (Input : Z) : Z :=
  Z.land (fst (SpiUpdate SOMI (AdcCommand Input))) 0x0FFF.

End Spi.

(** ** Vocabulary of the SPI properties *)
Module SpiSpec.
Import Spi.

(** The 16 low bits of [w], most significant first. *)
Definition Bits16 (w : Z) : list bool :=
  map (fun k => Z.testbit w (15 - Z.of_nat k)) (seq 0 16).

(** A transfer as the slave sees it: chip select low, then for every bit
    the data line set and one clock pulse, then chip select high. *)
Definition Frame (bits : list bool) : list WIRE :=
  [SCS false] ++ flat_map (fun b => [SIMO b; CLK true; CLK false]) bits ++ [SCS true].

(** The slave answers with the word [w], most significant bit first. *)
Definition Answers (SOMI : nat -> bool) (w : Z) : Prop :=
  forall k, (k < 16)%nat -> SOMI k = Z.testbit w (15 - Z.of_nat k).

End SpiSpec.

(** ** The DCM device: [Device3Write] *)
Module DcmWrite.
Import InputDcm.

Section Write.
Context {hw : Platform}.

(** The [switch (Char)] of [Device3Write] for one port: '-' does nothing,
    'f' floats the port; on a connected port the characters '0' to '7'
    drive pin 5 (the drive of pin 1 is commented out in the source) and
    the bytes [0x0D] to [0x11] set up the NXT colour sensor. *)
Definition PinSwitch (Char : Z) (c : CELLS) : CELLS :=
  if Char =? 45 then c
  else if Char =? 102 then InputPortFloat c
  else if negb (Connected (InputPort c) =? 0) then
    if Z.land Char 0xF8 =? 48 then
      if negb (Z.land Char 0x02 =? 0) then set_Pin5 PinHigh c else set_Pin5 PinLow c
    else if (Char >=? 0x0D) && (Char <=? 0x11) then
      let c := port_set (set_Cmd Char) c in
      let c := port_set (set_Timer 0) c in
      port_set (set_State DCM_NXT_COLOR_INIT) c
    else c
  else c.

(** [static ssize_t Device3Write(struct file *File,const char *Buffer,
    size_t Count,loff_t *Data)]: [Buf] holds the [INPUTS] bytes that
    [copy_from_user] stored, one per port. *)
Definition Device3Write (Count : Z) (Buf : list Z) (ports : list CELLS)
    : list CELLS * Z :=
  if Count >=? Z.of_nat INPUTS then
    (Dcm.for_ports (fun Port => PinSwitch (UBYTE (default 0 (Buf !! Port)))) INPUTS ports,
     INT Count)
  else (ports, 0).

End Write.

End DcmWrite.

(** Values for running [Device3Write]: a connected input port waiting for
    its release, four of them, and the tick inputs with and without a
    colour command latched by the ADC scheduler. *)
Module WriteExamples.

Definition connected_cells : InputDcm.CELLS :=
  InputDcm.port_set (InputDcm.set_Connected 1)
    (Examples.in_cells DCM_CONNECTED_WAITING_FOR_PIN2_HIGH 0x02 0).

Definition ports_connected : list InputDcm.CELLS := replicate 4 connected_cells.

Definition idle_input : InputDcm.INPUT := InputDcm.mkINPUT 0 true false 0.

Definition latched_input : InputDcm.INPUT := InputDcm.mkINPUT 0 true false 0x0E.

End WriteExamples.

(** * Properties *)

(** ** Machine integers and bit tests *)

Lemma UBYTE_small (x : Z) : 0 <= x < 256 -> UBYTE x = x.
Proof. intros H. unfold UBYTE. apply Z.mod_small. exact H. Qed.

Lemma UWORD_small (x : Z) : 0 <= x < 65536 -> UWORD x = x.
Proof. intros H. unfold UWORD. apply Z.mod_small. exact H. Qed.

Lemma land_one_bit (x n : Z) :
  0 <= n -> Z.land x (Z.shiftl 1 n) = if Z.testbit x n then 2 ^ n else 0.
Proof.
  intros Hn. rewrite Z.shiftl_1_l.
  apply Z.bits_inj'. intros m Hm.
  rewrite Z.land_spec, Z.pow2_bits_eqb by lia.
  destruct (Z.eqb_spec n m) as [->|Hne].
  - destruct (Z.testbit x m); simpl.
    + rewrite Z.pow2_bits_true; [reflexivity | lia].
    + apply eq_sym, Z.bits_0.
  - rewrite andb_false_r.
    destruct (Z.testbit x n).
    + rewrite Z.pow2_bits_false; [reflexivity | lia].
    + apply eq_sym, Z.bits_0.
Qed.

Lemma bit_set_testbit (x n : Z) : 0 <= n -> bit_set x n = Z.testbit x n.
Proof.
  intros Hn. unfold bit_set. rewrite land_one_bit by exact Hn.
  destruct (Z.testbit x n).
  - assert (0 < 2 ^ n) by (apply Z.pow_pos_nonneg; lia).
    destruct (Z.eqb_spec (2 ^ n) 0); [lia | reflexivity].
  - reflexivity.
Qed.


(** ** The input port DCM *)

#[local] Arguments UBYTE : simpl never.
#[local] Arguments UWORD : simpl never.
#[local] Arguments bit_set : simpl never.
#[local] Arguments set_bit : simpl never.
#[local] Arguments Z.div : simpl never.
#[local] Arguments Z.geb : simpl never.
#[local] Arguments Z.gtb : simpl never.
#[local] Arguments Z.ltb : simpl never.
#[local] Arguments Z.leb : simpl never.
#[local] Arguments Z.eqb : simpl never.
#[local] Arguments Z.add : simpl never.
#[local] Arguments Z.sub : simpl never.
#[local] Arguments Z.testbit : simpl never.
#[local] Arguments Z.land : simpl never.
#[local] Arguments Z.lnot : simpl never.
#[local] Arguments Z.shiftl : simpl never.
#[local] Arguments Z.to_nat : simpl never.
#[local] Arguments InputDcm.FloatingEvent : simpl never.

(** Case analysis on the innermost condition of the goal. *)
Ltac split_if :=
  match goal with
  | |- context [if ?b then _ else _] =>
      lazymatch b with
      | context [if _ then _ else _] => fail
      | _ => destruct b eqn:?
      end
  end.

Section InputDcmProperties.
Import NxtColor InputDcm InputDcmSpec Pin1Spec.
Context {hw : Platform}.

(** The guard at the head of the loop body leaves an enabled port alone. *)
Lemma tick_enabled (c : CELLS) :
  FSMEnabled (InputPort c) <> 0 ->
  (if FSMEnabled (InputPort c) =? 0
   then port_set (set_State DCM_DISABLED) c else c) = c.
Proof. intros H. destruct (Z.eqb_spec (FSMEnabled (InputPort c)) 0); [lia | reflexivity]. Qed.

Lemma InputPortRun_cons Port i ticks x :
  InputPortRun Port (i :: ticks) x = InputPortRun Port ticks (InputPortTick Port i x).
Proof. reflexivity. Qed.

(** The cells of a port after a tick do not depend on the colour engine's
    shared variables: a port reads only its own cells and its inputs. *)
Lemma InputPortTick_shared Port i c sh1 sh2 :
  fst (InputPortTick Port i (c, sh1)) = fst (InputPortTick Port i (c, sh2)).
Proof.
  destruct c as [[V Cn Cm S O E T F] D K N A LI LO NA NC M P5 P6 B].
  destruct sh1 as [U1 R1], sh2 as [U2 R2].
  unfold InputPortTick. cbn.
  destruct (F =? 0); cbn.
  - destruct (F =? 0); reflexivity.
  - destruct S; cbn; try reflexivity.
    all: unfold NxtColorCommReady; cbn.
    all: repeat (split_if; cbn); reflexivity.
Qed.

(** *** The ladder of [DCM_CONNECTION] *)

(** C1. An enabled input port in [DCM_CONNECTION] leaves it by the fixed
    priority pin 2 low, then pin 1 loaded, then pin 6 high, then pin 5 low:
    the next state is [DCM_PIN2_LOW], [DCM_PIN1_LOADED], [DCM_PIN6_HIGH] or
    [DCM_PIN5_LOW] for the first of these event bits that is set, and
    [DCM_INIT] when none is; the mask and the classification are kept. *)
Theorem connection_ladder_priority (Port : Z) (i : INPUT) (c : CELLS) (sh : SHARED) :
  State (InputPort c) = DCM_CONNECTION ->
  FSMEnabled (InputPort c) <> 0 ->
  let E := Event (InputPort c) in
  let c' := fst (InputPortTick Port i (c, sh)) in
  State (InputPort c') =
    (if Z.testbit E INPUT_PORT_PIN2 then DCM_PIN2_LOW
     else if Z.testbit E INPUT_PORT_VALUE then DCM_PIN1_LOADED
     else if Z.testbit E INPUT_PORT_PIN6 then DCM_PIN6_HIGH
     else if Z.testbit E INPUT_PORT_PIN5 then DCM_PIN5_LOW
     else DCM_INIT)
  /\ (E = 0 -> State (InputPort c') = DCM_INIT)
  /\ Event (InputPort c') = E
  /\ InDcm c' = InDcm c /\ InConn c' = InConn c.
Proof.
  intros HS HF E c'. subst c'. unfold InputPortTick.
  rewrite (tick_enabled c HF), HS. cbn.
  assert (HL : ConnectionLadder E =
    (if Z.testbit E INPUT_PORT_PIN2 then DCM_PIN2_LOW
     else if Z.testbit E INPUT_PORT_VALUE then DCM_PIN1_LOADED
     else if Z.testbit E INPUT_PORT_PIN6 then DCM_PIN6_HIGH
     else if Z.testbit E INPUT_PORT_PIN5 then DCM_PIN5_LOW
     else DCM_INIT)).
  { unfold ConnectionLadder. rewrite !bit_set_testbit by (vm_compute; discriminate).
    reflexivity. }
  fold E. rewrite HL. repeat split.
  intros ->. reflexivity.
Qed.

(** *** The debounce of [DCM_FLOATING] *)

(** Every tick keeps [FloatingInv], whatever the state of the port. *)
Lemma FloatingInv_tick Port i c sh h :
  FloatingInv h c -> FloatingInv (i :: h) (fst (InputPortTick Port i (c, sh))).
Proof.
  destruct c as [[V Cn Cm S O E T F] D K N A LI LO NA NC M P5 P6 B].
  unfold FloatingInv, InputPortTick. cbn.
  destruct (F =? 0) eqn:HF; cbn.
  - rewrite HF. cbn. auto.
  - destruct S; cbn; intros H.
    all: unfold ConnectionLadder, Pin2LowLadder, WaitRelease, set_class; cbn.
    all: try (repeat (split_if; cbn); auto; repeat split; try lia; try constructor; fail).
    destruct H as (HT & HL & HA & HE).
    unfold FloatingCount, FloatingChange, stable_hist; cbn.
    change (DCM_CONNECT_STABLE_DELAY `div` DCM_TIMER_RESOLUTION) with 35.
    change CONNECT_TICKS with 35%nat.
    destruct (Z.eqb_spec E (FloatingEvent i)) as [HEq|HNe]; cbn.
    + destruct (Z.eqb_spec E 0) as [HZ|HZ]; cbn.
      * assert (T = 0) by (destruct (Z.eq_dec T 0); [assumption | exfalso; apply HE; lia]).
        subst T. cbn. repeat split; try lia. constructor.
      * rewrite UBYTE_small by lia.
        destruct (Z.geb_spec (T + 1) 35); cbn.
        -- assert (T = 34) by lia. subst T.
           split; [exact HZ|]. split; [cbn in HL; lia|].
           change 35%nat with (S (Z.to_nat 34)). cbn [take].
           constructor; [symmetry; exact HEq | exact HA].
        -- replace (Z.to_nat (T + 1)) with (S (Z.to_nat T)) by lia. cbn [take length].
           repeat split; try lia.
           constructor; [symmetry; exact HEq | exact HA].
    + destruct (Z.eqb_spec (FloatingEvent i) 0) as [HZ|HZ]; cbn.
      * repeat split; try lia. constructor.
      * change (UBYTE (0 + 1)) with 1.
        destruct (Z.geb_spec 1 35); [lia|]. cbn.
        change (UBYTE (0 + 1)) with 1. change (Z.to_nat 1) with 1%nat. cbn [take length].
        repeat split; try lia. constructor; [reflexivity | constructor].
Qed.

Lemma FloatingInv_run Port ticks : forall c sh h,
  FloatingInv h c ->
  FloatingInv (rev ticks ++ h) (fst (InputPortRun Port ticks (c, sh))).
Proof.
  induction ticks as [|i ticks IH]; intros c sh h H; [exact H|].
  rewrite InputPortRun_cons.
  pose proof (FloatingInv_tick Port i c sh h H) as H1.
  destruct (InputPortTick Port i (c, sh)) as [c1 sh1].
  cbn [rev]. rewrite <- app_assoc. apply IH. exact H1.
Qed.

(** A tick of an enabled port in [DCM_FLOATING]. *)
Lemma floating_tick Port i c sh :
  State (InputPort c) = DCM_FLOATING ->
  FSMEnabled (InputPort c) <> 0 ->
  InputPortTick Port i (c, sh) = (FloatingCount (FloatingChange (FloatingEvent i) c), sh).
Proof.
  intros HS HF. unfold InputPortTick.
  rewrite (tick_enabled c HF), HS. reflexivity.
Qed.

(** What [DCM_FLOATING] leaves alone. *)
Lemma floating_frame m c :
  let c' := FloatingCount (FloatingChange m c) in
  FSMEnabled (InputPort c') = FSMEnabled (InputPort c) /\
  InDcm c' = InDcm c /\ InConn c' = InConn c /\
  Connected (InputPort c') = Connected (InputPort c) /\
  (State (InputPort c) = DCM_FLOATING ->
   State (InputPort c') = DCM_FLOATING \/ State (InputPort c') = DCM_CONNECTION).
Proof.
  destruct c as [[V Cn Cm S O E T F] D K N A LI LO NA NC M P5 P6 B].
  unfold FloatingCount, FloatingChange; cbn.
  repeat (split_if; cbn); auto 10.
Qed.

(** A tick that sees the mask [m], when either the timer is at zero or [m]
    is the stored mask: the timer counts one more tick of [m]. *)
Lemma floating_count_same m c :
  m <> 0 ->
  0 <= Timer (InputPort c) < 35 ->
  Timer (InputPort c) = 0 \/ Event (InputPort c) = m ->
  let c' := FloatingCount (FloatingChange m c) in
  Event (InputPort c') = m /\
  Timer (InputPort c') = Timer (InputPort c) + 1 /\
  State (InputPort c') =
    (if Timer (InputPort c) + 1 >=? 35 then DCM_CONNECTION else State (InputPort c)).
Proof.
  destruct c as [[V Cn Cm S O E T F] D K N A LI LO NA NC M P5 P6 B].
  unfold FloatingCount, FloatingChange; cbn. intros Hm HT HE.
  change (DCM_CONNECT_STABLE_DELAY `div` DCM_TIMER_RESOLUTION) with 35.
  destruct (Z.eqb_spec E m) as [->|HNe]; cbn.
  - destruct (Z.eqb_spec m 0); [contradiction|]. cbn.
    rewrite UBYTE_small by lia.
    destruct (T + 1 >=? 35); cbn; auto.
  - destruct HE as [->|]; [|contradiction].
    destruct (Z.eqb_spec m 0); [contradiction|]. cbn.
    change (UBYTE (0 + 1)) with 1. change (0 + 1) with 1.
    destruct (1 >=? 35) eqn:H1; [discriminate H1|]. cbn. auto.
Qed.

(** Without a full window of one non-zero mask the port stays in
    [DCM_FLOATING] and its classification is not written. *)
Lemma floating_stays Port ticks : forall c sh h,
  State (InputPort c) = DCM_FLOATING ->
  FSMEnabled (InputPort c) <> 0 ->
  FloatingInv h c ->
  (forall k m, (k <= length ticks)%nat ->
               ~ stable_hist CONNECT_TICKS m (rev (take k ticks) ++ h)) ->
  let c' := fst (InputPortRun Port ticks (c, sh)) in
  State (InputPort c') = DCM_FLOATING /\ InDcm c' = InDcm c /\ InConn c' = InConn c.
Proof.
  induction ticks as [|i ticks IH]; intros c sh h HS HF HI HW; [cbn; auto|].
  rewrite InputPortRun_cons.
  pose proof (FloatingInv_tick Port i c sh h HI) as HI1.
  rewrite (floating_tick Port i c sh HS HF) in *. cbn [fst] in HI1.
  destruct (floating_frame (FloatingEvent i) c) as (HF1 & HD & HK & _ & HS1).
  specialize (HS1 HS).
  set (c1 := FloatingCount (FloatingChange (FloatingEvent i) c)) in *.
  destruct HS1 as [HS1|HS1].
  - destruct (IH c1 sh (i :: h) HS1) as (H1 & H2 & H3).
    + rewrite HF1. exact HF.
    + exact HI1.
    + intros k m Hk. specialize (HW (S k) m). cbn [take rev length] in HW.
      rewrite <- app_assoc in HW. apply HW. lia.
    + cbv zeta. rewrite H1, H2, H3, HD, HK. auto.
  - exfalso. unfold FloatingInv in HI1. rewrite HS1 in HI1.
    apply (HW 1%nat (Event (InputPort c1))); [cbn; lia|].
    change (rev (take 1 (i :: ticks)) ++ h) with (i :: h). exact HI1.
Qed.

(** A full window of one non-zero mask takes the port to
    [DCM_CONNECTION] on its last tick. *)
Lemma floating_reaches Port m ticks : forall c sh,
  m <> 0 ->
  Forall (fun i => FloatingEvent i = m) ticks ->
  State (InputPort c) = DCM_FLOATING ->
  FSMEnabled (InputPort c) <> 0 ->
  0 <= Timer (InputPort c) ->
  Timer (InputPort c) + Z.of_nat (length ticks) = 35 ->
  Timer (InputPort c) = 0 \/ Event (InputPort c) = m ->
  (1 <= length ticks)%nat ->
  let c' := fst (InputPortRun Port ticks (c, sh)) in
  State (InputPort c') = DCM_CONNECTION /\ Event (InputPort c') = m.
Proof.
  induction ticks as [|i ticks IH]; intros c sh Hm HA HS HF HT HL HE H1; [cbn in H1; lia|].
  rewrite InputPortRun_cons, (floating_tick Port i c sh HS HF).
  inversion HA as [|? ? Hi HA']; subst.
  cbn [length] in HL.
  destruct (floating_count_same (FloatingEvent i) c Hm) as (HE1 & HT1 & HS1); [lia | exact HE |].
  destruct (floating_frame (FloatingEvent i) c) as (HF1 & _).
  set (c1 := FloatingCount (FloatingChange (FloatingEvent i) c)) in *.
  destruct ticks as [|j ticks].
  - cbn [InputPortRun fst]. cbn [length] in HL.
    destruct (Z.geb_spec (Timer (InputPort c) + 1) 35); [auto | lia].
  - apply IH; auto.
    + destruct (Z.geb_spec (Timer (InputPort c) + 1) 35); [cbn [length] in HL; lia|].
      rewrite HS1. exact HS.
    + rewrite HF1. exact HF.
    + lia.
    + cbn [length] in *. lia.
    + cbn [length]. lia.
Qed.

(** C2. For an enabled input port in [DCM_FLOATING]: a tick whose computed
    event mask differs from the stored one stores it and resets the debounce
    timer to zero before counting, and the port stays in [DCM_FLOATING].
    From a timer of zero and over any sequence of ticks, the port is in
    [DCM_CONNECTION] only when the last [DCM_CONNECT_STABLE_DELAY /
    DCM_TIMER_RESOLUTION] = 35 ticks all computed the same non-zero mask;
    as long as no such window has occurred it stays in [DCM_FLOATING] and
    [InDcm] and [InConn] are not changed; and 35 ticks of one non-zero mask
    do take it to [DCM_CONNECTION]. *)
Theorem floating_debounce (Port : Z) (c : CELLS) (sh : SHARED) :
  State (InputPort c) = DCM_FLOATING ->
  FSMEnabled (InputPort c) <> 0 ->
  (forall i, FloatingEvent i <> Event (InputPort c) ->
     Timer (InputPort (FloatingChange (FloatingEvent i) c)) = 0 /\
     Event (InputPort (FloatingChange (FloatingEvent i) c)) = FloatingEvent i /\
     let c' := fst (InputPortTick Port i (c, sh)) in
     c' = FloatingCount (FloatingChange (FloatingEvent i) c) /\
     State (InputPort c') = DCM_FLOATING /\
     Timer (InputPort c') = (if FloatingEvent i =? 0 then 0 else 1))
  /\
  (Timer (InputPort c) = 0 ->
   forall ticks,
     let c' := fst (InputPortRun Port ticks (c, sh)) in
     (State (InputPort c') = DCM_CONNECTION ->
      stable_for CONNECT_TICKS (Event (InputPort c')) ticks)
     /\
     ((forall k m, (k <= length ticks)%nat -> ~ stable_for CONNECT_TICKS m (take k ticks)) ->
      State (InputPort c') = DCM_FLOATING /\ InDcm c' = InDcm c /\ InConn c' = InConn c)
     /\
     (forall m, m <> 0 -> length ticks = CONNECT_TICKS ->
                Forall (fun i => FloatingEvent i = m) ticks ->
                State (InputPort c') = DCM_CONNECTION /\ Event (InputPort c') = m)).
Proof.
  intros HS HF. split.
  - intros i Hi. rewrite (floating_tick Port i c sh HS HF). cbn [fst].
    destruct c as [[V Cn Cm S O E T F] D K N A LI LO NA NC M P5 P6 B].
    cbn in HS, Hi. subst S.
    unfold FloatingCount, FloatingChange; cbn.
    destruct (Z.eqb_spec E (FloatingEvent i)) as [HEq|HNe]; [congruence|]. cbn.
    repeat split.
    + destruct (Z.eqb_spec (FloatingEvent i) 0); cbn; [reflexivity|].
      change (UBYTE (0 + 1) >=? DCM_CONNECT_STABLE_DELAY `div` DCM_TIMER_RESOLUTION) with false.
      reflexivity.
    + destruct (Z.eqb_spec (FloatingEvent i) 0); cbn; [reflexivity|].
      change (UBYTE (0 + 1) >=? DCM_CONNECT_STABLE_DELAY `div` DCM_TIMER_RESOLUTION) with false.
      reflexivity.
  - intros HT ticks c'.
    assert (HI : FloatingInv [] c).
    { unfold FloatingInv. rewrite HS, HT. cbn. repeat split; try lia. constructor. }
    split; [|split].
    + intros HC. pose proof (FloatingInv_run Port ticks c sh [] HI) as HR.
      rewrite app_nil_r in HR. fold c' in HR. unfold FloatingInv in HR. rewrite HC in HR.
      exact HR.
    + intros HW. apply (floating_stays Port ticks c sh [] HS HF HI).
      intros k m Hk. rewrite app_nil_r. apply (HW k m Hk).
    + intros m Hm HL HA.
      change CONNECT_TICKS with 35%nat in HL.
      apply (floating_reaches Port m ticks c sh Hm HA HS HF); rewrite ?HT, ?HL; auto; lia.
Qed.

(** *** The touch thresholds of [DCM_PIN2_LOW] *)

(** C3, as the code has it.  For an enabled input port in [DCM_PIN2_LOW]
    whose mask shows pins 5 and 6 at rest and whose pin 1 reading lies
    between the near-ground and near-5V thresholds: a reading strictly
    between [VtoC IN1_TOUCH_LOW] and [VtoC IN1_TOUCH_HIGH] takes the port to
    [DCM_NXT_TOUCH_CHECK], remembering the reading and leaving the
    classification alone; a reading equal to either threshold classifies
    the port at once as NXT sound sensor. *)
Theorem touch_thresholds_strict (Port : Z) (i : INPUT) (c : CELLS) (sh : SHARED) :
  State (InputPort c) = DCM_PIN2_LOW ->
  FSMEnabled (InputPort c) <> 0 ->
  Z.testbit (Event (InputPort c)) INPUT_PORT_PIN5 = false ->
  Z.testbit (Event (InputPort c)) INPUT_PORT_PIN6 = false ->
  VtoC IN1_NEAR_GND <= InPin1 i <= VtoC IN1_NEAR_5V ->
  let c' := fst (InputPortTick Port i (c, sh)) in
  (VtoC IN1_TOUCH_LOW < InPin1 i < VtoC IN1_TOUCH_HIGH ->
   State (InputPort c') = DCM_NXT_TOUCH_CHECK /\
   Value (InputPort c') = UWORD (InPin1 i) /\
   Timer (InputPort c') = 0 /\
   InDcm c' = InDcm c /\ InConn c' = InConn c)
  /\
  (InPin1 i = VtoC IN1_TOUCH_LOW \/ InPin1 i = VtoC IN1_TOUCH_HIGH ->
   State (InputPort c') = DCM_CONNECTED_WAITING_FOR_PIN2_HIGH /\
   InDcm c' = TYPE_NXT_SOUND /\ InConn c' = CONN_NXT_DUMB).
Proof.
  intros HS HF H5 H6 HV c'. subst c'. unfold InputPortTick.
  rewrite (tick_enabled c HF), HS.
  destruct c as [[V Cn Cm S O E T F] D K N A LI LO NA NC M P5 P6 B].
  cbn in H5, H6 |- *. unfold Pin2LowLadder, set_class. cbn.
  rewrite !bit_set_testbit by (vm_compute; discriminate).
  rewrite H5, H6. cbn.
  destruct (Z.ltb_spec (InPin1 i) (VtoC IN1_NEAR_GND)); [lia|].
  destruct (Z.gtb_spec (InPin1 i) (VtoC IN1_NEAR_5V)); [lia|].
  split.
  - intros [Hl Hh].
    destruct (Z.gtb_spec (InPin1 i) (VtoC IN1_TOUCH_LOW)); [|lia].
    destruct (Z.ltb_spec (InPin1 i) (VtoC IN1_TOUCH_HIGH)); [|lia].
    cbn. auto.
  - intros [He|He]; rewrite He.
    + destruct (Z.gtb_spec (VtoC IN1_TOUCH_LOW) (VtoC IN1_TOUCH_LOW)); [lia|]. cbn. auto.
    + destruct (Z.ltb_spec (VtoC IN1_TOUCH_HIGH) (VtoC IN1_TOUCH_HIGH)); [lia|].
      rewrite andb_false_r. cbn. auto.
Qed.

(** *** The colour session in [DCM_NXT_COLOR_BUSY] *)

(** The copy loop writes the first [n] bytes from [Tmp] on. *)
Lemma copy_payload_spec (n : nat) : forall (Tmp : nat) (Buffer pData : list Z),
  (Tmp + n <= length Buffer)%nat ->
  (Tmp + n <= length pData)%nat ->
  copy_payload n Tmp Buffer pData =
  take Tmp pData ++ take n (drop Tmp Buffer) ++ drop (Tmp + n) pData.
Proof.
  induction n as [|n IH]; intros Tmp Buffer pData HB HP.
  - cbn [copy_payload take app]. rewrite Nat.add_0_r. symmetry. apply take_drop.
  - cbn [copy_payload].
    destruct (lookup_lt_is_Some_2 Buffer Tmp) as [x Hx]; [lia|].
    rewrite Hx. cbn [default].
    rewrite IH by (rewrite ?length_insert; lia).
    rewrite (take_S_r _ Tmp x) by (apply list_lookup_insert_eq; lia).
    rewrite take_insert_ge by lia.
    rewrite drop_insert_lt by lia.
    rewrite (drop_S Buffer x Tmp Hx). cbn [take].
    replace (S Tmp + n)%nat with (Tmp + S n)%nat by lia.
    rewrite <- app_assoc. reflexivity.
Qed.

Lemma copy_payload_whole (Buffer pData : list Z) :
  length Buffer = Z.to_nat NXTCOLOR_BYTES ->
  (Z.to_nat NXTCOLOR_BYTES <= length pData)%nat ->
  copy_payload (Z.to_nat NXTCOLOR_BYTES) 0 Buffer pData =
  Buffer ++ drop (Z.to_nat NXTCOLOR_BYTES) pData.
Proof.
  generalize (Z.to_nat NXTCOLOR_BYTES). intros n HB HP.
  rewrite copy_payload_spec by (cbn [Nat.add]; lia).
  rewrite drop_0, (take_ge Buffer n) by lia. reflexivity.
Qed.

(** C7, as the code has it.  For an enabled input port in
    [DCM_NXT_COLOR_BUSY] whose timer has not passed
    [DCM_NXT_COLOR_TIMEOUT / DCM_TIMER_RESOLUTION] = 50: when the engine is
    ready the tick copies all [NXTCOLOR_BYTES] bytes of [NxtColorBuffer]
    into [NxtCol], leaves the rest of [NxtCol] alone, stops the engine
    (state 0, the port's bit of [NxtColorInitInUse] cleared), marks the
    colour session active and goes to [DCM_CONNECTED_WAITING_FOR_PIN2_HIGH];
    when the engine is not ready and the timer is at 50 the tick stops the
    engine and goes to the same state without touching [NxtCol]; otherwise
    it only counts. *)
Theorem color_busy_completion_and_timeout (Port : Z) (i : INPUT) (c : CELLS) (sh : SHARED) :
  State (InputPort c) = DCM_NXT_COLOR_BUSY ->
  FSMEnabled (InputPort c) <> 0 ->
  0 <= Timer (InputPort c) <= 50 ->
  length (NxtColorBuffer (Comm c)) = Z.to_nat NXTCOLOR_BYTES ->
  (Z.to_nat NXTCOLOR_BYTES <= length (NxtCol c))%nat ->
  let c' := fst (InputPortTick Port i (c, sh)) in
  let sh' := snd (InputPortTick Port i (c, sh)) in
  let stopped :=
    NxtColorState (Comm c') = 0 /\
    NxtColorInitInUse sh' =
      UBYTE (Z.land (NxtColorInitInUse sh) (Z.lnot (Z.shiftl 1 Port))) /\
    State (InputPort c') = DCM_CONNECTED_WAITING_FOR_PIN2_HIGH in
  (NxtColorState (Comm c) = 0 ->
   NxtCol c' = NxtColorBuffer (Comm c) ++ drop (Z.to_nat NXTCOLOR_BYTES) (NxtCol c) /\
   take (Z.to_nat NXTCOLOR_BYTES) (NxtCol c') = NxtColorBuffer (Comm c) /\
   NxtColorActive c' = 1 /\ NxtcolorCmd c' = Cmd (InputPort c) /\ stopped)
  /\
  (NxtColorState (Comm c) <> 0 -> Timer (InputPort c) = 50 ->
   NxtCol c' = NxtCol c /\ NxtColorActive c' = NxtColorActive c /\ stopped)
  /\
  (NxtColorState (Comm c) <> 0 -> Timer (InputPort c) < 50 ->
   State (InputPort c') = DCM_NXT_COLOR_BUSY /\
   Timer (InputPort c') = Timer (InputPort c) + 1 /\
   NxtCol c' = NxtCol c /\ Comm c' = Comm c /\ sh' = sh).
Proof.
  intros HS HF HT HB HP c' sh' stopped. subst c' sh' stopped. unfold InputPortTick.
  rewrite (tick_enabled c HF), HS.
  destruct c as [[V Cn Cm S O E T F] D K N A LI LO NA NC M P5 P6 B].
  destruct M as [MS MI MP MC MB MD MF]. destruct sh as [U R].
  cbn in HT, HB, HP |- *. unfold NxtColorCommReady. cbn.
  change (DCM_NXT_COLOR_TIMEOUT `div` DCM_TIMER_RESOLUTION) with 50.
  split; [|split].
  - intros ->. change (0 =? 0) with true. cbn.
    change (1 =? 0) with false. cbn.
    change (UBYTE (0 + 1) >? 50) with false. cbn.
    rewrite copy_payload_whole by assumption.
    rewrite take_app_length' by (symmetry; assumption). auto 10.
  - intros HN ->. destruct (Z.eqb_spec MS 0); [contradiction|].
    change (0 =? 0) with true. cbn.
    change (UBYTE (50 + 1) >? 50) with true. cbn. auto 10.
  - intros HN HL. destruct (Z.eqb_spec MS 0); [contradiction|].
    change (0 =? 0) with true. cbn.
    rewrite (UBYTE_small (T + 1)) by lia.
    destruct (Z.gtb_spec (T + 1) 50); [lia|]. cbn. auto 10.
Qed.

(** *** [DCM_PIN1_LOADED] and the release of pin 1 *)

Lemma pin1_wait_tick Port i c sh :
  State (InputPort c) = DCM_CONNECTED_WAITING_FOR_PIN1_TO_FLOAT ->
  FSMEnabled (InputPort c) <> 0 ->
  InputPortTick Port i (c, sh) = (WaitRelease (InPin1 i >? VtoC IN1_NEAR_5V) c, sh).
Proof.
  intros HS HF. unfold InputPortTick.
  rewrite (tick_enabled c HF), HS. reflexivity.
Qed.

(** One tick of a wait-for-release state. *)
Lemma WaitRelease_spec (released : bool) (c : CELLS) :
  0 <= Timer (InputPort c) < 10 ->
  let c' := WaitRelease released c in
  FSMEnabled (InputPort c') = FSMEnabled (InputPort c) /\
  InDcm c' = InDcm c /\ InConn c' = InConn c /\
  (released = false ->
   Timer (InputPort c') = 0 /\ State (InputPort c') = State (InputPort c) /\
   Connected (InputPort c') = Connected (InputPort c)) /\
  (released = true -> Timer (InputPort c) + 1 < 10 ->
   Timer (InputPort c') = Timer (InputPort c) + 1 /\
   State (InputPort c') = State (InputPort c) /\
   Connected (InputPort c') = Connected (InputPort c)) /\
  (released = true -> Timer (InputPort c) + 1 >= 10 ->
   State (InputPort c') = DCM_INIT /\ Connected (InputPort c') = 0).
Proof.
  destruct c as [[V Cn Cm S O E T F] D K N A LI LO NA NC M P5 P6 B].
  unfold WaitRelease; cbn. intros HT.
  change (DCM_EVENT_STABLE_DELAY `div` DCM_TIMER_RESOLUTION) with 10.
  rewrite (UBYTE_small (T + 1)) by lia.
  destruct released; cbn.
  - destruct (Z.geb_spec (T + 1) 10); cbn; repeat split; auto; try discriminate; lia.
  - repeat split; auto; discriminate.
Qed.

(** Without a full window of floating readings the port stays connected. *)
Lemma pin1_wait_stays Port ticks : forall c sh h,
  Pin1WaitInv h c ->
  (forall k, (k <= length ticks)%nat ->
             ~ floated_hist EVENT_TICKS (rev (take k ticks) ++ h)) ->
  let c' := fst (InputPortRun Port ticks (c, sh)) in
  State (InputPort c') = DCM_CONNECTED_WAITING_FOR_PIN1_TO_FLOAT /\
  Connected (InputPort c') = Connected (InputPort c) /\
  InDcm c' = InDcm c /\ InConn c' = InConn c.
Proof.
  induction ticks as [|i ticks IH]; intros c sh h HI HW.
  { destruct HI as (HS & _). cbn. auto. }
  destruct HI as (HS & HF & HT & HL & HA).
  rewrite InputPortRun_cons, (pin1_wait_tick Port i c sh HS HF).
  destruct (WaitRelease_spec (InPin1 i >? VtoC IN1_NEAR_5V) c HT)
    as (HF1 & HD & HK & Hno & Hyes & Hout).
  set (c1 := WaitRelease (InPin1 i >? VtoC IN1_NEAR_5V) c) in *.
  assert (HW1 : forall k, (k <= length ticks)%nat ->
                ~ floated_hist EVENT_TICKS (rev (take k ticks) ++ i :: h)).
  { intros k Hk. specialize (HW (S k)). cbn [take rev length] in HW.
    rewrite <- app_assoc in HW. apply HW. lia. }
  assert (Hstep : Pin1WaitInv (i :: h) c1 /\
                  Connected (InputPort c1) = Connected (InputPort c)).
  { destruct (Z.gtb_spec (InPin1 i) (VtoC IN1_NEAR_5V)) as [Hup|Hdn].
    - destruct (Z.lt_ge_cases (Timer (InputPort c) + 1) 10) as [Hlt|Hge].
      + destruct (Hyes eq_refl Hlt) as (HT1 & HS1 & HC1).
        split; [|exact HC1]. unfold Pin1WaitInv.
        rewrite HT1, HS1, HF1.
        replace (Z.to_nat (Timer (InputPort c) + 1)) with (S (Z.to_nat (Timer (InputPort c))))
          by lia.
        cbn [take length]. repeat split; auto; try lia.
        constructor; [unfold Pin1Floats; lia | exact HA].
      + exfalso. apply (HW 1%nat); [cbn; lia|].
        change (rev (take 1 (i :: ticks)) ++ h) with (i :: h).
        unfold floated_hist. change EVENT_TICKS with 10%nat.
        assert (Timer (InputPort c) = 9) as HT9 by lia.
        rewrite HT9 in HL, HA. change (Z.to_nat 9) with 9%nat in HL, HA.
        split; [cbn [length]; lia|].
        change 10%nat with (S 9). cbn [take].
        constructor; [unfold Pin1Floats; lia | exact HA].
    - destruct (Hno eq_refl) as (HT1 & HS1 & HC1).
      split; [|exact HC1]. unfold Pin1WaitInv.
      rewrite HT1, HS1, HF1. change (Z.to_nat 0) with 0%nat. cbn [take].
      repeat split; auto; lia. }
  destruct Hstep as (HI1 & HC1).
  destruct (IH c1 sh (i :: h) HI1 HW1) as (H1 & H2 & H3 & H4).
  cbv zeta. rewrite H1, H2, H3, H4, HC1, HD, HK. auto.
Qed.

(** A full window of floating readings disconnects on its last tick. *)
Lemma pin1_wait_release Port ticks : forall c sh,
  Forall Pin1Floats ticks ->
  State (InputPort c) = DCM_CONNECTED_WAITING_FOR_PIN1_TO_FLOAT ->
  FSMEnabled (InputPort c) <> 0 ->
  0 <= Timer (InputPort c) ->
  Timer (InputPort c) + Z.of_nat (length ticks) = 10 ->
  (1 <= length ticks)%nat ->
  let c' := fst (InputPortRun Port ticks (c, sh)) in
  State (InputPort c') = DCM_INIT /\ Connected (InputPort c') = 0.
Proof.
  induction ticks as [|i ticks IH]; intros c sh HA HS HF HT HL H1; [cbn in H1; lia|].
  rewrite InputPortRun_cons, (pin1_wait_tick Port i c sh HS HF).
  inversion HA as [|? ? Hi HA']; subst. cbn [length] in HL.
  destruct (WaitRelease_spec (InPin1 i >? VtoC IN1_NEAR_5V) c)
    as (HF1 & _ & _ & _ & Hyes & Hout); [lia|].
  set (c1 := WaitRelease (InPin1 i >? VtoC IN1_NEAR_5V) c) in *.
  assert (Hup : (InPin1 i >? VtoC IN1_NEAR_5V) = true).
  { unfold Pin1Floats in Hi. destruct (Z.gtb_spec (InPin1 i) (VtoC IN1_NEAR_5V)); [reflexivity | lia]. }
  destruct ticks as [|j ticks].
  - cbn [InputPortRun fst]. cbn [length] in HL. apply (Hout Hup). lia.
  - cbn [length] in HL.
    destruct (Hyes Hup) as (HT1 & HS1 & _); [lia|].
    apply IH; auto.
    + rewrite HS1. exact HS.
    + rewrite HF1. exact HF.
    + lia.
    + cbn [length]. lia.
    + cbn [length]. lia.
Qed.

(** C6. An enabled input port in [DCM_PIN1_LOADED] is classified by its pin
    1 reading against two thresholds: above [VtoC IN1_NEAR_PIN2] the pair is
    Error/Error, below [VtoC IN1_NEAR_GND] the connection is the UART one,
    and from [VtoC IN1_NEAR_GND] to [VtoC IN1_NEAR_PIN2] inclusive it is the
    dumb input one.  In every case the port is marked connected and waits in
    [DCM_CONNECTED_WAITING_FOR_PIN1_TO_FLOAT] with its timer at zero; over
    any later ticks it stays there, connected and with the same
    classification, as long as no [DCM_EVENT_STABLE_DELAY /
    DCM_TIMER_RESOLUTION] = 10 consecutive ticks read pin 1 above
    [VtoC IN1_NEAR_5V], and ten such ticks in a row disconnect it. *)
Theorem pin1_loaded_classification (Port : Z) (i : INPUT) (c : CELLS) (sh : SHARED) :
  State (InputPort c) = DCM_PIN1_LOADED ->
  FSMEnabled (InputPort c) <> 0 ->
  let c1 := fst (InputPortTick Port i (c, sh)) in
  (InPin1 i > VtoC IN1_NEAR_PIN2 ->
   InDcm c1 = TYPE_ERROR /\ InConn c1 = CONN_ERROR)
  /\
  (InPin1 i <= VtoC IN1_NEAR_PIN2 -> InPin1 i < VtoC IN1_NEAR_GND ->
   InDcm c1 = TYPE_UNKNOWN /\ InConn c1 = CONN_INPUT_UART)
  /\
  (VtoC IN1_NEAR_GND <= InPin1 i <= VtoC IN1_NEAR_PIN2 ->
   InDcm c1 = TYPE_UNKNOWN /\ InConn c1 = CONN_INPUT_DUMB)
  /\
  Connected (InputPort c1) = 1 /\
  State (InputPort c1) = DCM_CONNECTED_WAITING_FOR_PIN1_TO_FLOAT /\
  Timer (InputPort c1) = 0
  /\
  forall ticks,
    let c' := fst (InputPortRun Port (i :: ticks) (c, sh)) in
    ((forall k, (k <= length ticks)%nat -> ~ floated_for EVENT_TICKS (take k ticks)) ->
     State (InputPort c') = DCM_CONNECTED_WAITING_FOR_PIN1_TO_FLOAT /\
     Connected (InputPort c') = 1 /\
     InDcm c' = InDcm c1 /\ InConn c' = InConn c1)
    /\
    (length ticks = EVENT_TICKS -> Forall Pin1Floats ticks ->
     State (InputPort c') = DCM_INIT /\ Connected (InputPort c') = 0).
Proof.
  intros HS HF c1.
  assert (Htick : exists c1', InputPortTick Port i (c, sh) = (c1', sh) /\
            FSMEnabled (InputPort c1') = FSMEnabled (InputPort c) /\
            Connected (InputPort c1') = 1 /\
            State (InputPort c1') = DCM_CONNECTED_WAITING_FOR_PIN1_TO_FLOAT /\
            Timer (InputPort c1') = 0 /\
            (InDcm c1', InConn c1') =
              (if InPin1 i >? VtoC IN1_NEAR_PIN2 then (TYPE_ERROR, CONN_ERROR)
               else if InPin1 i <? VtoC IN1_NEAR_GND then (TYPE_UNKNOWN, CONN_INPUT_UART)
               else (TYPE_UNKNOWN, CONN_INPUT_DUMB))).
  { unfold InputPortTick. rewrite (tick_enabled c HF), HS.
    eexists. split; [reflexivity|].
    destruct c as [[V Cn Cm S O E T F] D K N A LI LO NA NC M P5 P6 B].
    unfold set_class. cbn.
    destruct (InPin1 i >? VtoC IN1_NEAR_PIN2); [|destruct (InPin1 i <? VtoC IN1_NEAR_GND)];
      cbn; auto 10. }
  destruct Htick as (c1' & Hc1 & HF1 & HC1 & HS1 & HT1 & Hcls).
  assert (c1 = c1') as -> by (subst c1; rewrite Hc1; reflexivity).
  split; [|split; [|split]].
  - intros Hv. destruct (Z.gtb_spec (InPin1 i) (VtoC IN1_NEAR_PIN2)); [|lia].
    inversion Hcls. auto.
  - intros Hv1 Hv2. destruct (Z.gtb_spec (InPin1 i) (VtoC IN1_NEAR_PIN2)); [lia|].
    destruct (Z.ltb_spec (InPin1 i) (VtoC IN1_NEAR_GND)); [|lia].
    inversion Hcls. auto.
  - intros Hv. destruct (Z.gtb_spec (InPin1 i) (VtoC IN1_NEAR_PIN2)); [lia|].
    destruct (Z.ltb_spec (InPin1 i) (VtoC IN1_NEAR_GND)); [lia|].
    inversion Hcls. auto.
  - repeat (split; [assumption|]).
    intros ticks c'. subst c'. rewrite InputPortRun_cons, Hc1.
    split.
    + intros HW.
      assert (HI : Pin1WaitInv [] c1').
      { unfold Pin1WaitInv. rewrite HS1, HT1, HF1. change (Z.to_nat 0) with 0%nat.
        cbn [take length]. repeat split; auto; lia. }
      destruct (pin1_wait_stays Port ticks c1' sh [] HI) as (H1 & H2 & H3 & H4).
      * intros k Hk. rewrite app_nil_r. apply (HW k Hk).
      * rewrite H1, H2, H3, H4, HC1. auto.
    + intros HL HA. change EVENT_TICKS with 10%nat in HL.
      apply (pin1_wait_release Port ticks c1' sh HA HS1); rewrite ?HF1, ?HT1, ?HL; auto; lia.
Qed.

End InputDcmProperties.

(** *** The input port on the LEGO platform values *)
Section InputDcmWitnesses.
Import NxtColor InputDcm InputDcmSpec Pin1Spec.

Lemma connection_ladder_priority_witness :
  let c := Examples.in_cells DCM_CONNECTION 0x48 35 in
  let i := Examples.in_input 100 true true in
  State (InputPort c) = DCM_CONNECTION /\
  FSMEnabled (InputPort c) <> 0 /\
  State (InputPort (fst (@InputPortTick lms2012 0 i (c, Examples.shared0))))
  = DCM_PIN1_LOADED.
Proof.
  intros c i.
  assert (HF : FSMEnabled (InputPort c) <> 0) by (vm_compute; discriminate).
  split; [reflexivity |]. split; [exact HF |].
  exact (proj1 (@connection_ladder_priority lms2012 0 i c Examples.shared0 eq_refl HF)).
Defined.

Lemma floating_debounce_witness :
  let c := Examples.in_cells DCM_FLOATING 0 0 in
  let ticks := replicate 35 (Examples.in_input 100 true false) in
  State (InputPort c) = DCM_FLOATING /\
  FSMEnabled (InputPort c) <> 0 /\
  State (InputPort (fst (@InputPortRun lms2012 0 ticks (c, Examples.shared0))))
  = DCM_CONNECTION.
Proof.
  intros c ticks.
  assert (HF : FSMEnabled (InputPort c) <> 0) by (vm_compute; discriminate).
  split; [reflexivity |]. split; [exact HF |].
  refine (proj1 (proj2 (proj2 (proj2 (@floating_debounce lms2012 0 c Examples.shared0
                                         eq_refl HF) eq_refl ticks)) 0x40 _ eq_refl _)).
  - discriminate.
  - apply Forall_replicate. reflexivity.
Defined.

(** A reading of 700 counts lies between the touch thresholds, 696 and 778
    counts. *)
Lemma touch_thresholds_strict_witness :
  let c := Examples.in_cells DCM_PIN2_LOW 0x02 0 in
  let i := Examples.in_input 700 true false in
  State (InputPort c) = DCM_PIN2_LOW /\
  FSMEnabled (InputPort c) <> 0 /\
  Z.testbit (Event (InputPort c)) INPUT_PORT_PIN5 = false /\
  Z.testbit (Event (InputPort c)) INPUT_PORT_PIN6 = false /\
  @VtoC lms2012 IN1_NEAR_GND <= InPin1 i <= @VtoC lms2012 IN1_NEAR_5V /\
  State (InputPort (fst (@InputPortTick lms2012 0 i (c, Examples.shared0))))
  = DCM_NXT_TOUCH_CHECK.
Proof.
  intros c i.
  assert (HF : FSMEnabled (InputPort c) <> 0) by (vm_compute; discriminate).
  assert (HV : @VtoC lms2012 IN1_NEAR_GND <= InPin1 i <= @VtoC lms2012 IN1_NEAR_5V)
    by (vm_compute; split; discriminate).
  split; [reflexivity |]. split; [exact HF |].
  split; [reflexivity |]. split; [reflexivity |]. split; [exact HV |].
  refine (proj1 (proj1 (@touch_thresholds_strict lms2012 0 i c Examples.shared0
                          eq_refl HF eq_refl eq_refl HV) _)).
  vm_compute. split; reflexivity.
Defined.

(** C3 fails on the code: a pin 1 reading equal to [VtoC IN1_TOUCH_HIGH] (778
    counts) or to [VtoC IN1_TOUCH_LOW] (696 counts) does not enter
    [DCM_NXT_TOUCH_CHECK]; the port is classified as NXT sound sensor in
    the same tick. *)
Lemma touch_threshold_counterexample :
  let c := Examples.in_cells DCM_PIN2_LOW 0x02 0 in
  let after v :=
    fst (@InputPortTick lms2012 0 (Examples.in_input v true false) (c, Examples.shared0)) in
  @VtoC lms2012 IN1_TOUCH_HIGH = 778 /\
  State (InputPort (after 778)) <> DCM_NXT_TOUCH_CHECK /\
  State (InputPort (after 778)) = DCM_CONNECTED_WAITING_FOR_PIN2_HIGH /\
  InDcm (after 778) = TYPE_NXT_SOUND /\
  @VtoC lms2012 IN1_TOUCH_LOW = 696 /\
  State (InputPort (after 696)) <> DCM_NXT_TOUCH_CHECK /\
  State (InputPort (after 696)) = DCM_CONNECTED_WAITING_FOR_PIN2_HIGH /\
  InDcm (after 696) = TYPE_NXT_SOUND.
Proof.
  vm_compute. repeat split; try reflexivity; discriminate.
Qed.

Lemma pin1_loaded_classification_witness :
  let c := Examples.in_cells DCM_PIN1_LOADED 0x40 35 in
  let i := Examples.in_input 1000 true false in
  let ticks := replicate 10 (Examples.in_input 4000 true false) in
  State (InputPort c) = DCM_PIN1_LOADED /\
  FSMEnabled (InputPort c) <> 0 /\
  InConn (fst (@InputPortTick lms2012 0 i (c, Examples.shared0))) = CONN_INPUT_DUMB /\
  Connected (InputPort (fst (@InputPortRun lms2012 0 (i :: ticks) (c, Examples.shared0)))) = 0.
Proof.
  intros c i ticks.
  assert (HF : FSMEnabled (InputPort c) <> 0) by (vm_compute; discriminate).
  split; [reflexivity |]. split; [exact HF |].
  pose proof (@pin1_loaded_classification lms2012 0 i c Examples.shared0 eq_refl HF)
    as (_ & _ & Hdumb & _ & _ & _ & Hrun).
  split.
  - apply Hdumb. vm_compute. split; discriminate.
  - apply (Hrun ticks); [reflexivity|].
    apply Forall_replicate. vm_compute. reflexivity.
Defined.

Lemma color_busy_completion_and_timeout_witness :
  let c := Examples.busy_cells 10 0 in
  State (InputPort c) = DCM_NXT_COLOR_BUSY /\
  FSMEnabled (InputPort c) <> 0 /\
  0 <= Timer (InputPort c) <= 50 /\
  length (NxtColorBuffer (Comm c)) = Z.to_nat NXTCOLOR_BYTES /\
  (Z.to_nat NXTCOLOR_BYTES <= length (NxtCol c))%nat /\
  take (Z.to_nat NXTCOLOR_BYTES)
       (NxtCol (fst (@InputPortTick lms2012 0 (Examples.in_input 50 true true)
                       (c, Examples.shared0))))
  = NxtColorBuffer (Comm c).
Proof.
  intros c.
  assert (HF : FSMEnabled (InputPort c) <> 0) by (vm_compute; discriminate).
  assert (HT : 0 <= Timer (InputPort c) <= 50) by (vm_compute; split; discriminate).
  assert (HP : (Z.to_nat NXTCOLOR_BYTES <= length (NxtCol c))%nat) by (vm_compute; lia).
  split; [reflexivity |]. split; [exact HF |]. split; [exact HT |].
  split; [reflexivity |]. split; [exact HP |].
  exact (proj1 (proj2 (proj1 (@color_busy_completion_and_timeout lms2012 0
                                (Examples.in_input 50 true true) c Examples.shared0
                                eq_refl HF HT eq_refl HP) eq_refl))).
Defined.

(** C7 fails on the code for the timeout: with the engine still busy (state
    5) and the timer at 50, the tick tears the session down (engine state 0,
    port waiting for release) and leaves [NxtCol] as it was, all zeros,
    although the buffer holds 1, 2, ..., 54. *)
Lemma color_timeout_counterexample :
  let c := Examples.busy_cells 50 5 in
  let c' := fst (@InputPortTick lms2012 0 (Examples.in_input 50 true true)
                   (c, Examples.shared0)) in
  State (InputPort c') = DCM_CONNECTED_WAITING_FOR_PIN2_HIGH /\
  NxtColorState (Comm c') = 0 /\
  NxtCol c' = NxtCol c /\
  take (Z.to_nat NXTCOLOR_BYTES) (NxtCol c') <> NxtColorBuffer (Comm c).
Proof.
  vm_compute. repeat split; try reflexivity; discriminate.
Qed.

End InputDcmWitnesses.

(** ** The output port DCM *)
Section OutputDcmProperties.
Import OutputDcm.
Context {hw : Platform}.

(** Without wrap-around [Tmp] is [ADC_REF + Value5Float - Value5Low], and
    the tolerance test compares the two snapshots. *)
Lemma ConnectionTmp_exact (p : OUTPORT) :
  0 <= Value5Float p <= ADC_REF ->
  0 <= Value5Low p <= ADC_REF ->
  2 * ADC_REF < 65536 ->
  ConnectionTmp p = ADC_REF + Value5Float p - Value5Low p.
Proof.
  intros HF HL HR. unfold ConnectionTmp.
  rewrite (UWORD_small ADC_REF) by lia.
  rewrite (UWORD_small (ADC_REF + Value5Float p)) by lia.
  apply UWORD_small. lia.
Qed.

(** The direct ladder neither reads nor writes [Value5Low]. *)
Lemma ConnectionEqual_Value5Low (L : Z) (c : CELLS) :
  ConnectionEqual (port_set (set_Value5Low L) c) =
  port_set (set_Value5Low L) (ConnectionEqual c).
Proof.
  destruct c as [[F L0 Cn Cd Ty S O E T] D K P5L P1 P2 P5 P6].
  unfold ConnectionEqual, set_class. cbn.
  repeat (split_if; cbn); reflexivity.
Qed.

(** The "new actuator" test reads [Value5Low] only: it commutes with a
    change of [Value5Float]. *)
Lemma ConnectionNotEqual_Value5Float (F : Z) (c : CELLS) :
  ConnectionNotEqual (port_set (set_Value5Float F) c) =
  port_set (set_Value5Float F) (ConnectionNotEqual c).
Proof.
  destruct c as [[F0 L Cn Cd Ty S O E T] D K P5L P1 P2 P5 P6].
  unfold ConnectionNotEqual, set_class. cbn.
  repeat (split_if; cbn); reflexivity.
Qed.

(** Case analysis on the comparisons of the direct ladder; [lia] closes the
    branches that the hypotheses exclude. *)
Ltac band_cases :=
  repeat match goal with
  | |- context [Z.geb ?a ?b] => destruct (Z.geb_spec a b); try lia
  | |- context [Z.leb ?a ?b] => destruct (Z.leb_spec a b); try lia
  | |- context [Z.ltb ?a ?b] => destruct (Z.ltb_spec a b); try lia
  | |- context [Z.gtb ?a ?b] => destruct (Z.gtb_spec a b); try lia
  end.

(** C4. An output port in [DCM_CONNECTION] runs a two-tier ladder.  When
    [Tmp = ADC_REF + Value5Float - Value5Low] (in [UWORD] arithmetic) lies
    strictly between [ADC_REF - 50] and [ADC_REF + 50], the direct ladder
    classifies the port from [F = Value5Float] and the pin 6 bit of the
    event mask, whatever [Value5Low] is:
    - Error/Error for [F] in the balance band with the pin 6 event, below
      [OUT5_NEAR_GND], in the light band or in the IIC band (bounds
      included);
    - the dumb output device of unknown type, with [F] stored in
      [OutPin5Low], from [OUT5_DUMP_LOW] up to, not including,
      [OUT5_DUMP_HIGH];
    - the intelligent output device above [OUT5_LIGHT_HIGH] and below
      [OUT5_INTELLIGENT_HIGH2];
    - NewTacho from [OUT5_NEWTACHO_LOW2] up to [OUT5_NEWTACHO_HIGH2],
      MiniTacho from [OUT5_MINITACHO_LOW2] up to [OUT5_MINITACHO_HIGH2], and
      Tacho from [OUT5_NEAR_GND] up to [OUT5_MINITACHO_LOW2] and from
      [OUT5_DUMP_HIGH] up to [OUT5_BALANCE_LOW], all with the tacho
      connection;
    in these cases the port is Connected and waits for the port to open.
    For every other [F] (the balance band without the pin 6 event, between
    the balance and the IIC band, above the IIC band) nothing is classified:
    pin 5 is driven high and the port goes to [DCM_WAITING_FOR_PIN5_LOW].
    Otherwise [Value5Low] alone decides: strictly between [OUT5_NEAR_GND]
    and [OUT5_BALANCE_LOW] the port is the dumb output device of unknown
    type with [Value5Low] stored in [OutPin5Low], and outside that band it
    is Error/Error.  For snapshots in the range of the ADC the test on
    [Tmp] says that the two snapshots differ by less than 50. *)
Theorem output_connection_two_tiers (i : INPUT) (c : CELLS) :
  State (OutputPort c) = DCM_CONNECTION ->
  let F := Value5Float (OutputPort c) in
  let L := Value5Low (OutputPort c) in
  let P6 := Z.testbit (Event (OutputPort c)) OUTPUT_PORT_PIN6 in
  let Tmp := ConnectionTmp (OutputPort c) in
  let c' := OutputPortTick i c in
  let classified (t : TYPE) (k : CONN) (p : Z) :=
    OutDcm c' = t /\ OutConn c' = k /\ OutPin5Low c' = p /\
    Connected (OutputPort c') = 1 /\
    State (OutputPort c') = DCM_CONNECTED_WAITING_FOR_PORT_OPEN /\
    Pin5W c' = Pin5W c in
  (ADC_REF - 50 < Tmp < ADC_REF + 50 ->
   c' = port_set (set_Timer 0)
          (ConnectionEqual (port_set (set_State DCM_CONNECTED_WAITING_FOR_PORT_OPEN) c)) /\
   (forall L2,
     ADC_REF - 50 < ConnectionTmp (set_Value5Low L2 (OutputPort c)) < ADC_REF + 50 ->
     OutputPortTick i (port_set (set_Value5Low L2) c) = port_set (set_Value5Low L2) c') /\
   Timer (OutputPort c') = 0 /\
   Value5Float (OutputPort c') = F /\
   ((OUT5_BALANCE_LOW <= F <= OUT5_BALANCE_HIGH /\ P6 = true) \/
    F < OUT5_NEAR_GND \/
    OUT5_LIGHT_LOW <= F <= OUT5_LIGHT_HIGH \/
    OUT5_IIC_LOW <= F <= OUT5_IIC_HIGH ->
    classified TYPE_ERROR CONN_ERROR (OutPin5Low c)) /\
   (OUT5_DUMP_LOW <= F < OUT5_DUMP_HIGH ->
    classified TYPE_UNKNOWN CONN_OUTPUT_DUMB F) /\
   (OUT5_LIGHT_HIGH < F < OUT5_INTELLIGENT_HIGH2 ->
    classified TYPE_UNKNOWN CONN_OUTPUT_INTELLIGENT (OutPin5Low c)) /\
   (OUT5_NEWTACHO_LOW2 <= F < OUT5_NEWTACHO_HIGH2 ->
    classified TYPE_NEWTACHO CONN_OUTPUT_TACHO (OutPin5Low c)) /\
   (OUT5_MINITACHO_LOW2 <= F < OUT5_MINITACHO_HIGH2 ->
    classified TYPE_MINITACHO CONN_OUTPUT_TACHO (OutPin5Low c)) /\
   (OUT5_NEAR_GND <= F < OUT5_MINITACHO_LOW2 \/
    OUT5_DUMP_HIGH <= F < OUT5_BALANCE_LOW ->
    classified TYPE_TACHO CONN_OUTPUT_TACHO (OutPin5Low c)) /\
   ((OUT5_BALANCE_LOW <= F <= OUT5_BALANCE_HIGH /\ P6 = false) \/
    OUT5_BALANCE_HIGH < F < OUT5_IIC_LOW \/
    OUT5_IIC_HIGH < F ->
    State (OutputPort c') = DCM_WAITING_FOR_PIN5_LOW /\
    Pin5W c' = PinHigh /\
    OutDcm c' = OutDcm c /\ OutConn c' = OutConn c /\
    OutPin5Low c' = OutPin5Low c /\
    Connected (OutputPort c') = Connected (OutputPort c)))
  /\
  (~ (ADC_REF - 50 < Tmp < ADC_REF + 50) ->
   Connected (OutputPort c') = 1 /\
   State (OutputPort c') = DCM_CONNECTED_WAITING_FOR_PORT_OPEN /\
   (OUT5_NEAR_GND < L < OUT5_BALANCE_LOW ->
    OutDcm c' = TYPE_UNKNOWN /\ OutConn c' = CONN_OUTPUT_DUMB /\ OutPin5Low c' = L) /\
   (~ (OUT5_NEAR_GND < L < OUT5_BALANCE_LOW) ->
    OutDcm c' = TYPE_ERROR /\ OutConn c' = CONN_ERROR /\ OutPin5Low c' = OutPin5Low c))
  /\
  (0 <= F <= ADC_REF -> 0 <= L <= ADC_REF -> 2 * ADC_REF < 65536 ->
   (ADC_REF - 50 < Tmp < ADC_REF + 50 <-> -50 < F - L < 50)).
Proof.
  intros HS F L P6 Tmp c' classified. subst F L P6 Tmp classified c'.
  destruct c as [[F L Cn Cd Ty S O E T] D K P5L P1 P2 P5 P6].
  cbn in HS. subst S. unfold OutputPortTick, ConnectionTmp. cbn.
  set (Tmp := UWORD (UWORD (UWORD ADC_REF + F) - L)).
  assert (Hin : ADC_REF - 50 < Tmp < ADC_REF + 50 ->
                (Tmp >? ADC_REF - 50) && (Tmp <? ADC_REF + 50) = true).
  { intros [H1 H2]. apply andb_true_intro. split; [apply Z.gtb_lt | apply Z.ltb_lt]; lia. }
  assert (Hout : ~ (ADC_REF - 50 < Tmp < ADC_REF + 50) ->
                 (Tmp >? ADC_REF - 50) && (Tmp <? ADC_REF + 50) = false).
  { intros H. apply andb_false_iff.
    destruct (Z.gtb_spec Tmp (ADC_REF - 50)); [|left; reflexivity].
    destruct (Z.ltb_spec Tmp (ADC_REF + 50)); [|right; reflexivity].
    exfalso. apply H. lia. }
  split; [|split].
  - intros HT. rewrite (Hin HT). split; [reflexivity|]. split.
    { intros L2 [H1 H2].
      assert (H3 : (UWORD (UWORD (UWORD ADC_REF + F) - L2) >? ADC_REF - 50) &&
                   (UWORD (UWORD (UWORD ADC_REF + F) - L2) <? ADC_REF + 50) = true).
      { apply andb_true_intro. split; [apply Z.gtb_lt | apply Z.ltb_lt]; lia. }
      rewrite H3.
      unfold ConnectionEqual, set_class. cbn.
      repeat (split_if; cbn); reflexivity. }
    unfold ConnectionEqual, set_class. cbn.
    rewrite bit_set_testbit by (vm_compute; discriminate).
    change OUT5_BALANCE_LOW with 2400. change OUT5_BALANCE_HIGH with 2600.
    change OUT5_NEAR_GND with 100.
    change OUT5_LIGHT_LOW with 650. change OUT5_LIGHT_HIGH with 850.
    change OUT5_IIC_LOW with 2800. change OUT5_IIC_HIGH with 3700.
    change OUT5_DUMP_LOW with 1150. change OUT5_DUMP_HIGH with 2350.
    change OUT5_INTELLIGENT_LOW2 with 850. change OUT5_INTELLIGENT_HIGH2 with 1150.
    change OUT5_NEWTACHO_LOW2 with 450. change OUT5_NEWTACHO_HIGH2 with 650.
    change OUT5_MINITACHO_LOW2 with 250. change OUT5_MINITACHO_HIGH2 with 450.
    split; [|split; [|split; [|split; [|split; [|split; [|split; [|split]]]]]]].
    + band_cases; destruct (Z.testbit E OUTPUT_PORT_PIN6); reflexivity.
    + band_cases; destruct (Z.testbit E OUTPUT_PORT_PIN6); reflexivity.
    + intros [[HB HP]|[HB|[HB|HB]]]; [rewrite HP|..];
        band_cases; try destruct (Z.testbit E OUTPUT_PORT_PIN6); cbn; repeat split.
    + intros HB. band_cases; destruct (Z.testbit E OUTPUT_PORT_PIN6); cbn; repeat split.
    + intros HB. band_cases; destruct (Z.testbit E OUTPUT_PORT_PIN6); cbn; repeat split.
    + intros HB. band_cases; destruct (Z.testbit E OUTPUT_PORT_PIN6); cbn; repeat split.
    + intros HB. band_cases; destruct (Z.testbit E OUTPUT_PORT_PIN6); cbn; repeat split.
    + intros [HB|HB]; band_cases; destruct (Z.testbit E OUTPUT_PORT_PIN6); cbn; repeat split.
    + intros [[HB HP]|[HB|HB]]; [rewrite HP|..];
        band_cases; try destruct (Z.testbit E OUTPUT_PORT_PIN6); cbn; repeat split.
  - intros HT. rewrite (Hout HT).
    unfold ConnectionNotEqual, set_class. cbn.
    destruct (Z.gtb_spec L OUT5_NEAR_GND); destruct (Z.ltb_spec L OUT5_BALANCE_LOW); cbn;
      repeat split; auto; try lia; intros; exfalso; lia.
  - intros HF HL HR. subst Tmp.
    rewrite (UWORD_small ADC_REF) by lia.
    rewrite (UWORD_small (ADC_REF + F)) by lia.
    rewrite UWORD_small by lia. lia.
Qed.

(** C5. The classification of the active probe in
    [DCM_WAITING_FOR_PIN5_LOW], on the tick that ends the delay, depends on
    the new [Value5Low = CtoV OutPin5] only: NewTacho from
    [OUT5_NEWTACHO_LOW1] up to, but not including, [OUT5_NEWTACHO_HIGH1],
    MiniTacho from [OUT5_MINITACHO_LOW1] up to, but not including,
    [OUT5_MINITACHO_HIGH1], and Tacho otherwise, always with the tacho
    connection; two probes that read the same voltage classify alike. *)
Theorem active_probe_deterministic (i : INPUT) (c : CELLS) :
  State (OutputPort c) = DCM_WAITING_FOR_PIN5_LOW ->
  UBYTE (Timer (OutputPort c) + 1) >= DCM_LOW_DELAY / DCM_TIMER_RESOLUTION ->
  let c' := OutputPortTick i c in
  let L := UWORD (CtoV (OutPin5 i)) in
  Value5Low (OutputPort c') = L /\
  OutConn c' = CONN_OUTPUT_TACHO /\
  (OUT5_NEWTACHO_LOW1 <= L < OUT5_NEWTACHO_HIGH1 -> OutDcm c' = TYPE_NEWTACHO) /\
  (OUT5_MINITACHO_LOW1 <= L < OUT5_MINITACHO_HIGH1 -> OutDcm c' = TYPE_MINITACHO) /\
  (L < OUT5_NEWTACHO_LOW1 \/ OUT5_MINITACHO_HIGH1 <= L -> OutDcm c' = TYPE_TACHO) /\
  Connected (OutputPort c') = 1 /\
  State (OutputPort c') = DCM_CONNECTED_WAITING_FOR_PORT_OPEN /\
  forall i2 c2,
    State (OutputPort c2) = DCM_WAITING_FOR_PIN5_LOW ->
    UBYTE (Timer (OutputPort c2) + 1) >= DCM_LOW_DELAY / DCM_TIMER_RESOLUTION ->
    UWORD (CtoV (OutPin5 i2)) = L ->
    OutDcm (OutputPortTick i2 c2) = OutDcm c' /\
    OutConn (OutputPortTick i2 c2) = OutConn c'.
Proof.
  intros HS HT c' L.
  assert (Hgen : forall j d,
            State (OutputPort d) = DCM_WAITING_FOR_PIN5_LOW ->
            UBYTE (Timer (OutputPort d) + 1) >= DCM_LOW_DELAY / DCM_TIMER_RESOLUTION ->
            let V := UWORD (CtoV (OutPin5 j)) in
            let d' := OutputPortTick j d in
            Value5Low (OutputPort d') = V /\
            OutConn d' = CONN_OUTPUT_TACHO /\
            OutDcm d' =
              (if (V >=? OUT5_NEWTACHO_LOW1) && (V <? OUT5_NEWTACHO_HIGH1) then TYPE_NEWTACHO
               else if (V >=? OUT5_MINITACHO_LOW1) && (V <? OUT5_MINITACHO_HIGH1)
                    then TYPE_MINITACHO else TYPE_TACHO) /\
            Connected (OutputPort d') = 1 /\
            State (OutputPort d') = DCM_CONNECTED_WAITING_FOR_PORT_OPEN).
  { intros j d HSd HTd V d'. subst d'. unfold OutputPortTick. rewrite HSd.
    destruct d as [[F0 L0 Cn Cd Ty S O E T] D K P5L P1 P2 P5 P6].
    cbn in HTd |- *.
    destruct (Z.geb_spec (UBYTE (T + 1)) (DCM_LOW_DELAY `div` DCM_TIMER_RESOLUTION)); [|lia].
    unfold Pin5LowLadder, set_class. cbn. fold V.
    repeat (split_if; cbn); auto. }
  destruct (Hgen i c HS HT) as (H1 & H2 & H3 & H4 & H5). fold c' L in H1, H2, H3, H4, H5.
  change OUT5_NEWTACHO_LOW1 with 1200 in *. change OUT5_NEWTACHO_HIGH1 with 1600 in *.
  change OUT5_MINITACHO_LOW1 with 1600 in *. change OUT5_MINITACHO_HIGH1 with 2000 in *.
  repeat split; auto.
  - intros HB. rewrite H3.
    destruct (Z.geb_spec L 1200); [|lia]. destruct (Z.ltb_spec L 1600); [|lia]. reflexivity.
  - intros HB. rewrite H3.
    destruct (Z.geb_spec L 1200); [|lia]. destruct (Z.ltb_spec L 1600); [lia|].
    destruct (Z.geb_spec L 1600); [|lia]. destruct (Z.ltb_spec L 2000); [|lia]. reflexivity.
  - intros HB. rewrite H3.
    destruct (Z.geb_spec L 1200); destruct (Z.ltb_spec L 1600);
      destruct (Z.geb_spec L 1600); destruct (Z.ltb_spec L 2000); cbn; try reflexivity; lia.
  - destruct (Hgen i2 c2 H H0) as (_ & _ & H3' & _). rewrite H3', H3, H6. reflexivity.
  - destruct (Hgen i2 c2 H H0) as (_ & H2' & _). rewrite H2', H2. reflexivity.
Qed.

End OutputDcmProperties.

(** *** The output port on the LEGO platform values *)
Section OutputDcmWitnesses.
Import OutputDcm.

(** Snapshots of 2000 and 1990: within tolerance, in the dumb output band;
    the port is the dumb output device with 2000 stored in [OutPin5Low],
    and a second low snapshot of 2010 gives the same classification. *)
Lemma output_connection_two_tiers_witness :
  let c := Examples.out_cells DCM_CONNECTION 2000 1990 0x40 0 in
  let i := mkINPUT 1638 true in
  State (OutputPort c) = DCM_CONNECTION /\
  OutDcm (@OutputPortTick lms2012 i c) = TYPE_UNKNOWN /\
  OutConn (@OutputPortTick lms2012 i c) = CONN_OUTPUT_DUMB /\
  OutPin5Low (@OutputPortTick lms2012 i c) = 2000 /\
  OutConn (@OutputPortTick lms2012 i (port_set (set_Value5Low 2010) c)) = CONN_OUTPUT_DUMB.
Proof.
  intros c i. split; [reflexivity|].
  pose proof (@output_connection_two_tiers lms2012 i c eq_refl) as (H1 & _ & _).
  destruct H1 as (Hc & Hind & _ & _ & _ & Hdump & _); [vm_compute; split; reflexivity|].
  destruct Hdump as (Ht & Hk & Hp & _); [vm_compute; split; [discriminate | reflexivity]|].
  split; [exact Ht|]. split; [exact Hk|]. split; [exact Hp|].
  rewrite (Hind 2010); [|vm_compute; split; reflexivity].
  rewrite Hc. reflexivity.
Defined.

(** A post-probe reading of 1100 counts is 1343 mV: a new tacho motor. *)
Lemma active_probe_deterministic_witness :
  let c := Examples.out_cells DCM_WAITING_FOR_PIN5_LOW 2500 2500 0x40 1 in
  let i := mkINPUT 1100 true in
  State (OutputPort c) = DCM_WAITING_FOR_PIN5_LOW /\
  UBYTE (Timer (OutputPort c) + 1) >= DCM_LOW_DELAY / DCM_TIMER_RESOLUTION /\
  OutDcm (@OutputPortTick lms2012 i c) = TYPE_NEWTACHO.
Proof.
  intros c i.
  assert (HT : UBYTE (Timer (OutputPort c) + 1) >= DCM_LOW_DELAY / DCM_TIMER_RESOLUTION)
    by (vm_compute; discriminate).
  split; [reflexivity|]. split; [exact HT|].
  pose proof (@active_probe_deterministic lms2012 i c eq_refl HT) as (_ & _ & H & _).
  apply H. vm_compute. split; [discriminate | reflexivity].
Defined.

End OutputDcmWitnesses.

(** ** The ADC scan scheduler *)

#[local] Arguments AdcScan.rd : simpl never.
#[local] Arguments AdcScan.wr : simpl never.

(** Evaluation of the table reads and mask tests on literals. *)
Ltac eval_tables :=
  repeat match goal with
  | |- context [AdcScan.rd ?l ?p] =>
      let v := eval vm_compute in (AdcScan.rd l p) in
      lazymatch v with
      | Some ?x => change (AdcScan.rd l p) with (Some x)
      | None => change (AdcScan.rd l p) with (@None Z)
      end
  | |- context [Z.land ?m ?k =? 0] =>
      let v := eval vm_compute in (Z.land m k =? 0) in
      lazymatch v with
      | true => change (Z.land m k =? 0) with true
      | false => change (Z.land m k =? 0) with false
      end
  end.

Section AdcScanProperties.
Import AdcScan AdcScanSpec.
Context {hw : Platform}.
Hypothesis INPUTS_range : (1 <= INPUTS <= 8)%nat.

Lemma rd_Some (l : list Z) (x : Z) :
  0 <= x < Z.of_nat (length l) -> exists v, rd l x = Some v.
Proof.
  intros H. unfold rd. destruct (Z.ltb_spec x 0); [lia|].
  destruct (lookup_lt_is_Some_2 l (Z.to_nat x)) as [v Hv]; [lia|].
  exists v. exact Hv.
Qed.

Lemma NextInputPoint1_spec (a : ADC) :
  8 <= InputPoint1 a < 16 ->
  let a' := NextInputPoint1 a in
  8 <= InputPoint1 a' < 16 /\
  Color a' = Color a /\ NxtPointer a' = NxtPointer a /\
  InputPoint2 a' = InputPoint2 a /\ Nxtcolor a' = Nxtcolor a /\
  NxtcolorLatchedCmd a' = NxtcolorLatchedCmd a /\ Updated a' = Updated a /\
  NextTime a' = NextTime a /\ Trace a' = Trace a.
Proof.
  destruct a as [C P I1 I2 NC LC U NT Tr]. cbn. intros H.
  unfold NextInputPoint1. cbn. rewrite UBYTE_small by lia.
  change INPUTADC with 16.
  destruct (Z.geb_spec (I1 + 1) 16); cbn; repeat split; auto; lia.
Qed.

Lemma Scheme1Body_ok (a : ADC) :
  WellFormed a ->
  0 <= NxtPointer a < SCHEMESIZE1 ->
  exists a1, Scheme1Body a = Some a1 /\ BodyStep 1 a a1.
Proof.
  intros (H1 & H2 & H3 & H4 & H5) HP.
  destruct (rd_Some InputReadMap (InputPoint1 a)) as [v Hv]; [cbn; lia|].
  destruct (NextInputPoint1_spec a H1) as (N1 & N2 & N3 & N4 & N5 & N6 & N7 & N8 & N9).
  unfold Scheme1Body, BodyStep, WellFormed, Keys.
  change SCHEMESIZE1 with 10 in HP.
  assert (Hc : NxtPointer a = 0 \/ NxtPointer a = 1 \/ NxtPointer a = 2 \/
               NxtPointer a = 3 \/ NxtPointer a = 4 \/ NxtPointer a = 5 \/
               NxtPointer a = 6 \/ NxtPointer a = 7 \/ NxtPointer a = 8 \/
               NxtPointer a = 9) by lia.
  repeat (destruct Hc as [Hc|Hc]); rewrite Hc;
    repeat (progress (eval_tables; cbn)); rewrite ?Hv; cbn.
  all: eexists; split; [reflexivity|]; cbn.
  all: rewrite ?N2, ?N3, ?N4, ?N5, ?N6, ?N7, ?N9, ?Hc, ?map_app.
  all: repeat split; auto; try lia.
Qed.

Lemma WellFormed_NextInputPoint1 (a : ADC) :
  WellFormed a -> WellFormed (NextInputPoint1 a).
Proof.
  intros (H1 & H2 & H3 & H4 & H5).
  destruct (NextInputPoint1_spec a H1) as (N1 & N2 & N3 & N4 & N5 & N6 & N7 & N8 & N9).
  unfold WellFormed. rewrite N2, N4, N5, N6. auto.
Qed.

Lemma Scheme2Edges_ok (a : ADC) (ch cl : Z) :
  WellFormed a -> exists e, Scheme2Edges a ch cl = Some e.
Proof.
  intros (H1 & H2 & H3 & H4 & H5). unfold Scheme2Edges.
  destruct (rd_Some (NxtcolorLatchedCmd a) (InputPoint2 a)) as [l Hl]; [lia|].
  destruct (rd_Some (Nxtcolor a) (InputPoint2 a)) as [n Hn]; [lia|].
  rewrite Hl, Hn. cbn.
  destruct (l =? 13); [|eauto].
  destruct (ch =? 0), (cl =? 0); cbn; eauto.
Qed.

Lemma Scheme2Body_ok (a : ADC) :
  WellFormed a ->
  0 <= NxtPointer a < SCHEMESIZE2 ->
  exists a1, Scheme2Body a = Some a1 /\ BodyStep 2 a a1.
Proof.
  intros HW HP. pose proof HW as (H1 & H2 & H3 & H4 & H5).
  destruct (rd_Some InputReadMap (InputPoint1 a)) as [v Hv]; [cbn; lia|].
  destruct (rd_Some InputReadMap (InputPoint2 a + Z.of_nat INPUTS)) as [w Hw]; [cbn; lia|].
  destruct (NextInputPoint1_spec a H1) as (N1 & N2 & N3 & N4 & N5 & N6 & N7 & N8 & N9).
  pose proof (WellFormed_NextInputPoint1 a HW) as HW1.
  unfold Scheme2Body, BodyStep, WellFormed, Keys.
  change SCHEMESIZE2 with 15 in HP.
  assert (Hc : NxtPointer a = 0 \/ NxtPointer a = 1 \/ NxtPointer a = 2 \/
               NxtPointer a = 3 \/ NxtPointer a = 4 \/ NxtPointer a = 5 \/
               NxtPointer a = 6 \/ NxtPointer a = 7 \/ NxtPointer a = 8 \/
               NxtPointer a = 9 \/ NxtPointer a = 10 \/ NxtPointer a = 11 \/
               NxtPointer a = 12 \/ NxtPointer a = 13 \/ NxtPointer a = 14) by lia.
  repeat (destruct Hc as [Hc|Hc]); rewrite Hc;
    repeat (progress (eval_tables; cbn)); rewrite ?Hv, ?Hw; cbn.
  all: match goal with
       | |- context [Scheme2Edges ?x ?ch ?cl] =>
           let e := fresh "e" in let He := fresh "He" in
           destruct (Scheme2Edges_ok x ch cl ltac:(assumption)) as [e He]; rewrite He
       end; cbn.
  all: eexists; split; [reflexivity|]; cbn.
  all: rewrite ?N2, ?N3, ?N4, ?N5, ?N6, ?N7, ?N9, ?Hc, ?map_app.
  all: repeat split; auto; try lia.
Qed.

(** The [do ... while] loop of a scheme, from any entry of its tables: it
    runs the entries up to the next one whose [NextTime] is not zero. *)
Section Loop.
Variables (s size : Z) (body : ADC -> option ADC) (NextTimeN TimeN : list Z).
Hypothesis body_ok : forall a,
  WellFormed a -> 0 <= NxtPointer a < size ->
  exists a1, body a = Some a1 /\ BodyStep s a a1.
Hypothesis stop_ok : forall p,
  0 <= p < size ->
  exists t, rd NextTimeN p = Some t /\
    (t = 0 -> p + 1 < size /\ TickStop s (p + 1) = TickStop s p) /\
    (t <> 0 -> TickStop s p = p + 1 /\ exists ns, rd TimeN (t - 1) = Some ns).

Lemma SchemeLoop_ok (fuel : nat) : forall a,
  WellFormed a ->
  0 <= NxtPointer a < size ->
  size <= NxtPointer a + Z.of_nat fuel ->
  exists a', SchemeLoop body NextTimeN TimeN fuel a = Some a' /\
    WellFormed a' /\
    NxtPointer a' = TickStop s (NxtPointer a) /\
    NxtPointer a < NxtPointer a' /\
    Color a' = Color a /\
    InputPoint2 a' = InputPoint2 a /\
    NxtcolorLatchedCmd a' = NxtcolorLatchedCmd a /\
    Keys a' = Keys a ++ Entries s (NxtPointer a) (NxtPointer a' - NxtPointer a).
Proof.
  induction fuel as [|fuel IH]; intros a HW HP HF; [lia|].
  destruct (body_ok a HW HP) as (a1 & Hb & HW1 & Hp1 & Hc1 & Hi1 & Hn1 & Hl1 & Hu1 & Hk1).
  destruct (stop_ok (NxtPointer a) HP) as (t & Ht & Hz & Hnz).
  cbn [SchemeLoop]. rewrite Hb. cbn [mbind option_bind].
  replace (NxtPointer a1 - 1) with (NxtPointer a) by lia.
  rewrite Ht. cbn [mbind option_bind].
  destruct (Z.eqb_spec t 0) as [H0|H0].
  - destruct (Hz H0) as (Hlt & Hstop).
    destruct (IH a1 HW1) as (a' & Hr & HW' & Hp' & Hlt' & Hc' & Hi' & Hl' & Hk'); [lia | lia |].
    exists a'. split; [exact Hr|]. split; [exact HW'|].
    split; [rewrite Hp', Hp1; exact Hstop|]. split; [lia|].
    split; [congruence|]. split; [congruence|]. split; [congruence|].
    rewrite Hk', Hk1, Hp', Hp1, Hstop, <- app_assoc. f_equal.
    assert (NxtPointer a + 1 < TickStop s (NxtPointer a)) by (rewrite <- Hstop, <- Hp1, <- Hp'; lia).
    unfold Entries.
    rewrite (seqZ_cons (NxtPointer a)) by lia. cbn [map app].
    do 3 f_equal; lia.
  - destruct (Hnz H0) as (Hstop & ns & Hns). rewrite Hns. cbn [mbind option_bind].
    exists (set_NextTime ns a1). split; [reflexivity|].
    split; [exact HW1|].
    change (NxtPointer (set_NextTime ns a1)) with (NxtPointer a1).
    change (Color (set_NextTime ns a1)) with (Color a1).
    change (InputPoint2 (set_NextTime ns a1)) with (InputPoint2 a1).
    change (NxtcolorLatchedCmd (set_NextTime ns a1)) with (NxtcolorLatchedCmd a1).
    change (Keys (set_NextTime ns a1)) with (Keys a1).
    split; [rewrite Hp1, Hstop; reflexivity|]. split; [lia|].
    split; [congruence|]. split; [congruence|]. split; [congruence|].
    rewrite Hk1, Hp1. f_equal.
    replace (NxtPointer a + 1 - NxtPointer a) with 1 by lia. reflexivity.
Qed.

End Loop.

Lemma Scheme1_stop (p : Z) :
  0 <= p < SCHEMESIZE1 ->
  exists t, rd NextTime1 p = Some t /\
    (t = 0 -> p + 1 < SCHEMESIZE1 /\ TickStop 1 (p + 1) = TickStop 1 p) /\
    (t <> 0 -> TickStop 1 p = p + 1 /\ exists ns, rd Time1 (t - 1) = Some ns).
Proof.
  intros HP. change SCHEMESIZE1 with 10 in *.
  assert (Hc : p = 0 \/ p = 1 \/ p = 2 \/ p = 3 \/ p = 4 \/ p = 5 \/ p = 6 \/ p = 7 \/
               p = 8 \/ p = 9) by lia.
  repeat (destruct Hc as [Hc|Hc]); subst p; eexists; (split; [reflexivity|]);
    split; intros H; try discriminate H; try (exfalso; apply H; reflexivity);
    split; try reflexivity; eexists; reflexivity.
Qed.

Lemma Scheme2_stop (p : Z) :
  0 <= p < SCHEMESIZE2 ->
  exists t, rd NextTime2 p = Some t /\
    (t = 0 -> p + 1 < SCHEMESIZE2 /\ TickStop 2 (p + 1) = TickStop 2 p) /\
    (t <> 0 -> TickStop 2 p = p + 1 /\ exists ns, rd Time2 (t - 1) = Some ns).
Proof.
  intros HP. change SCHEMESIZE2 with 15 in *.
  assert (Hc : p = 0 \/ p = 1 \/ p = 2 \/ p = 3 \/ p = 4 \/ p = 5 \/ p = 6 \/ p = 7 \/
               p = 8 \/ p = 9 \/ p = 10 \/ p = 11 \/ p = 12 \/ p = 13 \/ p = 14) by lia.
  repeat (destruct Hc as [Hc|Hc]); subst p; eexists; (split; [reflexivity|]);
    split; intros H; try discriminate H; try (exfalso; apply H; reflexivity);
    split; try reflexivity; eexists; reflexivity.
Qed.

(** *** Frames that hold in every state *)

Lemma NextInputPoint1_frame (a : ADC) :
  Color (NextInputPoint1 a) = Color a /\ NxtPointer (NextInputPoint1 a) = NxtPointer a.
Proof. unfold NextInputPoint1. destruct a. cbn. split_if; cbn; auto. Qed.

Lemma Scheme1Body_Color (a a1 : ADC) :
  Scheme1Body a = Some a1 -> Color a1 = Color a.
Proof.
  unfold Scheme1Body. intros H.
  destruct (NextInputPoint1_frame a) as [HC _].
  repeat (simplify_option_eq; try case_match); cbn; auto.
Qed.

Lemma Scheme2Body_Color (a a1 : ADC) :
  Scheme2Body a = Some a1 -> Color a1 = Color a.
Proof.
  unfold Scheme2Body. intros H.
  destruct (NextInputPoint1_frame a) as [HC _].
  repeat (simplify_option_eq; try case_match); cbn; auto.
Qed.

Lemma SchemeLoop_Color body NextTimeN TimeN :
  (forall a a1, body a = Some a1 -> Color a1 = Color a) ->
  forall fuel a a', SchemeLoop body NextTimeN TimeN fuel a = Some a' -> Color a' = Color a.
Proof.
  intros Hbody. induction fuel as [|fuel IH]; intros a a' H; [discriminate H|].
  cbn [SchemeLoop] in H.
  destruct (body a) as [a1|] eqn:Hb; [|discriminate H]. cbn [mbind option_bind] in H.
  destruct (rd NextTimeN (NxtPointer a1 - 1)) as [t|]; [|discriminate H].
  cbn [mbind option_bind] in H.
  destruct (t =? 0).
  - rewrite (IH a1 a' H). apply Hbody. exact Hb.
  - destruct (rd TimeN (t - 1)) as [ns|]; [|discriminate H].
    cbn [mbind option_bind] in H. injection H as <-.
    change (Color (set_NextTime ns a1)) with (Color a1). apply Hbody. exact Hb.
Qed.

(** The housekeeping loop sets [Color] when a port below [n] has an active
    colour session and touches neither the schedule pointer nor the trace. *)
Lemma EndOfPassPorts_ok (i : INPUT) (n : nat) : forall a,
  (n <= length (NxtColorActive i))%nat ->
  exists a', EndOfPassPorts i n a = Some a' /\
    Color a' = (if existsb (fun x => negb (x =? 0)) (take n (NxtColorActive i))
                then 1 else Color a) /\
    NxtPointer a' = NxtPointer a /\
    InputPoint1 a' = InputPoint1 a /\ InputPoint2 a' = InputPoint2 a /\
    length (Nxtcolor a') = length (Nxtcolor a) /\
    NxtcolorLatchedCmd a' = NxtcolorLatchedCmd a /\
    Trace a' = Trace a.
Proof.
  induction n as [|n IH]; intros a Hn.
  - exists a. cbn. auto 10.
  - destruct (IH a) as (a1 & H1 & HC & HP & HI1 & HI2 & HL & HLC & HT); [lia|].
    destruct (lookup_lt_is_Some_2 (NxtColorActive i) n) as [act Hact]; [lia|].
    cbn [EndOfPassPorts]. rewrite H1. cbn [mbind option_bind]. rewrite Hact.
    cbn [mbind option_bind]. eexists. split; [reflexivity|].
    rewrite (take_S_r _ _ _ Hact), existsb_app. cbn [existsb]. rewrite orb_false_r.
    destruct a1 as [C P I1 I2 NC LC U NT Tr]. cbn in *. subst.
    rewrite length_insert.
    destruct (existsb _ (take n (NxtColorActive i))); destruct (negb (act =? 0)); cbn; auto 10.
Qed.

Lemma EndOfPassPorts_NxtPointer (i : INPUT) (n : nat) : forall a a',
  EndOfPassPorts i n a = Some a' -> NxtPointer a' = NxtPointer a.
Proof.
  induction n as [|n IH]; intros a a' H; cbn [EndOfPassPorts] in H.
  - injection H as <-. reflexivity.
  - destruct (EndOfPassPorts i n a) as [a1|] eqn:H1; [|discriminate H].
    cbn [mbind option_bind] in H.
    destruct (NxtColorActive i !! n) as [act|]; [|discriminate H].
    cbn [mbind option_bind] in H. injection H as <-.
    rewrite <- (IH a a1 H1). destruct a1. cbn. destruct (negb (act =? 0)); reflexivity.
Qed.

(** *** One tick from a well-formed state *)

Lemma length_wr (l : list Z) (i v : Z) : length (wr l i v) = length l.
Proof. unfold wr. destruct (i <? 0); [reflexivity | apply length_insert]. Qed.

Lemma TickStart_range (s p : Z) :
  s = 1 \/ s = 2 -> TickStart s p -> 0 <= p < SchemeSize s.
Proof.
  unfold TickStart.
  intros [->| ->] H; [change (SchemeSize 1) with 10 | change (SchemeSize 2) with 15]; lia.
Qed.

Lemma CurrentScheme_cases (a : ADC) :
  Color a = 0 \/ Color a = 1 ->
  (Color a = 0 /\ CurrentScheme a = 1) \/ (Color a = 1 /\ CurrentScheme a = 2).
Proof. unfold CurrentScheme. intros [H|H]; rewrite H; [left | right]; split; reflexivity. Qed.

Lemma Device1TimerInterrupt1_ok (i : INPUT) (a : ADC) :
  WellFormed a ->
  InputWellFormed i ->
  TickStart (CurrentScheme a) (NxtPointer a) ->
  exists a', Device1TimerInterrupt1 i a = Some a' /\
    WellFormed a' /\
    let s := CurrentScheme a in
    let p := NxtPointer a in
    let q := TickStop s p in
    p < q <= SchemeSize s /\
    Keys a' = Keys a ++ Entries s p (q - p) /\
    (q < SchemeSize s -> NxtPointer a' = q /\ Color a' = Color a) /\
    (q = SchemeSize s -> NxtPointer a' = 0 /\ Color a' = (if AnyActive i then 1 else 0)).
Proof.
  intros HW [HA HC] HS. unfold Device1TimerInterrupt1.
  set (a0 := if NxtPointer a =? 0 then _ else a).
  assert (H0 : WellFormed a0 /\ NxtPointer a0 = NxtPointer a /\ Color a0 = Color a /\
               Keys a0 = Keys a).
  { subst a0. destruct HW as (H1 & H2 & H3 & H4 & H5).
    destruct a as [C P I1 I2 NC LC U NT Tr]. unfold WellFormed. cbn in *.
    destruct (P =? 0); cbn; [|auto 10].
    rewrite UBYTE_small by lia.
    destruct (Z.geb_spec (I2 + 1) (Z.of_nat INPUTS)); cbn; repeat split; auto; lia. }
  destruct H0 as (HW0 & HP0 & HC0 & HK0).
  assert (HL : exists a1,
            (if Color a0 =? 0
             then SchemeLoop Scheme1Body NextTime1 Time1 (Z.to_nat SCHEMESIZE1) a0
             else SchemeLoop Scheme2Body NextTime2 Time2 (Z.to_nat SCHEMESIZE2) a0) = Some a1 /\
            WellFormed a1 /\
            NxtPointer a1 = TickStop (CurrentScheme a) (NxtPointer a) /\
            NxtPointer a < NxtPointer a1 <= SchemeSize (CurrentScheme a) /\
            Color a1 = Color a /\
            Keys a1 = Keys a ++ Entries (CurrentScheme a) (NxtPointer a)
                                        (NxtPointer a1 - NxtPointer a)).
  { pose proof HW as (_ & _ & _ & _ & HCol).
    destruct (CurrentScheme_cases a HCol) as [[Hc Hs]|[Hc Hs]]; rewrite Hs in *.
    - pose proof (TickStart_range 1 _ (or_introl eq_refl) HS) as HR.
      change (SchemeSize 1) with 10 in *.
      rewrite HC0, Hc. change (0 =? 0) with true. cbn match.
      destruct (SchemeLoop_ok 1 SCHEMESIZE1 Scheme1Body NextTime1 Time1
                  Scheme1Body_ok Scheme1_stop (Z.to_nat SCHEMESIZE1) a0 HW0)
        as (a1 & Hr & HW1 & Hp1 & Hlt & Hc1 & _ & _ & Hk1).
      + rewrite HP0. exact HR.
      + rewrite HP0. change SCHEMESIZE1 with 10. lia.
      + exists a1. rewrite HP0, HK0 in *. split; [exact Hr|]. split; [exact HW1|].
        split; [exact Hp1|]. split.
        * split; [lia|]. rewrite Hp1. unfold TickStop. cbn.
          repeat (split_if; try lia).
        * split; [congruence | exact Hk1].
    - pose proof (TickStart_range 2 _ (or_intror eq_refl) HS) as HR.
      change (SchemeSize 2) with 15 in *.
      rewrite HC0, Hc. change (1 =? 0) with false. cbn match.
      destruct (SchemeLoop_ok 2 SCHEMESIZE2 Scheme2Body NextTime2 Time2
                  Scheme2Body_ok Scheme2_stop (Z.to_nat SCHEMESIZE2) a0 HW0)
        as (a1 & Hr & HW1 & Hp1 & Hlt & Hc1 & _ & _ & Hk1).
      + rewrite HP0. exact HR.
      + rewrite HP0. change SCHEMESIZE2 with 15. lia.
      + exists a1. rewrite HP0, HK0 in *. split; [exact Hr|]. split; [exact HW1|].
        split; [exact Hp1|]. split.
        * split; [lia|]. rewrite Hp1. unfold TickStop. cbn.
          repeat (split_if; try lia).
        * split; [congruence | exact Hk1]. }
  destruct HL as (a1 & Hr & HW1 & Hp1 & Hrange & Hc1 & Hk1).
  assert (Hsize : (if Color a0 =? 0 then SCHEMESIZE1 else SCHEMESIZE2)
                  = SchemeSize (CurrentScheme a)).
  { unfold CurrentScheme. rewrite HC0. destruct (Color a =? 0); reflexivity. }
  set (a2 := if NxtPointer a1 >=? SchemeSize (CurrentScheme a)
             then set_NxtPointer 0 a1 else a1).
  assert (Hwrap : (if Color a0 =? 0
     then SchemeLoop Scheme1Body NextTime1 Time1 (Z.to_nat SCHEMESIZE1) a0
          ≫= (fun a2 => Some (if NxtPointer a2 >=? SCHEMESIZE1
                               then set_NxtPointer 0 a2 else a2))
     else SchemeLoop Scheme2Body NextTime2 Time2 (Z.to_nat SCHEMESIZE2) a0
          ≫= (fun a2 => Some (if NxtPointer a2 >=? SCHEMESIZE2
                               then set_NxtPointer 0 a2 else a2))) = Some a2).
  { subst a2. rewrite <- Hsize. destruct (Color a0 =? 0); rewrite Hr; reflexivity. }
  rewrite Hwrap. cbn [mbind option_bind].
  rewrite <- Hp1.
  destruct (Z.geb_spec (NxtPointer a1) (SchemeSize (CurrentScheme a))) as [Hge|Hlt].
  - (* the pointer wraps: end of a pass *)
    assert (Hq : NxtPointer a1 = SchemeSize (CurrentScheme a)) by lia.
    subst a2. change (NxtPointer (set_NxtPointer 0 a1) =? 0) with true. cbn match.
    destruct (EndOfPassPorts_ok i INPUTS (set_Color 0 (set_NxtPointer 0 a1)))
      as (a3 & H3 & HC3 & HP3 & HI13 & HI23 & HL3 & HLC3 & HT3); [lia|].
    rewrite H3. cbn [mbind option_bind].
    destruct HW1 as (W1 & W2 & W3 & W4 & W5).
    cbn in HC3, HP3, HI13, HI23, HL3, HLC3, HT3.
    destruct (rd_Some (NxtcolorCmd i) (InputPoint2 a3)) as [cmd Hcmd]; [lia|].
    rewrite Hcmd. cbn [mbind option_bind].
    eexists. split; [reflexivity|].
    split.
    { unfold WellFormed. cbn. rewrite length_wr, HI13, HI23, HL3, HLC3, HC3.
      repeat split; auto; try lia.
      destruct (existsb _ _); auto. }
    split; [lia|].
    split.
    { unfold Keys in *. cbn. rewrite HT3. exact Hk1. }
    split; [intros; lia|].
    intros _. cbn. rewrite HP3, HC3. split; [reflexivity|].
    unfold AnyActive. destruct (existsb _ _); reflexivity.
  - (* inside a pass *)
    subst a2. unfold TickStart in HS.
    destruct (Z.eqb_spec (NxtPointer a1) 0) as [Hz|Hz]; [lia|].
    exists a1. split; [reflexivity|]. split; [exact HW1|].
    split; [lia|]. split; [exact Hk1|].
    split; [auto | intros; lia].
Qed.

(** *** Passes *)

Lemma Entries_app (s p n m : Z) :
  0 <= n -> 0 <= m -> Entries s p (n + m) = Entries s p n ++ Entries s (p + n) m.
Proof. intros Hn Hm. unfold Entries. rewrite seqZ_app by lia. apply map_app. Qed.

Lemma TickStop_start (s p : Z) :
  s = 1 \/ s = 2 -> TickStart s p -> TickStop s p < SchemeSize s ->
  TickStart s (TickStop s p).
Proof.
  unfold TickStart.
  intros [->| ->] [->|[->|[->|[H ->]]]] Hlt; vm_compute in Hlt |- *;
    try discriminate Hlt; try discriminate H; auto 10.
Qed.

Lemma PassInv_tick (i : INPUT) (a a' : ADC) :
  WellFormed a ->
  InputWellFormed i ->
  PassInv a ->
  Device1TimerInterrupt1 i a = Some a' ->
  WellFormed a' /\ PassInv a'.
Proof.
  intros HW HI [HS (passes & Hpasses & HK)] Ht.
  destruct (Device1TimerInterrupt1_ok i a HW HI HS)
    as (a'' & Ht' & HW' & Hrange & HK' & Hin & Hend).
  rewrite Ht in Ht'. injection Ht' as <-.
  split; [exact HW'|].
  pose proof HW as (_ & _ & _ & _ & HCol).
  pose proof HW' as (_ & _ & _ & _ & HCol').
  cbv zeta in *.
  set (s := CurrentScheme a) in *. set (p := NxtPointer a) in *.
  assert (Hs : s = 1 \/ s = 2).
  { destruct (CurrentScheme_cases a HCol) as [[_ H]|[_ H]]; fold s in H; auto. }
  pose proof (TickStart_range s p Hs HS) as Hp.
  destruct (Z.lt_ge_cases (TickStop s p) (SchemeSize s)) as [Hlt|Hge].
  - destruct (Hin Hlt) as [HP' HC'].
    assert (Hs' : CurrentScheme a' = s).
    { unfold s, CurrentScheme. rewrite HC'. reflexivity. }
    split.
    + rewrite Hs', HP'. apply TickStop_start; assumption.
    + exists passes. split; [exact Hpasses|].
      rewrite HK', HK, Hs', HP', <- app_assoc. f_equal.
      replace (TickStop s p) with (p + (TickStop s p - p)) at 2 by lia.
      rewrite Entries_app by lia. reflexivity.
  - destruct Hend as [HP' HC']; [lia|].
    assert (Hq : TickStop s p = SchemeSize s) by lia.
    split.
    + rewrite HP'. left. reflexivity.
    + exists (passes ++ [s]). split.
      * apply Forall_app. split; [exact Hpasses|]. constructor; [exact Hs | constructor].
      * rewrite HK', HK, HP'.
        change (Entries (CurrentScheme a') 0 0) with (@nil (Z * Z)).
        rewrite app_nil_r, flat_map_app. cbn [flat_map]. rewrite app_nil_r.
        rewrite <- app_assoc. f_equal.
        unfold FullPass. rewrite <- Hq.
        replace (TickStop s p) with (p + (TickStop s p - p)) at 2 by lia.
        rewrite Entries_app by lia. reflexivity.
Qed.

Lemma Device1Reset_ok : WellFormed Device1Reset /\ PassInv Device1Reset.
Proof.
  split.
  - unfold WellFormed, Device1Reset. cbn. rewrite !length_replicate.
    repeat split; auto; lia.
  - split; [left; reflexivity|]. exists []. split; [constructor | reflexivity].
Qed.

(** From a well-formed state the scheduler never reads outside a table,
    and its trace stays a sequence of full passes. *)
Lemma Device1Run_ok (ticks : list INPUT) : forall a,
  Forall InputWellFormed ticks ->
  WellFormed a -> PassInv a ->
  exists a', Device1Run ticks a = Some a' /\ WellFormed a' /\ PassInv a'.
Proof.
  induction ticks as [|i ticks IH]; intros a HI HW HP.
  - exists a. cbn. auto.
  - inversion HI as [|? ? Hi HI']; subst.
    destruct HP as [HS HP].
    destruct (Device1TimerInterrupt1_ok i a HW Hi HS) as (a1 & Ht & _).
    destruct (PassInv_tick i a a1 HW Hi (conj HS HP) Ht) as [HW1 HP1].
    cbn [Device1Run]. rewrite Ht. cbn [mbind option_bind].
    apply IH; assumption.
Qed.

(** C8. At every tick of the ADC scheduler one scheme is in effect, the one
    [Color] selects: every table entry the tick runs is an entry of that
    scheme.  [Color] is written only when the schedule pointer has wrapped
    to zero: a tick that leaves [NxtPointer] non-zero leaves [Color] as it
    was, and a tick that ends a pass sets [Color] to whether some port has
    an active colour session.  From the reset state and for any sequence of
    ticks the scheduler never fails, and its trace is a sequence of full
    passes, each of one scheme, followed by the entries of the pass under
    way: the scheme never changes in the middle of a pass. *)
Theorem schedule_switch_at_pass_boundary :
  (forall i a a',
     Device1TimerInterrupt1 i a = Some a' ->
     NxtPointer a' <> 0 -> Color a' = Color a)
  /\
  (forall i a,
     WellFormed a -> InputWellFormed i -> PassInv a ->
     exists a', Device1TimerInterrupt1 i a = Some a' /\
       let s := CurrentScheme a in
       let q := TickStop s (NxtPointer a) in
       Keys a' = Keys a ++ Entries s (NxtPointer a) (q - NxtPointer a) /\
       (q < SchemeSize s -> NxtPointer a' = q /\ Color a' = Color a) /\
       (q = SchemeSize s ->
        NxtPointer a' = 0 /\ Color a' = (if AnyActive i then 1 else 0)))
  /\
  (forall ticks,
     Forall InputWellFormed ticks ->
     exists a, Device1Run ticks Device1Reset = Some a /\ WellFormed a /\ PassInv a).
Proof.
  split; [|split].
  - intros i a a' H Hnz. unfold Device1TimerInterrupt1 in H.
    set (a0 := if NxtPointer a =? 0 then _ else a) in H.
    assert (HC0 : Color a0 = Color a).
    { subst a0. destruct a. cbn. repeat (split_if; cbn); reflexivity. }
    assert (HL : exists a2,
              (if Color a0 =? 0
               then SchemeLoop Scheme1Body NextTime1 Time1 (Z.to_nat SCHEMESIZE1) a0
                    ≫= (fun a2 => Some (if NxtPointer a2 >=? SCHEMESIZE1
                                         then set_NxtPointer 0 a2 else a2))
               else SchemeLoop Scheme2Body NextTime2 Time2 (Z.to_nat SCHEMESIZE2) a0
                    ≫= (fun a2 => Some (if NxtPointer a2 >=? SCHEMESIZE2
                                         then set_NxtPointer 0 a2 else a2))) = Some a2 /\
              Color a2 = Color a0).
    { destruct (Color a0 =? 0).
      - destruct (SchemeLoop Scheme1Body _ _ _ a0) as [a1|] eqn:H1; [|discriminate H].
        eexists. split; [reflexivity|].
        rewrite <- (SchemeLoop_Color _ _ _ Scheme1Body_Color _ _ _ H1).
        destruct (NxtPointer a1 >=? SCHEMESIZE1); reflexivity.
      - destruct (SchemeLoop Scheme2Body _ _ _ a0) as [a1|] eqn:H1; [|discriminate H].
        eexists. split; [reflexivity|].
        rewrite <- (SchemeLoop_Color _ _ _ Scheme2Body_Color _ _ _ H1).
        destruct (NxtPointer a1 >=? SCHEMESIZE2); reflexivity. }
    destruct HL as (a2 & H2 & HC2). rewrite H2 in H. cbn [mbind option_bind] in H.
    destruct (Z.eqb_spec (NxtPointer a2) 0) as [Hz|Hz].
    + exfalso. apply Hnz.
      destruct (EndOfPassPorts i INPUTS (set_Color 0 a2)) as [a3|] eqn:H3; [|discriminate H].
      cbn [mbind option_bind] in H.
      destruct (rd (NxtcolorCmd i) (InputPoint2 a3)) as [cmd|]; [|discriminate H].
      cbn [mbind option_bind] in H. injection H as <-.
      change (NxtPointer a3 = 0).
      rewrite (EndOfPassPorts_NxtPointer i INPUTS _ _ H3). exact Hz.
    + injection H as <-. congruence.
  - intros i a HW HI [HS HP].
    destruct (Device1TimerInterrupt1_ok i a HW HI HS) as (a' & Ht & _ & _ & HK & Hin & Hend).
    exists a'. split; [exact Ht|]. cbv zeta in *. auto.
  - intros ticks HI.
    destruct Device1Reset_ok as [HW HP].
    apply Device1Run_ok; assumption.
Qed.

End AdcScanProperties.

Section AdcScanWitnesses.
Import AdcScan AdcScanSpec.

(** On the LEGO platform values, three ticks without a colour sensor run
    one full pass of scheme 1 and return to entry 0. *)
Lemma schedule_switch_at_pass_boundary_witness :
  let i := mkINPUT [0; 0; 0; 0] [0; 0; 0; 0] in
  (1 <= @INPUTS lms2012 <= 8)%nat /\
  exists a, @Device1Run lms2012 [i; i; i] (@Device1Reset lms2012) = Some a /\
            PassInv a.
Proof.
  intros i.
  assert (HR : (1 <= @INPUTS lms2012 <= 8)%nat) by (vm_compute; lia).
  split; [exact HR|].
  destruct (proj2 (proj2 (@schedule_switch_at_pass_boundary lms2012 HR)) [i; i; i])
    as (a & Ha & _ & HP).
  - repeat constructor.
  - exists a. split; [exact Ha | exact HP].
Defined.

End AdcScanWitnesses.

(** ** The branch through [DCM_PIN2_LOW] is dead *)
Section InputReachProperties.
Import NxtColor InputDcm InputReach.
Context {hw : Platform}.

(** The mask that [DCM_FLOATING] computes never has the pin 2 bit. *)
Lemma FloatingEvent_no_pin2 (i : INPUT) :
  Z.testbit (FloatingEvent i) INPUT_PORT_PIN2 = false.
Proof.
  unfold FloatingEvent. cbn [negb].
  destruct (InPin1 i <? VtoC IN1_NEAR_5V), (PINRead5 i), (PINRead6 i); reflexivity.
Qed.

Lemma PathInv_tick Port i c0 c sh :
  PathInv c0 c -> PathInv c0 (fst (InputPortTick Port i (c, sh))).
Proof.
  destruct c as [[V Cn Cm S O E T F] D K N A LI LO NA NC M P5 P6 B].
  unfold PathInv, InputPortTick. cbn.
  intros (HE & HS & HC).
  destruct (F =? 0) eqn:HF; cbn.
  - rewrite HF. cbn. auto.
  - destruct S; try discriminate HS; cbn.
    all: unfold ConnectionLadder, WaitRelease, FloatingCount, FloatingChange, set_class; cbn.
    all: rewrite ?bit_set_testbit, ?HE by (vm_compute; discriminate).
    all: repeat (split_if; cbn); rewrite ?FloatingEvent_no_pin2;
      repeat split; auto.
Qed.

Lemma PathInv_enable Char c0 c :
  PathInv c0 c -> PathInv c0 (Dcm.EnableSwitch Char c).
Proof.
  destruct c as [[V Cn Cm S O E T F] D K N A LI LO NA NC M P5 P6 B].
  unfold PathInv, Dcm.EnableSwitch. cbn. intros H.
  repeat (split_if; cbn); exact H.
Qed.

Lemma PathInv_steps Port steps c0 : forall c sh,
  PathInv c0 c -> PathInv c0 (fst (PortSteps Port steps (c, sh))).
Proof.
  induction steps as [|st steps IH]; intros c sh H; [exact H|].
  cbn [PortSteps]. destruct st as [i|Char]; cbn [PortStep fst snd].
  - pose proof (PathInv_tick Port i c0 c sh H) as H1.
    destruct (InputPortTick Port i (c, sh)) as [c1 sh1]. apply IH. exact H1.
  - apply IH. apply PathInv_enable. exact H.
Qed.

(** C10. The pin 2 test of [DCM_FLOATING] is the constant false, so the
    computed mask never has the pin 2 bit.  For a port that starts in
    [DCM_INIT] with that bit clear, after any sequence of DCM ticks and 'e'
    commands: the stored mask has the pin 2 bit clear; the state is none of
    [DCM_PIN2_LOW], [DCM_NXT_TOUCH_CHECK], the colour session states and
    [DCM_CONNECTED_WAITING_FOR_PIN2_HIGH], but one of the states on the
    paths through [DCM_PIN1_LOADED], [DCM_PIN6_HIGH] and [DCM_PIN5_LOW];
    and the classification is either still the initial one or one that
    those paths write: None, Error, unknown UART, unknown dumb input, or
    NXT IIC. *)
Theorem pin2_chain_unreachable (Port : Z) (steps : list STEP) (c : CELLS) (sh : SHARED) :
  State (InputPort c) = DCM_INIT ->
  Z.testbit (Event (InputPort c)) INPUT_PORT_PIN2 = false ->
  let c' := fst (PortSteps Port steps (c, sh)) in
  (forall i, Z.testbit (FloatingEvent i) INPUT_PORT_PIN2 = false) /\
  Z.testbit (Event (InputPort c')) INPUT_PORT_PIN2 = false /\
  Pin2Chain (State (InputPort c')) = false /\
  PathState (State (InputPort c')) = true /\
  ((InDcm c' = InDcm c /\ InConn c' = InConn c) \/ PathClass (InDcm c') (InConn c') = true).
Proof.
  intros HS HE c'.
  assert (H0 : PathInv c c).
  { unfold PathInv. rewrite HS. auto. }
  destruct (PathInv_steps Port steps c c sh H0) as (H1 & H2 & H3). fold c' in H1, H2, H3.
  split; [exact FloatingEvent_no_pin2|].
  split; [exact H1|]. split; [|split; [exact H2 | exact H3]].
  destruct (State (InputPort c')); try reflexivity; discriminate H2.
Qed.

End InputReachProperties.

Section InputReachWitnesses.
Import NxtColor InputDcm InputReach.

(** A port with pin 1 loaded and pin 6 high, through power-up, debounce and
    classification: it ends connected as an unknown UART device. *)
Lemma pin2_chain_unreachable_witness :
  let c := Examples.in_cells DCM_INIT 0 0 in
  let steps := replicate 40 (StepTick (Examples.in_input 50 true true)) in
  State (InputPort c) = DCM_INIT /\
  Z.testbit (Event (InputPort c)) INPUT_PORT_PIN2 = false /\
  Pin2Chain (State (InputPort (fst (@PortSteps lms2012 0 steps (c, Examples.shared0)))))
  = false.
Proof.
  intros c steps. split; [reflexivity|]. split; [reflexivity|].
  exact (proj1 (proj2 (proj2 (@pin2_chain_unreachable lms2012 0 steps c Examples.shared0
                                eq_refl eq_refl)))).
Defined.

End InputReachWitnesses.

(** ** The control channel *)
Section ControlProperties.
Import NxtColor InputDcm Dcm.
Context {hw : Platform}.

(** A port loop rewrites the cells of the ports below [n], each by the
    body for its own number. *)
Lemma for_ports_lookup {A : Type} (body : nat -> A -> A) (n : nat) :
  forall (ports : list A) (Port : nat),
    for_ports body n ports !! Port =
    if decide (Port < n)%nat then body Port <$> ports !! Port else ports !! Port.
Proof.
  induction n as [|n IH]; intros ports Port.
  - cbn [for_ports]. destruct (decide (Port < 0)%nat); [lia | reflexivity].
  - cbn [for_ports].
    destruct (decide (n = Port)) as [->|Hne].
    + rewrite list_lookup_alter_eq, IH.
      destruct (decide (Port < Port)%nat); [lia|].
      destruct (decide (Port < S Port)%nat); [reflexivity | lia].
    + rewrite list_lookup_alter_ne by exact Hne. rewrite IH.
      destruct (decide (Port < n)%nat); destruct (decide (Port < S n)%nat);
        try reflexivity; lia.
Qed.

(** *** The DCM tick over all ports *)

(** The input port loop hands every port below [n] to [InputPortTick] once,
    with the port's own cells and input and the shared colour engine
    variables as the ports before it left them; the other ports keep their
    cells. *)
Lemma InputLoop_lookup (ins : list INPUT) (n : nat) :
  forall (ports : list CELLS) (sh : SHARED),
    (n <= length ports)%nat -> (n <= length ins)%nat ->
    length (fst (InputLoop ins n (ports, sh))) = length ports /\
    forall k,
      (n <= k -> fst (InputLoop ins n (ports, sh)) !! k = ports !! k)%nat /\
      ((k < n)%nat ->
       exists c i shk,
         ports !! k = Some c /\ ins !! k = Some i /\
         fst (InputLoop ins n (ports, sh)) !! k =
         Some (fst (InputPortTick (Z.of_nat k) i (c, shk)))).
Proof.
  induction n as [|n IH]; intros ports sh Hp Hi.
  - cbn [InputLoop fst]. split; [reflexivity|]. intros k. split; [reflexivity | lia].
  - destruct (IH ports sh) as [Hlen Hk]; [lia | lia |].
    cbn [InputLoop].
    destruct (InputLoop ins n (ports, sh)) as [ports1 sh1]. cbn [fst] in Hlen, Hk.
    destruct (lookup_lt_is_Some_2 ports1 n) as [c Hc]; [lia|].
    destruct (lookup_lt_is_Some_2 ins n) as [i Hin]; [lia|].
    rewrite Hc, Hin.
    destruct (InputPortTick (Z.of_nat n) i (c, sh1)) as [c1 sh2] eqn:Ht. cbn [fst].
    split; [rewrite length_insert; exact Hlen|].
    intros k. split.
    + intros Hge. rewrite list_lookup_insert_ne by lia. apply Hk. lia.
    + intros Hlt. destruct (decide (k = n)) as [->|Hne].
      * exists c, i, sh1. rewrite <- (proj1 (Hk n)) by lia.
        split; [exact Hc|]. split; [exact Hin|].
        rewrite list_lookup_insert_eq by lia. rewrite Ht. reflexivity.
      * destruct (proj2 (Hk k)) as (c0 & i0 & shk & H1 & H2 & H3); [lia|].
        exists c0, i0, shk. split; [exact H1|]. split; [exact H2|].
        rewrite list_lookup_insert_ne by lia. exact H3.
Qed.

(** Once the start-up sequence is over, a DCM tick is one [InputPortTick]
    for every input port and one [OutputPortTick] for every output port. *)
Lemma Device3TimerInterrupt1_ports (ins : list INPUT) (outs : list OutputDcm.INPUT)
    (d : DCM) :
  Device3State d <> 0 -> Device3State d <> 1 -> Device3State d <> 2 ->
  length (In d) = INPUTS -> length ins = INPUTS ->
  let d' := Device3TimerInterrupt1 ins outs d in
  (forall k c i,
     In d !! k = Some c -> ins !! k = Some i ->
     exists shk, In d' !! k = Some (fst (InputPortTick (Z.of_nat k) i (c, shk)))) /\
  (forall k c i,
     (k < OUTPUTS)%nat -> Out d !! k = Some c -> outs !! k = Some i ->
     Out d' !! k = Some (OutputDcm.OutputPortTick i c)).
Proof.
  intros H0 H1 H2 HL HI. unfold Device3TimerInterrupt1.
  destruct (Z.eqb_spec (Device3State d) 0); [contradiction|].
  destruct (Z.eqb_spec (Device3State d) 1); [contradiction|].
  destruct (Z.eqb_spec (Device3State d) 2); [contradiction|].
  destruct (InputLoop_lookup ins INPUTS (In d) (Shared d)) as [_ Hk]; [lia | lia |].
  destruct (InputLoop ins INPUTS (In d, Shared d)) as [ports sh]. cbn [fst] in Hk.
  cbn [In Out]. split.
  - intros k c i Hc Hi.
    destruct (proj2 (Hk k)) as (c0 & i0 & shk & E1 & E2 & E3).
    { apply lookup_lt_Some in Hc. lia. }
    rewrite Hc in E1. rewrite Hi in E2. injection E1 as <-. injection E2 as <-.
    exists shk. exact E3.
  - intros k c i Hlt Hc Hi. unfold OutputLoop. rewrite for_ports_lookup.
    destruct (decide (k < OUTPUTS)%nat); [|lia].
    rewrite Hc. cbn [fmap option_fmap option_map]. rewrite Hi. reflexivity.
Qed.

(** *** The 't' command *)

(** The body of the 't' loop on one port. *)
Lemma TypeSwitch_spec (Char : Z) (c : CELLS) :
  let c' := TypeSwitch Char c in
  InputPort c' = InputPort c /\
  (FSMEnabled (InputPort c) = 1 -> c' = c) /\
  (Connected (InputPort c) = 0 -> c' = c) /\
  (Char = 45 -> c' = c) /\
  (FSMEnabled (InputPort c) <> 1 -> Connected (InputPort c) <> 0 -> Char <> 45 ->
   match ForcedPair Char with
   | Some (t, k) => InDcm c' = t /\ InConn c' = k
   | None => c' = c
   end).
Proof.
  destruct c as [[V Cn Cm S O E T F] D K N A LI LO NA NC M P5 P6 B].
  unfold TypeSwitch, ForcedPair. cbn.
  destruct (Z.eqb_spec Cn 0) as [HC|HC]; cbn.
  { repeat split; auto; try contradiction. }
  destruct (Z.eqb_spec F 1) as [HF|HF]; cbn.
  { repeat split; auto; try contradiction. }
  destruct (Z.eqb_spec Char 45) as [H45|H45]; cbn.
  { repeat split; auto; try contradiction. }
  repeat (split_if; cbn); repeat split; auto; try contradiction.
Qed.

(** C9, as the code has it.  A 't' command of at least [INPUTS] bytes
    leaves [InputPort[Port]] alone, and leaves [InDcm] and [InConn] of
    every port whose [FSMEnabled] is 1 unchanged, and likewise of every
    port that is not marked connected and of every port whose character is
    '-'.  For a port whose automatic detection is off, that is marked
    connected and whose character is one of the four recognised connection
    codes, the pair of that code is written: NXT IIC, NXT light sensor,
    EV3 touch sensor or none; any other character changes nothing. *)
Theorem type_command_guards (Count : Z) (Buf : list Z) (ports : list CELLS)
    (Port : nat) (c : CELLS) :
  TypeLabelsDistinct = true ->
  Count >= Z.of_nat INPUTS ->
  Buf !! 0%nat = Some 116 ->
  (Port < INPUTS)%nat ->
  ports !! Port = Some c ->
  let Char := BufChar Buf Port in
  exists c', fst (Device1Write Count Buf ports) !! Port = Some c' /\
    InputPort c' = InputPort c /\
    (FSMEnabled (InputPort c) = 1 -> InDcm c' = InDcm c /\ InConn c' = InConn c) /\
    (Connected (InputPort c) = 0 -> InDcm c' = InDcm c /\ InConn c' = InConn c) /\
    (Char = 45 -> InDcm c' = InDcm c /\ InConn c' = InConn c) /\
    (FSMEnabled (InputPort c) <> 1 -> Connected (InputPort c) <> 0 ->
     (Char = CONN_code CONN_NXT_IIC ->
      InDcm c' = TYPE_NXT_IIC /\ InConn c' = CONN_NXT_IIC) /\
     (Char = CONN_code CONN_NXT_DUMB ->
      InDcm c' = TYPE_NXT_LIGHT /\ InConn c' = CONN_NXT_DUMB) /\
     (Char = CONN_code CONN_INPUT_DUMB ->
      InDcm c' = TYPE_TOUCH /\ InConn c' = CONN_INPUT_DUMB) /\
     (Char = CONN_code CONN_NONE ->
      InDcm c' = TYPE_NONE /\ InConn c' = CONN_NONE) /\
     (Char <> CONN_code CONN_NXT_IIC -> Char <> CONN_code CONN_NXT_DUMB ->
      Char <> CONN_code CONN_INPUT_DUMB -> Char <> CONN_code CONN_NONE ->
      InDcm c' = InDcm c /\ InConn c' = InConn c)).
Proof.
  intros HD HCount HB0 HPort Hc Char.
  unfold Device1Write.
  destruct (Z.geb_spec Count (Z.of_nat INPUTS)) as [_|Hlt]; [|lia].
  rewrite HB0. change (default 0 (Some 116)) with 116.
  change (116 =? 101) with false. change (116 =? 116) with true. cbn match. cbn [fst].
  rewrite for_ports_lookup.
  destruct (decide (Port < INPUTS)%nat) as [_|Hn]; [|lia].
  rewrite Hc. cbn [fmap option_fmap option_map].
  exists (TypeSwitch (BufChar Buf Port) c). split; [reflexivity|].
  fold Char. clearbody Char.
  destruct (TypeSwitch_spec Char c) as (HP & HF & HCn & H45 & Hforce).
  set (c' := TypeSwitch Char c) in *. clearbody c'.
  split; [exact HP|].
  split; [intros H; rewrite (HF H); auto|].
  split; [intros H; rewrite (HCn H); auto|].
  split; [intros H; rewrite (H45 H); auto|].
  intros HF1 HC1.
  unfold TypeLabelsDistinct in HD. apply bool_decide_eq_true in HD.
  apply NoDup_cons in HD. destruct HD as [Hnot45 HD].
  apply NoDup_cons in HD. destruct HD as [Hn1 HD].
  apply NoDup_cons in HD. destruct HD as [Hn2 HD].
  apply NoDup_cons in HD. destruct HD as [Hn3 _].
  unfold ForcedPair in Hforce. specialize (Hforce HF1 HC1).
  assert (Hkeep : c' = c -> InDcm c' = InDcm c /\ InConn c' = InConn c)
    by (intros ->; auto).
  split; [|split; [|split; [|split]]].
  - intros He. rewrite He in Hforce.
    rewrite Z.eqb_refl in Hforce. apply Hforce. intros H. apply Hnot45. symmetry in H. rewrite !elem_of_cons. auto 10.
  - intros He. rewrite He in Hforce.
    destruct (Z.eqb_spec (CONN_code CONN_NXT_DUMB) (CONN_code CONN_NXT_IIC)) as [E1|_].
    { exfalso. apply Hn1. rewrite !elem_of_cons. auto 10. }
    rewrite Z.eqb_refl in Hforce. apply Hforce. intros H. apply Hnot45. symmetry in H. rewrite !elem_of_cons. auto 10.
  - intros He. rewrite He in Hforce.
    destruct (Z.eqb_spec (CONN_code CONN_INPUT_DUMB) (CONN_code CONN_NXT_IIC)) as [E1|_].
    { exfalso. apply Hn1. rewrite !elem_of_cons. auto 10. }
    destruct (Z.eqb_spec (CONN_code CONN_INPUT_DUMB) (CONN_code CONN_NXT_DUMB)) as [E2|_].
    { exfalso. apply Hn2. rewrite !elem_of_cons. auto 10. }
    rewrite Z.eqb_refl in Hforce. apply Hforce. intros H. apply Hnot45. symmetry in H. rewrite !elem_of_cons. auto 10.
  - intros He. rewrite He in Hforce.
    destruct (Z.eqb_spec (CONN_code CONN_NONE) (CONN_code CONN_NXT_IIC)) as [E1|_].
    { exfalso. apply Hn1. rewrite !elem_of_cons. auto 10. }
    destruct (Z.eqb_spec (CONN_code CONN_NONE) (CONN_code CONN_NXT_DUMB)) as [E2|_].
    { exfalso. apply Hn2. rewrite !elem_of_cons. auto 10. }
    destruct (Z.eqb_spec (CONN_code CONN_NONE) (CONN_code CONN_INPUT_DUMB)) as [E3|_].
    { exfalso. apply Hn3. rewrite !elem_of_cons. auto 10. }
    rewrite Z.eqb_refl in Hforce. apply Hforce. intros H. apply Hnot45. symmetry in H. rewrite !elem_of_cons. auto 10.
  - intros N1 N2 N3 N4.
    destruct (Z.eq_dec Char 45) as [E45|N45]; [exact (Hkeep (H45 E45))|].
    specialize (Hforce N45).
    destruct (Z.eqb_spec Char (CONN_code CONN_NXT_IIC)); [contradiction|].
    destruct (Z.eqb_spec Char (CONN_code CONN_NXT_DUMB)); [contradiction|].
    destruct (Z.eqb_spec Char (CONN_code CONN_INPUT_DUMB)); [contradiction|].
    destruct (Z.eqb_spec Char (CONN_code CONN_NONE)); [contradiction|].
    exact (Hkeep Hforce).
Qed.

End ControlProperties.

Section ControlWitnesses.
Import NxtColor InputDcm Dcm.

(** A disabled, connected port takes the pair forced by 'x'. *)
Lemma type_command_guards_witness :
  let ports := replicate 4 Examples.disabled_cells in
  @TypeLabelsDistinct lms2012 = true /\
  5 >= Z.of_nat (@INPUTS lms2012) /\
  Examples.buf_txxxx !! 0%nat = Some 116 /\
  (2 < @INPUTS lms2012)%nat /\
  ports !! 2%nat = Some Examples.disabled_cells /\
  exists c', fst (@Device1Write lms2012 5 Examples.buf_txxxx ports) !! 2%nat = Some c' /\
             InDcm c' = TYPE_NXT_IIC /\ InConn c' = CONN_NXT_IIC.
Proof.
  intros ports.
  assert (H1 : @TypeLabelsDistinct lms2012 = true) by (vm_compute; reflexivity).
  assert (H2 : 5 >= Z.of_nat (@INPUTS lms2012)) by (vm_compute; discriminate).
  assert (H4 : (2 < @INPUTS lms2012)%nat) by (vm_compute; lia).
  split; [exact H1|]. split; [exact H2|]. split; [reflexivity|].
  split; [exact H4|]. split; [reflexivity|].
  destruct (@type_command_guards lms2012 5 Examples.buf_txxxx ports 2
              Examples.disabled_cells H1 H2 eq_refl H4 eq_refl)
    as (c' & Hc' & _ & _ & _ & _ & Hforce).
  exists c'. split; [exact Hc'|].
  apply Hforce; [vm_compute; discriminate | vm_compute; discriminate | reflexivity].
Defined.

(** C9 fails on the code: after the command "e0000" has switched automatic
    detection off and before a DCM tick has marked the ports connected,
    the command "txxxx" writes nothing; the ports keep None/None although
    their detection is disabled. *)
Lemma type_command_counterexample :
  let ports1 := fst (@Device1Write lms2012 5 Examples.buf_e0000 Examples.ports_default) in
  let ports2 := fst (@Device1Write lms2012 5 Examples.buf_txxxx ports1) in
  FSMEnabled <$> (InputPort <$> ports1 !! 0%nat) = Some 0 /\
  Connected <$> (InputPort <$> ports1 !! 0%nat) = Some 0 /\
  InDcm <$> ports2 !! 0%nat = Some TYPE_NONE /\
  InConn <$> ports2 !! 0%nat = Some CONN_NONE /\
  InDcm <$> ports2 !! 0%nat <> Some TYPE_NXT_IIC /\
  ports2 = ports1.
Proof.
  vm_compute. repeat split; try reflexivity; discriminate.
Qed.

End ControlWitnesses.

(** ** Further properties of the input port DCM *)
Section InputDcmMore.
Import NxtColor InputDcm InputDcmSpec InputSteadySpec.
Context {hw : Platform}.

(** X1. The wait for pin 2 does not look at any pin: a port in
    [DCM_CONNECTED_WAITING_FOR_PIN2_HIGH] keeps its classification and
    counts every tick, and on the tick that brings its timer to
    [DCM_EVENT_STABLE_DELAY / DCM_TIMER_RESOLUTION] = 10 it is marked
    disconnected and sent back to [DCM_INIT], whatever the readings. *)
Theorem pin2_wait_releases_unconditionally (Port : Z) (ticks : list INPUT)
    (c : CELLS) (sh : SHARED) :
  State (InputPort c) = DCM_CONNECTED_WAITING_FOR_PIN2_HIGH ->
  FSMEnabled (InputPort c) <> 0 ->
  0 <= Timer (InputPort c) < 10 ->
  let t := Timer (InputPort c) in
  let c' := fst (InputPortRun Port ticks (c, sh)) in
  (Z.of_nat (length ticks) < 10 - t ->
   State (InputPort c') = DCM_CONNECTED_WAITING_FOR_PIN2_HIGH /\
   Timer (InputPort c') = t + Z.of_nat (length ticks) /\
   Connected (InputPort c') = Connected (InputPort c) /\
   InDcm c' = InDcm c /\ InConn c' = InConn c) /\
  (Z.of_nat (length ticks) = 10 - t ->
   State (InputPort c') = DCM_INIT /\
   Connected (InputPort c') = 0 /\
   InDcm c' = InDcm c /\ InConn c' = InConn c).
Proof.
  revert c sh. induction ticks as [|i ticks IH]; intros c sh HS HF HT t c'.
  - subst c'. cbn. split; [intros _; repeat split; auto; lia | intros; lia].
  - subst c' t. rewrite InputPortRun_cons.
    assert (Hstep : InputPortTick Port i (c, sh) = (WaitRelease true c, sh)).
    { unfold InputPortTick. rewrite (tick_enabled c HF), HS. reflexivity. }
    rewrite Hstep.
    destruct c as [[V Cn Cm S O E T F] D K N A LI LO NA NC M P5 P6 B].
    cbn in HS, HF, HT |- *. subst S.
    unfold WaitRelease. cbn.
    rewrite (UBYTE_small (T + 1)) by lia.
    change (DCM_EVENT_STABLE_DELAY `div` DCM_TIMER_RESOLUTION) with 10.
    destruct (Z.geb_spec (T + 1) 10) as [Hge|Hlt].
    + assert (T = 9) by lia. subst T. split; [intros; lia|].
      intros Hlen. assert (ticks = []) by (destruct ticks; [reflexivity | cbn in Hlen; lia]).
      subst ticks. cbn. repeat split.
    + set (c1 := mkCELLS (mkINPORT V Cn Cm DCM_CONNECTED_WAITING_FOR_PIN2_HIGH O E (T + 1) F)
                         D K N A LI LO NA NC M P5 P6 B).
      specialize (IH c1 sh eq_refl HF). cbn in IH.
      destruct IH as [IH1 IH2]; [lia|].
      split; intros Hlen.
      * destruct IH1 as (H1 & H2 & H3 & H4 & H5); [lia|].
        repeat split; auto. etransitivity; [exact H2 | lia].
      * apply IH2. lia.
Qed.


Lemma InputPortRun_app Port (a b : list INPUT) (x : CELLS * SHARED) :
  InputPortRun Port (a ++ b) x = InputPortRun Port b (InputPortRun Port a x).
Proof.
  revert x. induction a as [|i a IH]; intros x; [reflexivity|].
  cbn. apply IH.
Qed.

(** A port in [DCM_FLOATING] that has stored the mask [m] and keeps
    computing it: every tick counts, and the tick that brings the timer
    to 35 enters [DCM_CONNECTION]; nothing else changes. *)
Lemma steady_floating_run Port (i : INPUT) (n : nat) : forall (c : CELLS) (sh : SHARED),
  State (InputPort c) = DCM_FLOATING ->
  FSMEnabled (InputPort c) <> 0 ->
  FloatingEvent i <> 0 ->
  Event (InputPort c) = FloatingEvent i ->
  0 <= Timer (InputPort c) < 35 ->
  Timer (InputPort c) + Z.of_nat n <= 35 ->
  InputPortRun Port (replicate n i) (c, sh) =
    (port_set (set_State (if Timer (InputPort c) + Z.of_nat n =? 35
                          then DCM_CONNECTION else DCM_FLOATING))
       (port_set (set_Timer (Timer (InputPort c) + Z.of_nat n)) c), sh).
Proof.
  induction n as [|n IH]; intros c sh HS HF Hm HE HT Hn.
  - cbn. destruct c as [[V Cn Cm S O E T F] D K N A LI LO NA NC M P5 P6 B].
    cbn in *. subst S. rewrite Z.add_0_r.
    destruct (Z.eqb_spec T 35); [lia | reflexivity].
  - cbn [replicate]. rewrite InputPortRun_cons, (floating_tick Port i c sh HS HF).
    destruct c as [[V Cn Cm S O E T F] D K N A LI LO NA NC M P5 P6 B].
    cbn in HS, HF, HE, HT, Hn |- *. subst S E.
    unfold FloatingChange, FloatingCount. cbn.
    rewrite Z.eqb_refl. cbn.
    destruct (Z.eqb_spec (FloatingEvent i) 0) as [|_]; [contradiction|]. cbn.
    rewrite (UBYTE_small (T + 1)) by lia.
    change (DCM_CONNECT_STABLE_DELAY `div` DCM_TIMER_RESOLUTION) with 35.
    destruct (Z.geb_spec (T + 1) 35) as [Hge|Hlt].
    + assert (T = 34) by lia. subst T.
      assert (n = 0%nat) by lia. subst n. reflexivity.
    + rewrite IH; cbn; try assumption; try reflexivity; try lia.
      replace (T + 1 + Z.of_nat n) with (T + Z.of_nat (S n)) by lia.
      reflexivity.
Qed.

Lemma steady_first_ticks Port (i : INPUT) (c : CELLS) (sh : SHARED) :
  State (InputPort c) = DCM_INIT ->
  FSMEnabled (InputPort c) <> 0 ->
  FloatingEvent i <> 0 ->
  InputPortRun Port (replicate 1 i) (c, sh) = steady_cells Port c sh DCM_FLOATING_DELAY 0 0 /\
  InputPortRun Port (replicate 2 i) (c, sh) = steady_cells Port c sh DCM_FLOATING_DELAY 0 1 /\
  InputPortRun Port (replicate 3 i) (c, sh) = steady_cells Port c sh DCM_FLOATING 0 0 /\
  InputPortRun Port (replicate 4 i) (c, sh) =
    steady_cells Port c sh DCM_FLOATING (FloatingEvent i) 1.
Proof.
  intros HS HF Hm.
  destruct c as [[V Cn Cm S O E T F] D K N A LI LO NA NC M P5 P6 B].
  destruct sh as [U R].
  cbn in HS, HF. subst S.
  assert (HF0 : (F =? 0) = false) by (destruct (Z.eqb_spec F 0); [contradiction | reflexivity]).
  set (sh1 := snd (NxtColorCommStop Port (M, mkSHARED U R))).
  set (P := fun (st : DCM_STATE) (ev tm : Z) =>
              mkCELLS (mkINPORT V Cn Cm st O ev tm F) TYPE_NONE CONN_NONE N A LI LO 0 NC
                      (set_NxtColorState 0 M) PinFloating PinFloating PinHigh).
  assert (HP : forall st ev tm,
            steady_cells Port
              (mkCELLS (mkINPORT V Cn Cm DCM_INIT O E T F) D K N A LI LO NA NC M P5 P6 B)
              (mkSHARED U R) st ev tm = (P st ev tm, sh1)) by reflexivity.
  rewrite !HP.
  assert (T1 : InputPortTick Port i
                 (mkCELLS (mkINPORT V Cn Cm DCM_INIT O E T F) D K N A LI LO NA NC M P5 P6 B,
                  mkSHARED U R) = (P DCM_FLOATING_DELAY 0 0, sh1)).
  { unfold InputPortTick. cbn. rewrite HF0. reflexivity. }
  assert (T2 : InputPortTick Port i (P DCM_FLOATING_DELAY 0 0, sh1) =
               (P DCM_FLOATING_DELAY 0 1, sh1)).
  { unfold InputPortTick, P. cbn. rewrite HF0. cbn.
    change (UBYTE (0 + 1)) with 1.
    change (1 >=? DCM_FLOAT_DELAY `div` DCM_TIMER_RESOLUTION) with false. reflexivity. }
  assert (T3 : InputPortTick Port i (P DCM_FLOATING_DELAY 0 1, sh1) =
               (P DCM_FLOATING 0 0, sh1)).
  { unfold InputPortTick, P. cbn. rewrite HF0. cbn.
    change (UBYTE (1 + 1)) with 2.
    change (2 >=? DCM_FLOAT_DELAY `div` DCM_TIMER_RESOLUTION) with true. reflexivity. }
  assert (T4 : InputPortTick Port i (P DCM_FLOATING 0 0, sh1) =
               (P DCM_FLOATING (FloatingEvent i) 1, sh1)).
  { unfold InputPortTick, P. cbn. rewrite HF0. cbn.
    unfold FloatingChange, FloatingCount. cbn.
    destruct (Z.eqb_spec 0 (FloatingEvent i)) as [Hz|_]; [symmetry in Hz; contradiction|]. cbn.
    destruct (Z.eqb_spec (FloatingEvent i) 0) as [|_]; [contradiction|]. cbn.
    change (UBYTE (0 + 1)) with 1.
    change (1 >=? DCM_CONNECT_STABLE_DELAY `div` DCM_TIMER_RESOLUTION) with false.
    reflexivity. }
  cbn [replicate InputPortRun].
  rewrite T1, T2, T3, T4. repeat split.
Qed.

Lemma steady_phase Port (i : INPUT) (k : nat) (c : CELLS) (sh : SHARED) :
  State (InputPort c) = DCM_INIT ->
  FSMEnabled (InputPort c) <> 0 ->
  FloatingEvent i <> 0 ->
  (k <= 34)%nat ->
  InputPortRun Port (replicate (4 + k) i) (c, sh) =
    steady_cells Port c sh
      (if 1 + Z.of_nat k =? 35 then DCM_CONNECTION else DCM_FLOATING)
      (FloatingEvent i) (1 + Z.of_nat k).
Proof.
  intros HS HF Hm Hk.
  rewrite replicate_add, InputPortRun_app.
  destruct (steady_first_ticks Port i c sh HS HF Hm) as (_ & _ & _ & H4).
  rewrite H4.
  destruct c as [[V Cn Cm S O E T F] D K N A LI LO NA NC M P5 P6 B].
  destruct sh as [U R].
  cbn in HF. unfold steady_cells. cbn.
  rewrite steady_floating_run; cbn; try assumption; try reflexivity; lia.
Qed.

(** The ladder of [DCM_CONNECTION] on the mask of a reading. *)
Lemma ladder_of_reading (i : INPUT) :
  ConnectionLadder (FloatingEvent i) =
  if InPin1 i <? VtoC IN1_NEAR_5V then DCM_PIN1_LOADED
  else if PINRead6 i then DCM_PIN6_HIGH
  else if negb (PINRead5 i) then DCM_PIN5_LOW
  else DCM_INIT.
Proof.
  unfold FloatingEvent. cbn [negb].
  destruct (InPin1 i <? VtoC IN1_NEAR_5V); destruct (PINRead5 i); destruct (PINRead6 i);
    reflexivity.
Qed.

Lemma reading_without_event (i : INPUT) :
  (InPin1 i <? VtoC IN1_NEAR_5V) = false -> PINRead6 i = false -> PINRead5 i = true ->
  FloatingEvent i = 0.
Proof.
  intros H1 H6 H5. unfold FloatingEvent. rewrite H1, H6, H5. reflexivity.
Qed.

(** Tick 39 runs the ladder and clears the data log pointers. *)
Lemma steady_tick_39 Port (i : INPUT) (c : CELLS) (sh : SHARED) :
  State (InputPort c) = DCM_INIT ->
  FSMEnabled (InputPort c) <> 0 ->
  FloatingEvent i <> 0 ->
  InputPortRun Port (replicate 39 i) (c, sh) =
    (set_LogOut 0 (set_LogIn 0 (set_Actual 0
       (fst (steady_cells Port c sh (ConnectionLadder (FloatingEvent i))
                          (FloatingEvent i) 35)))),
     snd (steady_cells Port c sh DCM_CONNECTION (FloatingEvent i) 35)).
Proof.
  intros HS HF Hm.
  pose proof (steady_phase Port i 34 c sh HS HF Hm (le_n 34)) as H38.
  change (1 + Z.of_nat 34) with 35 in H38. change (35 =? 35) with true in H38.
  cbn match in H38.
  change (replicate 39 i) with (replicate (4 + 34) i ++ [i]).
  rewrite InputPortRun_app, H38.
  destruct c as [[V Cn Cm S O E T F] D K N A LI LO NA NC M P5 P6 B]. destruct sh as [U R].
  cbn in HF.
  assert (HF0 : (F =? 0) = false) by (destruct (Z.eqb_spec F 0); [contradiction | reflexivity]).
  set (sh1 := snd (NxtColorCommStop Port (M, mkSHARED U R))).
  change (steady_cells Port
            (mkCELLS (mkINPORT V Cn Cm S O E T F) D K N A LI LO NA NC M P5 P6 B)
            (mkSHARED U R) DCM_CONNECTION (FloatingEvent i) 35)
    with (mkCELLS (mkINPORT V Cn Cm DCM_CONNECTION O (FloatingEvent i) 35 F)
                  TYPE_NONE CONN_NONE N A LI LO 0 NC (set_NxtColorState 0 M)
                  PinFloating PinFloating PinHigh, sh1).
  cbn [InputPortRun]. unfold InputPortTick. cbn. rewrite HF0. reflexivity.
Qed.

Lemma replicate_snoc_39 (i : INPUT) : replicate 40 i = replicate 39 i ++ [i].
Proof. reflexivity. Qed.

Lemma steady_before_40 (Port : Z) (i : INPUT) (c : CELLS) (sh : SHARED) :
  State (InputPort c) = DCM_INIT ->
  FSMEnabled (InputPort c) <> 0 ->
  FloatingEvent i <> 0 ->
  forall n, (1 <= n < 40)%nat ->
    let c' := fst (InputPortRun Port (replicate n i) (c, sh)) in
    InDcm c' = TYPE_NONE /\ InConn c' = CONN_NONE /\
    Connected (InputPort c') = Connected (InputPort c).
Proof.
  intros HS HF Hm n Hn. cbn zeta.
  assert (Hcells : forall st ev tm,
            let c' := fst (steady_cells Port c sh st ev tm) in
            InDcm c' = TYPE_NONE /\ InConn c' = CONN_NONE /\
            Connected (InputPort c') = Connected (InputPort c)).
  { intros st ev tm.
    destruct c as [[V Cn Cm S O E T F] D K N A LI LO NA NC M P5 P6 B]. destruct sh as [U R].
    repeat split. }
  destruct (steady_first_ticks Port i c sh HS HF Hm) as (H1 & H2 & H3 & _).
  assert (Hc : n = 1%nat \/ n = 2%nat \/ n = 3%nat \/
               (exists k, n = (4 + k)%nat /\ (k <= 34)%nat) \/ n = 39%nat).
  { destruct (le_lt_dec n 3); [lia|]. destruct (le_lt_dec n 38).
    - right; right; right; left. exists (n - 4)%nat. lia.
    - right; right; right; right. lia. }
  destruct Hc as [-> | [-> | [-> | [(k & -> & Hk) | ->]]]].
  - rewrite H1. apply Hcells.
  - rewrite H2. apply Hcells.
  - rewrite H3. apply Hcells.
  - rewrite (steady_phase Port i k c sh HS HF Hm Hk). apply Hcells.
  - rewrite (steady_tick_39 Port i c sh HS HF Hm). cbn [fst].
    destruct (Hcells (ConnectionLadder (FloatingEvent i)) (FloatingEvent i) 35)
      as (Ha & Hb & Hc).
    split; [exact Ha|]. split; [exact Hb|]. exact Hc.
Qed.

Lemma steady_at_40 (Port : Z) (i : INPUT) (c : CELLS) (sh : SHARED) :
  State (InputPort c) = DCM_INIT ->
  FSMEnabled (InputPort c) <> 0 ->
  FloatingEvent i <> 0 ->
  let c' := fst (InputPortRun Port (replicate 40 i) (c, sh)) in
  Connected (InputPort c') = 1 /\
  (InPin1 i < VtoC IN1_NEAR_5V ->
   State (InputPort c') = DCM_CONNECTED_WAITING_FOR_PIN1_TO_FLOAT /\
   (InPin1 i > VtoC IN1_NEAR_PIN2 -> InDcm c' = TYPE_ERROR /\ InConn c' = CONN_ERROR) /\
   (InPin1 i <= VtoC IN1_NEAR_PIN2 -> InPin1 i < VtoC IN1_NEAR_GND ->
    InDcm c' = TYPE_UNKNOWN /\ InConn c' = CONN_INPUT_UART) /\
   (InPin1 i <= VtoC IN1_NEAR_PIN2 -> InPin1 i >= VtoC IN1_NEAR_GND ->
    InDcm c' = TYPE_UNKNOWN /\ InConn c' = CONN_INPUT_DUMB)) /\
  (InPin1 i >= VtoC IN1_NEAR_5V -> PINRead6 i = true ->
   State (InputPort c') = DCM_CONNECTED_WAITING_FOR_PIN6_LOW /\
   InDcm c' = TYPE_NXT_IIC /\ InConn c' = CONN_NXT_IIC) /\
  (InPin1 i >= VtoC IN1_NEAR_5V -> PINRead6 i = false ->
   PINRead5 i = false /\
   State (InputPort c') = DCM_CONNECTED_WAITING_FOR_PIN5_HIGH /\
   InDcm c' = TYPE_ERROR /\ InConn c' = CONN_ERROR).
Proof.
  intros HS HF Hm.
  assert (HF0 : (FSMEnabled (InputPort c) =? 0) = false)
    by (destruct (Z.eqb_spec (FSMEnabled (InputPort c)) 0); [contradiction | reflexivity]).
  cbn zeta. rewrite replicate_snoc_39, InputPortRun_app, (steady_tick_39 Port i c sh HS HF Hm).
  rewrite (InputPortRun_cons Port i []). cbn [InputPortRun].
  pose proof (ladder_of_reading i) as HL.
    pose proof (reading_without_event i) as HZ.
    destruct c as [[V Cn Cm S O E T F] D K N A LI LO NA NC M P5 P6 B]. destruct sh as [U R].
    cbn in HF0.
    set (c0 := mkCELLS (mkINPORT V Cn Cm S O E T F) D K N A LI LO NA NC M P5 P6 B).
    set (sh0 := mkSHARED U R).
    set (sh1 := snd (NxtColorCommStop Port (M, mkSHARED U R))).
    set (P := fun (st : DCM_STATE) =>
                mkCELLS (mkINPORT V Cn Cm st O (FloatingEvent i) 35 F) TYPE_NONE CONN_NONE
                        N 0 0 0 0 NC (set_NxtColorState 0 M) PinFloating PinFloating PinHigh).
    assert (Hfst : forall st,
              set_LogOut 0 (set_LogIn 0 (set_Actual 0
                (fst (steady_cells Port c0 sh0 st (FloatingEvent i) 35)))) = P st)
      by reflexivity.
    assert (Hsnd : snd (steady_cells Port c0 sh0 DCM_CONNECTION (FloatingEvent i) 35) = sh1)
      by reflexivity.
    rewrite Hfst, Hsnd. clear Hfst Hsnd. clearbody sh1. clear c0 sh0.
    rewrite HL. clear HL.
    destruct (Z.ltb_spec (InPin1 i) (VtoC IN1_NEAR_5V)) as [H1|H1].
    + unfold InputPortTick, P. cbn. rewrite HF0. cbn.
      split; [|split; [|split]].
      * destruct (InPin1 i >? VtoC IN1_NEAR_PIN2); [reflexivity|].
        destruct (InPin1 i <? VtoC IN1_NEAR_GND); reflexivity.
      * intros _. split; [|split; [|split]].
        -- destruct (InPin1 i >? VtoC IN1_NEAR_PIN2); [reflexivity|].
           destruct (InPin1 i <? VtoC IN1_NEAR_GND); reflexivity.
        -- intros Hgt. destruct (Z.gtb_spec (InPin1 i) (VtoC IN1_NEAR_PIN2)); [|lia].
           split; reflexivity.
        -- intros Hle Hlt. destruct (Z.gtb_spec (InPin1 i) (VtoC IN1_NEAR_PIN2)); [lia|].
           destruct (Z.ltb_spec (InPin1 i) (VtoC IN1_NEAR_GND)); [|lia]. split; reflexivity.
        -- intros Hle Hge. destruct (Z.gtb_spec (InPin1 i) (VtoC IN1_NEAR_PIN2)); [lia|].
           destruct (Z.ltb_spec (InPin1 i) (VtoC IN1_NEAR_GND)); [lia|]. split; reflexivity.
      * intros; lia.
      * intros; lia.
    + assert (H1b : (InPin1 i <? VtoC IN1_NEAR_5V) = false) by (apply Z.ltb_ge; lia).
      destruct (PINRead6 i) eqn:H6.
      * unfold InputPortTick, P. cbn. rewrite HF0. cbn.
        split; [reflexivity|]. split; [intros; lia|]. split.
        -- intros _ _. repeat split.
        -- intros _ Hf. discriminate Hf.
      * destruct (PINRead5 i) eqn:H5.
        -- exfalso. apply Hm. apply HZ; auto.
        -- unfold InputPortTick, P. cbn. rewrite HF0. cbn.
           split; [reflexivity|]. split; [intros; lia|]. split.
           ++ intros _ Hf. discriminate Hf.
           ++ intros _ _. repeat split.
Qed.

(** X6. The latency of the input port detection.  From [DCM_INIT], on
    readings that do not change and show some event, the port is
    classified by tick 40 exactly (400 ms): 1 tick of [DCM_INIT], 2 of
    [DCM_FLOATING_DELAY], 35 of [DCM_FLOATING], 1 of [DCM_CONNECTION] and
    the tick of the classifying state.  Up to tick 39 the results table
    shows none/none and [Connected] is untouched.  At tick 40 the port is
    Connected and classified as the ladder and the classifying state
    have it: pin 1 loaded gives Error above [VtoC IN1_NEAR_PIN2], else
    UART below [VtoC IN1_NEAR_GND], else the dumb input device; pin 1 at
    rest with pin 6 high gives NXT IIC; pin 1 at rest, pin 6 low (and so
    pin 5 low) gives Error. *)
Theorem steady_input_classified_at_tick_40 (Port : Z) (i : INPUT)
    (c : CELLS) (sh : SHARED) :
  State (InputPort c) = DCM_INIT ->
  FSMEnabled (InputPort c) <> 0 ->
  FloatingEvent i <> 0 ->
  (forall n, (1 <= n < 40)%nat ->
     let c' := fst (InputPortRun Port (replicate n i) (c, sh)) in
     InDcm c' = TYPE_NONE /\ InConn c' = CONN_NONE /\
     Connected (InputPort c') = Connected (InputPort c)) /\
  let c' := fst (InputPortRun Port (replicate 40 i) (c, sh)) in
  Connected (InputPort c') = 1 /\
  (InPin1 i < VtoC IN1_NEAR_5V ->
   State (InputPort c') = DCM_CONNECTED_WAITING_FOR_PIN1_TO_FLOAT /\
   (InPin1 i > VtoC IN1_NEAR_PIN2 -> InDcm c' = TYPE_ERROR /\ InConn c' = CONN_ERROR) /\
   (InPin1 i <= VtoC IN1_NEAR_PIN2 -> InPin1 i < VtoC IN1_NEAR_GND ->
    InDcm c' = TYPE_UNKNOWN /\ InConn c' = CONN_INPUT_UART) /\
   (InPin1 i <= VtoC IN1_NEAR_PIN2 -> InPin1 i >= VtoC IN1_NEAR_GND ->
    InDcm c' = TYPE_UNKNOWN /\ InConn c' = CONN_INPUT_DUMB)) /\
  (InPin1 i >= VtoC IN1_NEAR_5V -> PINRead6 i = true ->
   State (InputPort c') = DCM_CONNECTED_WAITING_FOR_PIN6_LOW /\
   InDcm c' = TYPE_NXT_IIC /\ InConn c' = CONN_NXT_IIC) /\
  (InPin1 i >= VtoC IN1_NEAR_5V -> PINRead6 i = false ->
   PINRead5 i = false /\
   State (InputPort c') = DCM_CONNECTED_WAITING_FOR_PIN5_HIGH /\
   InDcm c' = TYPE_ERROR /\ InConn c' = CONN_ERROR).
Proof.
  intros HS HF Hm. split.
  - exact (steady_before_40 Port i c sh HS HF Hm).
  - exact (steady_at_40 Port i c sh HS HF Hm).
Qed.

End InputDcmMore.

Section InputDcmMoreWitnesses.
Import NxtColor InputDcm.

(** A port that entered the wait with its timer at 0 is released by the
    tenth tick, here with pin 1 held at ground and pins 5 and 6 active. *)
Lemma pin2_wait_releases_unconditionally_witness :
  let c := Examples.in_cells DCM_CONNECTED_WAITING_FOR_PIN2_HIGH 0x02 0 in
  let ticks := replicate 10 (Examples.in_input 0 false true) in
  State (InputPort (fst (@InputPortRun lms2012 0 ticks (c, Examples.shared0)))) = DCM_INIT.
Proof.
  intros c ticks.
  pose proof (@pin2_wait_releases_unconditionally lms2012 0 ticks c Examples.shared0
                eq_refl) as H.
  destruct H as [_ H]; [vm_compute; discriminate | vm_compute; split; [discriminate | reflexivity] |].
  apply H. reflexivity.
Defined.


(** A sensor that loads pin 1 to 2000 counts: reported as a dumb input
    device with tick 40. *)
Lemma steady_input_classified_at_tick_40_witness :
  let c := Examples.in_cells DCM_INIT 0 0 in
  let i := Examples.in_input 2000 true false in
  InConn (fst (@InputPortRun lms2012 0 (replicate 40 i) (c, Examples.shared0)))
  = CONN_INPUT_DUMB.
Proof.
  intros c i.
  destruct (@steady_input_classified_at_tick_40 lms2012 0 i c Examples.shared0 eq_refl)
    as (_ & _ & H & _).
  - vm_compute. discriminate.
  - vm_compute. discriminate.
  - destruct H as (_ & _ & _ & H); [vm_compute; reflexivity|].
    apply H; vm_compute; discriminate.
Defined.

End InputDcmMoreWitnesses.

(** ** Further properties of the output port DCM *)
Section OutputDcmMore.
Import OutputDcm OutputDcmSpec.
Context {hw : Platform}.





End OutputDcmMore.

Section OutputDcmMoreWitnesses.
Import OutputDcm OutputDcmSpec.


End OutputDcmMoreWitnesses.

(** ** The start-up delay and the test mode *)
Section DcmRunProperties.
Import NxtColor Dcm DcmRun TestPin.
Context {hw : Platform}.





End DcmRunProperties.

Section DcmRunWitnesses.
Import NxtColor Dcm DcmRun TestPin.



End DcmRunWitnesses.

(** ** The SPI transfer *)
Section SpiProperties.
Import Spi SpiSpec.

Lemma mask_bit15 (x : Z) : negb (Z.land x 0x8000 =? 0) = Z.testbit x 15.
Proof.
  change 0x8000 with (Z.shiftl 1 15).
  rewrite <- (bit_set_testbit x 15) by lia. reflexivity.
Qed.

(** The word after [DataOut <<= 1]. *)
Lemma shifted_out_bit (x m : Z) :
  0 <= m < 16 -> Z.testbit (UWORD (Z.shiftl x 1)) m = Z.testbit x (m - 1).
Proof.
  intros Hm. unfold UWORD. change 65536 with (2 ^ 16).
  rewrite Z.mod_pow2_bits_low by lia.
  apply Z.shiftl_spec. lia.
Qed.

Lemma SpiClock_wire (SOMI : nat -> bool) (n : nat) :
  forall (k : nat) (DataOut DataIn : Z) (w : list WIRE),
    (n <= 16)%nat ->
    snd (SpiClock n k SOMI DataOut DataIn w) =
    w ++ flat_map (fun b => [SIMO b; CLK true; CLK false])
           (map (fun j => Z.testbit DataOut (15 - Z.of_nat j)) (seq 0 n)).
Proof.
  induction n as [|n IH]; intros k DataOut DataIn w Hn.
  - cbn. rewrite app_nil_r. reflexivity.
  - cbn [SpiClock]. rewrite IH by lia.
    rewrite <- !app_assoc. f_equal.
    cbn [seq map flat_map app]. rewrite mask_bit15.
    change (15 - Z.of_nat 0) with 15. do 3 f_equal.
    rewrite <- seq_shift, map_map.
    f_equal. apply map_ext_in. intros j Hj. apply in_seq in Hj.
    rewrite shifted_out_bit by lia. f_equal. lia.
Qed.

(** X7. [SpiUpdate] frames every transfer with chip select and sends the
    16 low bits of [DataOut] most significant first, each set on the data
    line before its own clock pulse, whatever the slave answers. *)
Theorem spi_sends_msb_first (SOMI : nat -> bool) (DataOut : Z) :
  snd (SpiUpdate SOMI DataOut) = Frame (Bits16 DataOut).
Proof.
  unfold SpiUpdate, Frame, Bits16.
  pose proof (SpiClock_wire SOMI 16 0 DataOut 0 [SCS false] (le_n 16)) as H.
  destruct (SpiClock 16 0 SOMI DataOut 0 [SCS false]) as [d w]. cbn [snd] in *.
  rewrite H, <- app_assoc. reflexivity.
Qed.

Lemma shift_in_bit (x : Z) (b : bool) :
  0 <= x -> 2 * x + 1 < 65536 ->
  (if b then UWORD (Z.lor (UWORD (Z.shiftl x 1)) 1) else UWORD (Z.shiftl x 1))
  = 2 * x + Z.b2z b.
Proof.
  intros H0 H1. rewrite Z.shiftl_mul_pow2 by lia. change (2 ^ 1) with 2.
  rewrite (UWORD_small (x * 2)) by lia.
  destruct b; cbn [Z.b2z]; [|lia].
  rewrite <- Z.add_nocarry_lor.
  - rewrite UWORD_small by lia. lia.
  - change 1 with (Z.ones 1). rewrite Z.land_ones by lia.
    change (2 ^ 1) with 2. apply Z_mod_mult.
Qed.

Lemma low_bits_succ (w : Z) (n : nat) :
  w mod 2 ^ Z.of_nat (S n) =
  w mod 2 ^ Z.of_nat n + 2 ^ Z.of_nat n * Z.b2z (Z.testbit w (Z.of_nat n)).
Proof.
  rewrite Nat2Z.inj_succ, Z.pow_succ_r by lia.
  rewrite (Z.mul_comm 2), Z.rem_mul_r by (try apply Z.pow_nonzero; lia).
  rewrite Z.testbit_spec' by lia. reflexivity.
Qed.

Lemma SpiClock_word (SOMI : nat -> bool) (w : Z) (n : nat) :
  forall (k : nat) (DataOut DataIn : Z) (wire : list WIRE),
    (n <= 16)%nat ->
    0 <= DataIn < 2 ^ (16 - Z.of_nat n) ->
    (forall j, (j < n)%nat -> SOMI (k + j)%nat = Z.testbit w (Z.of_nat n - 1 - Z.of_nat j)) ->
    fst (SpiClock n k SOMI DataOut DataIn wire) = DataIn * 2 ^ Z.of_nat n + w mod 2 ^ Z.of_nat n.
Proof.
  induction n as [|n IH]; intros k DataOut DataIn wire Hn H1 HS.
  - cbn. rewrite Z.mod_1_r. lia.
  - cbn [SpiClock].
    assert (Hpow : 2 ^ (16 - Z.of_nat n) = 2 * 2 ^ (16 - Z.of_nat (S n))).
    { rewrite <- Z.pow_succ_r by lia. f_equal. lia. }
    assert (Hle : 2 ^ (16 - Z.of_nat n) <= 2 ^ 16) by (apply Z.pow_le_mono_r; lia).
    change (2 ^ 16) with 65536 in Hle.
    assert (Hb : SOMI k = Z.testbit w (Z.of_nat n)).
    { rewrite <- (Nat.add_0_r k) at 1. rewrite (HS 0%nat) by lia. f_equal. lia. }
    assert (Hd : 2 * DataIn + 1 < 65536) by lia.
    rewrite (shift_in_bit DataIn (SOMI k) (proj1 H1) Hd).
    rewrite IH.
    + rewrite low_bits_succ, Hb, Nat2Z.inj_succ, Z.pow_succ_r by lia. ring.
    + lia.
    + destruct (SOMI k); cbn [Z.b2z]; lia.
    + intros j Hj. replace (S k + j)%nat with (k + S j)%nat by lia.
      rewrite (HS (S j)) by lia. f_equal. lia.
Qed.

(** X8. [SpiUpdate] assembles the answer most significant bit first: when
    the slave shifts out the 16-bit word [w], [SpiUpdate] returns [w],
    whatever is sent; and what [Device1TimerInterrupt1] stores for a
    sample is the low 12 bits of the answer. *)
Theorem spi_receives_msb_first (SOMI : nat -> bool) (w DataOut Input : Z) :
  0 <= w < 65536 ->
  Answers SOMI w ->
  fst (SpiUpdate SOMI DataOut) = w /\
  AdcSample SOMI Input = w mod 4096.
Proof.
  intros Hw HA.
  assert (H : forall D, fst (SpiUpdate SOMI D) = w).
  { intros D. unfold SpiUpdate.
    pose proof (SpiClock_word SOMI w 16 0 D 0 [SCS false]) as H.
    destruct (SpiClock 16 0 SOMI D 0 [SCS false]) as [d wire]. cbn [fst] in *.
    rewrite H.
    - change (2 ^ Z.of_nat 16) with 65536. rewrite Z.mod_small by lia. lia.
    - lia.
    - change (2 ^ (16 - Z.of_nat 16)) with 1. lia.
    - intros j Hj. cbn [Nat.add]. rewrite (HA j Hj). f_equal; lia. }
  split; [apply H|].
  unfold AdcSample. rewrite H.
  change 0x0FFF with (Z.ones 12). rewrite Z.land_ones by lia. reflexivity.
Qed.

(** X9. The conversion command names the channel in bits 10 to 7: for a
    physical channel from 0 to 15 the word sent is [0x1840 + 128 * Input],
    so the 16 bits on the data line are 0, 0, 0, 1, 1, the four bits of
    the channel number, most significant first, and 1, 0, 0, 0, 0, 0, 0. *)
Theorem adc_command_names_the_channel (SOMI : nat -> bool) (Input : Z) :
  0 <= Input < 16 ->
  AdcCommand Input = 0x1840 + 128 * Input /\
  snd (SpiUpdate SOMI (AdcCommand Input)) =
    Frame ([false; false; false; true; true;
            Z.testbit Input 3; Z.testbit Input 2; Z.testbit Input 1; Z.testbit Input 0;
            true; false; false; false; false; false; false]).
Proof.
  intros HI.
  assert (Hc : forall x, x ∈ seqZ 0 16 ->
            AdcCommand x = 0x1840 + 128 * x /\
            Bits16 (AdcCommand x) =
              [false; false; false; true; true;
               Z.testbit x 3; Z.testbit x 2; Z.testbit x 1; Z.testbit x 0;
               true; false; false; false; false; false; false]).
  { apply Forall_forall.
    let l := eval vm_compute in (seqZ 0 16) in change (seqZ 0 16) with l.
    repeat (apply Forall_cons; split; [split; vm_compute; reflexivity|]).
    apply Forall_nil. exact I. }
  destruct (Hc Input) as [H1 H2].
  { apply elem_of_seqZ. lia. }
  split; [exact H1|]. rewrite spi_sends_msb_first, H2. reflexivity.
Qed.

End SpiProperties.

Section SpiWitnesses.
Import Spi SpiSpec.

(** A slave that answers 0x0ABC. *)
Lemma spi_receives_msb_first_witness :
  let SOMI := fun k : nat => Z.testbit 0x0ABC (15 - Z.of_nat k) in
  fst (SpiUpdate SOMI 0x1840) = 0x0ABC.
Proof.
  intros SOMI.
  destruct (spi_receives_msb_first SOMI 0x0ABC 0x1840 0) as [H _].
  - lia.
  - intros k Hk. reflexivity.
  - exact H.
Defined.

(** Channel 14, the physical channel of pin 1 of input port 1. *)
Lemma adc_command_names_the_channel_witness :
  Spi.AdcCommand 14 = 0x1F40.
Proof.
  destruct (adc_command_names_the_channel (fun _ => false) 14) as [H _].
  - lia.
  - exact H.
Defined.

End SpiWitnesses.

(** ** The commands of the control channel and of the DCM device *)
Section WriteProperties.
Import NxtColor InputDcm Dcm DcmWrite.
Context {hw : Platform}.

(** X10. The 'e' command switches the automatic detection of each port by
    its character and touches nothing else: '0' clears [FSMEnabled], and
    the next tick then holds the port in [DCM_DISABLED], marked connected,
    whatever it was doing; '1' sets it, and a port that was held is back
    in detection after two ticks, floated and reported as none/none, but
    still marked as connected as the hold left it; any other character
    leaves the port as it is. *)
Theorem enable_command_switches_detection (Count : Z) (Block : list Z)
    (ports : list CELLS) (Port : nat) (c : CELLS) :
  Count >= Z.of_nat INPUTS ->
  Block !! 0%nat = Some 101 ->
  (Port < INPUTS)%nat ->
  ports !! Port = Some c ->
  let Char := BufChar Block Port in
  exists c', fst (Device1Write Count Block ports) !! Port = Some c' /\
    (Char = 48 ->
     c' = port_set (set_FSMEnabled 0) c /\
     forall i sh,
       InputPortTick (Z.of_nat Port) i (c', sh) =
       (port_set (set_Connected 1)
          (port_set (set_Timer 0) (port_set (set_State DCM_DISABLED) c')), sh)) /\
    (Char = 49 ->
     c' = port_set (set_FSMEnabled 1) c /\
     (State (InputPort c) = DCM_DISABLED ->
      forall i1 i2 sh,
        let c2 := fst (InputPortRun (Z.of_nat Port) [i1; i2] (c', sh)) in
        State (InputPort c2) = DCM_FLOATING_DELAY /\
        InDcm c2 = TYPE_NONE /\ InConn c2 = CONN_NONE /\
        Pin5 c2 = PinFloating /\ Pin6 c2 = PinFloating /\ Buf c2 = PinHigh /\
        NxtColorActive c2 = 0 /\
        Connected (InputPort c2) = Connected (InputPort c))) /\
    (Char <> 48 -> Char <> 49 -> c' = c).
Proof.
  intros HCount HB0 HPort Hc Char.
  unfold Device1Write.
  destruct (Z.geb_spec Count (Z.of_nat INPUTS)) as [_|Hlt]; [|lia].
  rewrite HB0. change (default 0 (Some 101)) with 101.
  change (101 =? 101) with true. cbn match. cbn [fst].
  rewrite for_ports_lookup.
  destruct (decide (Port < INPUTS)%nat) as [_|Hn]; [|lia].
  rewrite Hc. cbn [fmap option_fmap option_map].
  exists (EnableSwitch (BufChar Block Port) c). split; [reflexivity|].
  fold Char. clearbody Char. unfold EnableSwitch.
  destruct c as [[V Cn Cm S O E T F] D K N A LI LO NA NC M P5 P6 B].
  split; [|split].
  - intros ->. change (48 =? 45) with false. change (48 =? 48) with true. cbn match.
    split; [reflexivity|]. intros i sh. reflexivity.
  - intros ->. change (49 =? 45) with false. change (49 =? 48) with false.
    change (49 =? 49) with true. cbn match.
    split; [reflexivity|]. cbn. intros -> i1 i2 sh. repeat split.
  - intros H48 H49.
    destruct (Z.eqb_spec Char 45); [reflexivity|].
    destruct (Z.eqb_spec Char 48); [contradiction|].
    destruct (Z.eqb_spec Char 49); [contradiction|]. reflexivity.
Qed.

Lemma digit_mask (d : Z) : 0 <= d <= 7 -> Z.land (48 + d) 0xF8 = 48.
Proof.
  intros H.
  assert (Hd : d = 0 \/ d = 1 \/ d = 2 \/ d = 3 \/ d = 4 \/ d = 5 \/ d = 6 \/ d = 7) by lia.
  destruct Hd as [-> | [-> | [-> | [-> | [-> | [-> | [-> | ->]]]]]]]; reflexivity.
Qed.

Lemma digit_bit1 (d : Z) :
  0 <= d <= 7 -> negb (Z.land (48 + d) 0x02 =? 0) = Z.testbit d 1.
Proof.
  intros H.
  assert (Hd : d = 0 \/ d = 1 \/ d = 2 \/ d = 3 \/ d = 4 \/ d = 5 \/ d = 6 \/ d = 7) by lia.
  destruct Hd as [-> | [-> | [-> | [-> | [-> | [-> | [-> | ->]]]]]]]; reflexivity.
Qed.

Lemma mask_is_digit (Char : Z) :
  0 <= Char < 256 -> Z.land Char 0xF8 = 48 -> 48 <= Char <= 55.
Proof.
  intros H HM.
  assert (HA : forallb (fun x => implb (Z.land x 0xF8 =? 48) ((48 <=? x) && (x <=? 55)))
                 (seqZ 0 256) = true) by (vm_compute; reflexivity).
  rewrite forallb_forall in HA.
  assert (HI : List.In Char (seqZ 0 256)).
  { apply list_elem_of_In, elem_of_seqZ. lia. }
  specialize (HA Char HI). rewrite HM in HA. change (48 =? 48) with true in HA.
  cbn [implb] in HA. apply andb_prop in HA. destruct HA as [H1 H2].
  apply Z.leb_le in H1, H2. lia.
Qed.

Lemma PinSwitch_colour (Char : Z) (c : CELLS) :
  Connected (InputPort c) <> 0 -> 0x0D <= Char <= 0x11 ->
  PinSwitch Char c =
  port_set (set_State DCM_NXT_COLOR_INIT)
    (port_set (set_Timer 0) (port_set (set_Cmd Char) c)).
Proof.
  intros HConn HR. unfold PinSwitch.
  destruct (Z.eqb_spec (Connected (InputPort c)) 0) as [E|_]; [contradiction|].
  assert (HC : Char = 13 \/ Char = 14 \/ Char = 15 \/ Char = 16 \/ Char = 17) by lia.
  destruct HC as [-> | [-> | [-> | [-> | ->]]]]; reflexivity.
Qed.

Lemma colour_init_tick (Port : Z) (i : INPUT) (c : CELLS) (sh : SHARED) :
  FSMEnabled (InputPort c) <> 0 ->
  State (InputPort c) = DCM_NXT_COLOR_INIT ->
  InputPortTick Port i (c, sh) =
  (port_set (set_State DCM_NXT_COLOR_WAIT)
     (port_set (set_Timer 0)
        (set_Comm (set_NxtColorState 0 (Comm c)) (set_NxtcolorCmd 0 c))),
   snd (NxtColorCommStop Port (Comm c, sh))).
Proof.
  destruct c as [[V Cn Cm S O E T F] D K N A LI LO NA NC M P5 P6 B].
  cbn [InputPort FSMEnabled State]. intros HF ->.
  unfold InputPortTick. cbn [InputPort FSMEnabled State].
  destruct (Z.eqb_spec F 0) as [E0|_]; [contradiction|]. reflexivity.
Qed.

Lemma colour_wait_tick (Port : Z) (i : INPUT) (c : CELLS) (sh : SHARED) :
  FSMEnabled (InputPort c) <> 0 ->
  State (InputPort c) = DCM_NXT_COLOR_WAIT ->
  NxtcolorCmd c = 0 ->
  NxtcolorLatchedCmd i <> 0 ->
  InputPortTick Port i (c, sh) = (c, sh).
Proof.
  destruct c as [[V Cn Cm S O E T F] D K N A LI LO NA NC M P5 P6 B].
  cbn [InputPort FSMEnabled State NxtcolorCmd]. intros HF -> -> HL.
  unfold InputPortTick. cbn [InputPort FSMEnabled State NxtcolorCmd].
  destruct (Z.eqb_spec F 0) as [E0|_]; [contradiction|]. cbn.
  destruct (Z.eqb_spec 0 (NxtcolorLatchedCmd i)) as [E1|_]; [congruence|]. reflexivity.
Qed.

Lemma colour_wait_run (Port : Z) (c : CELLS) (sh : SHARED) (waits : list INPUT) :
  FSMEnabled (InputPort c) <> 0 ->
  State (InputPort c) = DCM_NXT_COLOR_WAIT ->
  NxtcolorCmd c = 0 ->
  Forall (fun i => NxtcolorLatchedCmd i <> 0) waits ->
  InputPortRun Port waits (c, sh) = (c, sh).
Proof.
  intros HF HS HC HW. induction HW as [|i waits Hi HW IH]; [reflexivity|].
  rewrite InputPortRun_cons, colour_wait_tick by assumption. exact IH.
Qed.

Lemma colour_start_tick (Port : Z) (i : INPUT) (c : CELLS) (sh : SHARED) :
  FSMEnabled (InputPort c) <> 0 ->
  State (InputPort c) = DCM_NXT_COLOR_WAIT ->
  NxtcolorCmd c = 0 ->
  NxtcolorLatchedCmd i = 0 ->
  InputPortTick Port i (c, sh) =
  (port_set (set_State DCM_NXT_COLOR_BUSY)
     (set_Comm (mkCOMM 1 0 0 0 0 (Cmd (InputPort c)) (NxtColorBuffer (Comm c))) c),
   snd (NxtColorCommStart Port (Cmd (InputPort c)) (Comm c, sh))).
Proof.
  destruct c as [[V Cn Cm S O E T F] D K N A LI LO NA NC M P5 P6 B].
  cbn [InputPort FSMEnabled State NxtcolorCmd]. intros HF -> -> HL.
  unfold InputPortTick. cbn [InputPort FSMEnabled State NxtcolorCmd].
  destruct (Z.eqb_spec F 0) as [E0|_]; [contradiction|]. cbn.
  rewrite HL. change (0 =? 0) with true. reflexivity.
Qed.

Lemma stop_clears_bit (Port : Z) (m : COMM) (sh : SHARED) :
  0 <= Port < 8 ->
  Z.testbit (NxtColorInitInUse (snd (NxtColorCommStop Port (m, sh)))) Port = false.
Proof.
  intros HP. cbn [NxtColorCommStop snd NxtColorInitInUse]. unfold UBYTE.
  change 256 with (2 ^ 8). rewrite Z.mod_pow2_bits_low by lia.
  rewrite Z.land_spec, Z.lnot_spec by lia.
  rewrite Z.shiftl_spec by lia. rewrite Z.sub_diag.
  change (Z.testbit 1 0) with true. apply andb_false_r.
Qed.

Lemma start_sets_bit (Port Cmd : Z) (m : COMM) (sh : SHARED) :
  0 <= Port < 8 ->
  Z.testbit (NxtColorInitInUse (snd (NxtColorCommStart Port Cmd (m, sh)))) Port = true.
Proof.
  intros HP. cbn [NxtColorCommStart snd NxtColorInitInUse]. unfold UBYTE.
  change 256 with (2 ^ 8). rewrite Z.mod_pow2_bits_low by lia.
  rewrite Z.lor_spec. rewrite Z.shiftl_spec by lia. rewrite Z.sub_diag.
  change (Z.testbit 1 0) with true. apply orb_true_r.
Qed.

(** X11. What [Device3Write] does to one port, by the byte written for it:
    '-' changes nothing; 'f' floats the port's pins, connected or not; on
    a port that is not marked connected every other byte is ignored; on a
    connected port a digit '0' to '7' drives pin 5 high when bit 1 of the
    digit is set and low otherwise (bit 0, the 9V supply of pin 1, has no
    effect), a byte from [0x0D] to [0x11] is stored as the colour sensor
    command with the port sent to [DCM_NXT_COLOR_INIT] and its timer
    cleared, and all other bytes are ignored. *)
Theorem pin_command_decoding (Count : Z) (Block : list Z) (ports : list CELLS)
    (Port : nat) (c : CELLS) :
  Count >= Z.of_nat INPUTS ->
  (Port < INPUTS)%nat ->
  ports !! Port = Some c ->
  let Char := UBYTE (default 0 (Block !! Port)) in
  exists c', fst (Device3Write Count Block ports) !! Port = Some c' /\
    (Char = 45 -> c' = c) /\
    (Char = 102 -> c' = InputPortFloat c) /\
    (Char <> 102 -> Connected (InputPort c) = 0 -> c' = c) /\
    (Connected (InputPort c) <> 0 ->
     (forall d, 0 <= d <= 7 -> Char = 48 + d ->
        c' = set_Pin5 (if Z.testbit d 1 then PinHigh else PinLow) c) /\
     (0x0D <= Char <= 0x11 ->
        c' = port_set (set_State DCM_NXT_COLOR_INIT)
               (port_set (set_Timer 0) (port_set (set_Cmd Char) c))) /\
     (Char <> 102 -> ~ 48 <= Char <= 55 -> ~ 0x0D <= Char <= 0x11 -> c' = c)).
Proof.
  intros HCount HPort Hc Char.
  assert (HChar : 0 <= Char < 256) by (apply Z.mod_pos_bound; lia).
  unfold Device3Write.
  destruct (Z.geb_spec Count (Z.of_nat INPUTS)) as [_|Hlt]; [|lia].
  cbn [fst]. rewrite for_ports_lookup.
  destruct (decide (Port < INPUTS)%nat) as [_|Hn]; [|lia].
  rewrite Hc. cbn [fmap option_fmap option_map].
  exists (PinSwitch Char c). split; [reflexivity|].
  clearbody Char. unfold PinSwitch.
  split; [|split; [|split]].
  - intros ->. reflexivity.
  - intros ->. reflexivity.
  - intros H102 H0. rewrite H0.
    destruct (Z.eqb_spec Char 45); [reflexivity|].
    destruct (Z.eqb_spec Char 102); [contradiction|]. reflexivity.
  - intros HConn.
    destruct (Z.eqb_spec (Connected (InputPort c)) 0) as [E|_]; [contradiction|].
    cbn [negb]. split; [|split].
    + intros d Hd ->.
      destruct (Z.eqb_spec (48 + d) 45); [lia|].
      destruct (Z.eqb_spec (48 + d) 102); [lia|].
      rewrite digit_mask by exact Hd. change (48 =? 48) with true. cbn match.
      rewrite digit_bit1 by exact Hd.
      destruct (Z.testbit d 1); reflexivity.
    + intros HR.
      destruct (Z.eqb_spec Char 45); [lia|].
      destruct (Z.eqb_spec Char 102); [lia|].
      destruct (Z.eqb_spec (Z.land Char 248) 48) as [E|_].
      { apply mask_is_digit in E; lia. }
      destruct (Z.geb_spec Char 13); [|lia].
      destruct (Z.leb_spec Char 17); [|lia]. reflexivity.
    + intros H102 HD HR.
      destruct (Z.eqb_spec Char 45); [reflexivity|].
      destruct (Z.eqb_spec Char 102); [contradiction|].
      destruct (Z.eqb_spec (Z.land Char 248) 48) as [E|_].
      { apply mask_is_digit in E; lia. }
      destruct (Z.geb_spec Char 13), (Z.leb_spec Char 17); try reflexivity. lia.
Qed.

(** X12. A colour sensor command written to a connected port starts a
    session of the colour engine: the next tick clears [NxtcolorCmd] and
    stops the engine for the port, the port then waits while the ADC
    scheduler still holds a latched command other than zero, and on the
    first tick that finds it zero the engine is started with the byte
    written: state 1, the counters cleared, the port's bit set in
    [NxtColorInitInUse], the port in [DCM_NXT_COLOR_BUSY]. *)
Theorem colour_command_starts_a_session (Port : Z) (Char : Z) (c : CELLS)
    (sh : SHARED) (i1 i2 : INPUT) (waits : list INPUT) :
  0 <= Port < 8 ->
  Connected (InputPort c) <> 0 ->
  FSMEnabled (InputPort c) <> 0 ->
  0x0D <= Char <= 0x11 ->
  Forall (fun i => NxtcolorLatchedCmd i <> 0) waits ->
  NxtcolorLatchedCmd i2 = 0 ->
  let x0 := (PinSwitch Char c, sh) in
  let xw := InputPortRun Port (i1 :: waits) x0 in
  let x := InputPortRun Port (i1 :: waits ++ [i2]) x0 in
  State (InputPort (fst xw)) = DCM_NXT_COLOR_WAIT /\
  NxtColorState (Comm (fst xw)) = 0 /\
  Z.testbit (NxtColorInitInUse (snd xw)) Port = false /\
  State (InputPort (fst x)) = DCM_NXT_COLOR_BUSY /\
  Comm (fst x) = mkCOMM 1 0 0 0 0 Char (NxtColorBuffer (Comm c)) /\
  NxtcolorCmd (fst x) = 0 /\
  Z.testbit (NxtColorInitInUse (snd x)) Port = true /\
  InDcm (fst x) = InDcm c /\ InConn (fst x) = InConn c.
Proof.
  intros HP HConn HF HR HW H2 x0 xw x.
  assert (Hw : xw =
    (port_set (set_State DCM_NXT_COLOR_WAIT)
       (port_set (set_Timer 0)
          (set_Comm (set_NxtColorState 0 (Comm c))
             (set_NxtcolorCmd 0 (port_set (set_Cmd Char) c)))),
     snd (NxtColorCommStop Port (Comm c, sh)))).
  { unfold xw, x0. rewrite InputPortRun_cons, PinSwitch_colour by assumption.
    rewrite colour_init_tick by (destruct c as [[]]; assumption || reflexivity).
    rewrite colour_wait_run; [|destruct c as [[]]; assumption || reflexivity ..| exact HW].
    destruct c as [[]]; reflexivity. }
  assert (Hx : x = InputPortTick Port i2 xw).
  { unfold x, xw. rewrite app_comm_cons, InputPortRun_app. reflexivity. }
  rewrite Hx, Hw. clear Hx Hw x xw x0.
  rewrite colour_start_tick; [|destruct c as [[]]; assumption || reflexivity ..| exact H2].
  split; [destruct c as [[]]; reflexivity|].
  split; [destruct c as [[]]; reflexivity|].
  split; [apply stop_clears_bit; exact HP|].
  split; [destruct c as [[]]; reflexivity|].
  split; [destruct c as [[]]; reflexivity|].
  split; [destruct c as [[]]; reflexivity|].
  split; [apply start_sets_bit; exact HP|].
  split; destruct c as [[]]; reflexivity.
Qed.

End WriteProperties.

Section WriteWitnesses.
Import NxtColor InputDcm Dcm DcmWrite.

(** "e0000" on the ports after [Device3Init]. *)
Lemma enable_command_switches_detection_witness :
  FSMEnabled <$> (InputPort <$>
    fst (@Device1Write lms2012 5 Examples.buf_e0000 Examples.ports_default) !! 1%nat)
  = Some 0.
Proof.
  destruct (@enable_command_switches_detection lms2012 5 Examples.buf_e0000
              Examples.ports_default 1 (Examples.in_cells DCM_INIT 0 0))
    as (c' & Hc & H0 & _).
  - vm_compute. discriminate.
  - reflexivity.
  - vm_compute. lia.
  - reflexivity.
  - rewrite Hc. destruct H0 as [-> _]; reflexivity.
Defined.

(** A connected port 0 takes the bytes "2", then [0x0D]. *)
Lemma pin_command_decoding_witness :
  Pin5 <$> (fst (@Device3Write lms2012 4 [50; 45; 45; 45] WriteExamples.ports_connected) !! 0%nat)
  = Some PinHigh.
Proof.
  destruct (@pin_command_decoding lms2012 4 [50; 45; 45; 45] WriteExamples.ports_connected
              0 WriteExamples.connected_cells)
    as (c' & Hc & _ & _ & _ & H).
  - vm_compute. discriminate.
  - vm_compute. lia.
  - reflexivity.
  - rewrite Hc. destruct H as [Hd _]; [vm_compute; discriminate|].
    rewrite (Hd 2); [reflexivity | lia | reflexivity].
Defined.

Lemma colour_command_starts_a_session_witness :
  let x := @InputPortRun lms2012 0
             [WriteExamples.idle_input; WriteExamples.latched_input; WriteExamples.idle_input]
             (@PinSwitch 0x0D WriteExamples.connected_cells, mkSHARED 0 false) in
  State (InputPort (fst x)) = DCM_NXT_COLOR_BUSY /\
  NxtColorCmd (Comm (fst x)) = 0x0D /\
  NxtColorInitInUse (snd x) = 1.
Proof.
  pose proof (@colour_command_starts_a_session lms2012 0 0x0D WriteExamples.connected_cells
                (mkSHARED 0 false) WriteExamples.idle_input WriteExamples.idle_input
                [WriteExamples.latched_input]) as H.
  cbv zeta in H.
  destruct H as (_ & _ & _ & HS & HC & _).
  - lia.
  - vm_compute. discriminate.
  - vm_compute. discriminate.
  - lia.
  - repeat constructor. vm_compute. discriminate.
  - reflexivity.
  - split; [exact HS|]. split; [exact (f_equal NxtColorCmd HC) | reflexivity].
Defined.

End WriteWitnesses.
